(** * xhs-publisher: the browser control panel, embedded and verified

    The repository holds two single-page clients and their service workers:

    - [src/api/static/app.js] and [src/api/static/sw.js]: the panel of the
      local backend (job launcher, log socket, preview and publish);
    - [src/docs/app.js] and [src/docs/sw.js]: the panel of the cloud variant
      (settings store, workflow dispatch).

    Every JavaScript function is embedded as a Rocq function on an explicit
    record of the state it touches: module-level variables, the elements it
    reaches through [document.getElementById] and the calls it makes to the
    browser (timers, sockets, [fetch], [confirm], [localStorage]).  The
    elements are declared in [index.html], which is not part of the sources;
    they are taken to exist. *)

From stdpp Require Import base strings gmap list pretty.
From Stdlib Require Import ZArith Ascii Lia.

#[local] Set Warnings "-register-all".
#[local] Open Scope Z_scope.
#[local] Open Scope string_scope.

(** ** JavaScript values *)

Module JS.

(** What [JSON.parse] and property reads produce.  [Num] carries the
    integer-valued numbers; a fraction has no counterpart here. *)
Inductive value :=
  | Undefined
  | Null
  | Bool (b : bool)
  | Num (z : Z)
  | Str (s : string)
  | Arr (l : list value)
  | Obj (fields : list (string * value)).

Inductive exn :=
  | TypeError      (* property read on null/undefined, call of a non-function *)
  | SyntaxError    (* [JSON.parse] or [resp.json()] on text that is not JSON *)
  | NetworkError.  (* a rejected [fetch] *)

Definition nonempty (s : string) : bool :=
  match s with EmptyString => false | String _ _ => true end.

(** ToBoolean. *)
Definition truthy (v : value) : bool :=
  match v with
  | Undefined | Null => false
  | Bool b => b
  | Num z => negb (Z.eqb z 0)
  | Str s => nonempty s
  | Arr _ | Obj _ => true
  end.

(** [a || b] *)
Definition or (a b : value) : value := if truthy a then a else b.

Fixpoint lookup_field (k : string) (fs : list (string * value)) : value :=
  match fs with
  | [] => Undefined
  | (k', v) :: fs' => if String.eqb k k' then v else lookup_field k fs'
  end.

(** [v.k] for the property names the sources read ([type], [message],
    [value], [success], [error], [caption_title], [cover_title], [images],
    [models], [templates], [prompt_styles], [defaults], [id], [name],
    [description], [model], [template], [prompt_style], [api_key_set]):
    none of them is a built-in property of a string, number, boolean or
    array, so a read on those yields [undefined].  An object is the list of
    its own properties; a name bound twice reads as its first binding. *)
Definition get (v : value) (k : string) : exn + value :=
  match v with
  | Undefined | Null => inl TypeError
  | Obj fs => inr (lookup_field k fs)
  | Bool _ | Num _ | Str _ | Arr _ => inr Undefined
  end.

(** [a === b] against a string literal. *)
Definition is_str (v : value) (lit : string) : bool :=
  match v with Str s => String.eqb s lit | _ => false end.

(** [a === b] between two nodes of one parsed document: primitives compare
    by value, two arrays or objects are never the same node. *)
Definition strict_eq (a b : value) : bool :=
  match a, b with
  | Undefined, Undefined | Null, Null => true
  | Bool x, Bool y => Bool.eqb x y
  | Num x, Num y => Z.eqb x y
  | Str x, Str y => String.eqb x y
  | _, _ => false
  end.

(** *** Conversion to a string

    ToString (and ToNumber) of an object goes through its [toString]
    method.  A parsed object that has an own property of that name hides the
    inherited method behind a value that cannot be called, and the
    conversion throws a TypeError; so does the conversion of an array that
    holds such an object. *)
Fixpoint unprintable (v : value) : bool :=
  match v with
  | Obj fs => existsb (fun kv => String.eqb (fst kv) "toString") fs
  | Arr l =>
      (fix any (l : list value) : bool :=
         match l with
         | [] => false
         | x :: l' => unprintable x || any l'
         end) l
  | Undefined | Null | Bool _ | Num _ | Str _ => false
  end.

(** The conversion a DOM string attribute or a template literal applies to
    the value it is given: the value passes, or a TypeError is thrown. *)
Definition printable (v : value) : exn + value :=
  if unprintable v then inl TypeError else inr v.

(** ToString where it does not throw.  An array joins its elements with
    commas, null and undefined elements as empty; an object prints as
    "[object Object]"; numbers are integers of ordinary size. *)
Fixpoint to_string (v : value) : string :=
  match v with
  | Undefined => "undefined"
  | Null => "null"
  | Bool true => "true"
  | Bool false => "false"
  | Num z => pretty z
  | Str s => s
  | Arr l =>
      (fix join (l : list value) : string :=
         match l with
         | [] => EmptyString
         | x :: l' =>
             let e := match x with
                      | Undefined | Null => EmptyString
                      | _ => to_string x
                      end in
             match l' with
             | [] => e
             | _ :: _ => e ++ "," ++ join l'
             end
         end) l
  | Obj _ => "[object Object]"
  end.

(** *** Text handed to the DOM

    A DOM string property keeps the expression that was assigned to it:
    either a value as it is, or a template literal with its substitutions.
    [raw] and [template] build one as the assignment does, throwing where
    the conversion throws.  [render] gives the resulting characters;
    [Math.round] is rendered on numbers only. *)
Inductive piece :=
  | Lit (s : string)
  | Sub (v : value)        (* ${v} *)
  | Round (v : value).     (* ${Math.round(v)} *)

Inductive text :=
  | Raw (v : value)
  | Tpl (ps : list piece).

Definition lit (s : string) : text := Raw (Str s).

Definition piece_unprintable (p : piece) : bool :=
  match p with
  | Lit _ => false
  | Sub v | Round v => unprintable v
  end.

(** [el.textContent = v] *)
Definition raw (v : value) : exn + text :=
  if unprintable v then inl TypeError else inr (Raw v).

(** [`...${v}...`] *)
Definition template (ps : list piece) : exn + text :=
  if existsb piece_unprintable ps then inl TypeError else inr (Tpl ps).

Definition render_piece (p : piece) : option string :=
  match p with
  | Lit s => Some s
  | Sub v => Some (to_string v)
  | Round (Num z) => Some (pretty z)
  | Round _ => None
  end.

Fixpoint render_pieces (ps : list piece) : option string :=
  match ps with
  | [] => Some EmptyString
  | p :: ps' =>
      match render_piece p, render_pieces ps' with
      | Some a, Some b => Some (a ++ b)
      | _, _ => None
      end
  end.

(** [textContent] takes null and undefined as the empty string. *)
Definition render (t : text) : option string :=
  match t with
  | Raw (Undefined | Null) => Some EmptyString
  | Raw v => Some (to_string v)
  | Tpl ps => render_pieces ps
  end.

(** *** [String.prototype.trim]

    Strings are UTF-8 byte sequences; the white space and line terminator
    code points of ECMAScript are stripped from both ends. *)
Definition bytes (l : list nat) : string :=
  fold_right (fun n s => String (Ascii.ascii_of_nat n) s) "" l.

Definition whitespace : list string :=
  map bytes
    [ [9]; [10]; [11]; [12]; [13]; [32]            (* TAB LF VT FF CR SP *)
    ; [194; 160]                                   (* U+00A0 *)
    ; [225; 154; 128]                              (* U+1680 *)
    ; [226; 128; 128]; [226; 128; 129]; [226; 128; 130]; [226; 128; 131]
    ; [226; 128; 132]; [226; 128; 133]; [226; 128; 134]; [226; 128; 135]
    ; [226; 128; 136]; [226; 128; 137]; [226; 128; 138]   (* U+2000..200A *)
    ; [226; 128; 168]; [226; 128; 169]             (* U+2028 U+2029 *)
    ; [226; 128; 175]                              (* U+202F *)
    ; [226; 129; 159]                              (* U+205F *)
    ; [227; 128; 128]                              (* U+3000 *)
    ; [239; 187; 191]                              (* U+FEFF *)
    ]%nat.

Fixpoint strip_prefix (p s : string) : option string :=
  match p, s with
  | EmptyString, _ => Some s
  | String a p', String b s' => if Ascii.eqb a b then strip_prefix p' s' else None
  | String _ _, EmptyString => None
  end.

Fixpoint strip_any (ws : list string) (s : string) : option string :=
  match ws with
  | [] => None
  | w :: ws' =>
      match strip_prefix w s with
      | Some r => Some r
      | None => strip_any ws' s
      end
  end.

Fixpoint strip_all (ws : list string) (fuel : nat) (s : string) : string :=
  match fuel with
  | O => s
  | S fuel' =>
      match strip_any ws s with
      | Some r => strip_all ws fuel' r
      | None => s
      end
  end.

Definition trimStart (s : string) : string :=
  strip_all whitespace (String.length s) s.

Definition trimEnd (s : string) : string :=
  String.rev (strip_all (map String.rev whitespace) (String.length s) (String.rev s)).

Definition trim (s : string) : string := trimEnd (trimStart s).

End JS.

Coercion JS.lit : string >-> JS.text.

(** ** Effects: state, exceptions, [try]/[catch]/[finally] *)

Module Eff.
Section Monad.
Context {St : Type}.

(** A computation runs on the state and either completes or throws; what
    it wrote before a throw stays written. *)
Definition M (A : Type) : Type := St -> St * (JS.exn + A).

Definition ret {A} (a : A) : M A := fun s => (s, inr a).
Definition throw {A} (e : JS.exn) : M A := fun s => (s, inl e).

Definition bind {A B} (m : M A) (k : A -> M B) : M B :=
  fun s =>
    match m s with
    | (s', inr a) => k a s'
    | (s', inl e) => (s', inl e)
    end.

(** A statement that cannot throw. *)
Definition exec (f : St -> St) : M unit := fun s => (f s, inr tt).

Definition of_sum {A} (r : JS.exn + A) : M A := fun s => (s, r).

(** try { m } catch (e) { h e } *)
Definition try_catch {A} (m : M A) (h : JS.exn -> M A) : M A :=
  fun s =>
    match m s with
    | (s', inl e) => h e s'
    | (s', inr a) => (s', inr a)
    end.

(** try { m } finally { f }: [f] always runs; a throw of [f] replaces the
    completion of [m]. *)
Definition finally {A} (m : M A) (f : M unit) : M A :=
  fun s =>
    match m s with
    | (s', r) =>
        match f s' with
        | (s'', inr _) => (s'', r)
        | (s'', inl e) => (s'', inl e)
        end
    end.

Definition state_of {A} (r : St * (JS.exn + A)) : St := fst r.

Definition threw {A} (r : St * (JS.exn + A)) : bool :=
  match snd r with inl _ => true | inr _ => false end.

(** [l.forEach((x, i) => f i x)], from index [i]. *)
Fixpoint forEach {A} (f : nat -> A -> M unit) (i : nat) (l : list A) : M unit :=
  match l with
  | [] => ret tt
  | x :: l' => bind (f i x) (fun _ => forEach f (S i) l')
  end.

(** [m] leaves the view [f] of the state as it found it, thrown or not. *)
Definition keeps {A B} (f : St -> B) (m : M A) : Prop :=
  forall s, f (fst (m s)) = f s.
End Monad.

Arguments M : clear implicits.
End Eff.

Notation "'let*' x := m 'in' k" := (Eff.bind m (fun x => k))
  (at level 10, x name, m at level 100, k at level 200).
Notation "m ;; k" := (Eff.bind m (fun _ => k))
  (at level 100, k at level 200, right associativity).

(** ** What the browser hands back to an awaited [fetch] *)

Inductive fetch_result :=
  | Rejected
      (* the promise of [fetch] rejects: transport failure *)
  | Response (status : Z) (body : option JS.value).
      (* a response; [body] is what [resp.json()] resolves to, [None] when
         it rejects *)

(** [resp.ok] *)
Definition resp_ok (status : Z) : bool := (Z.leb 200 status) && (Z.leb status 299).

Record request := {
  req_method : string;
  req_url : string;
  req_headers : list (string * string);
  req_body : option JS.value   (* the object given to [JSON.stringify] *)
}.

Record button := { disabled : bool; innerHTML : string }.


(** ** The cloud panel: [src/docs/app.js] *)

Module Cloud.

(** Callbacks given to [setTimeout]. *)
Inductive task :=
  | HideToast     (* () => toast.classList.remove('show') *)
  | LoadRuns.     (* loadRuns *)

Record state := {
  localStorage : gmap string string;
  (* form controls: [.value] *)
  repoInput : string;
  patInput : string;
  urlInput : string;
  modelSelect : string;
  templateSelect : string;
  promptSelect : string;
  (* elements *)
  settingsContent_open : bool;   (* #settingsContent has class 'open' *)
  arrow : string;                (* .arrow textContent *)
  btnTrigger : button;
  statusMsg : JS.text;
  toast : JS.text;
  toast_show : bool;             (* #toast has class 'show' *)
  (* calls to the browser, oldest first *)
  timeouts : list (Z * task);    (* setTimeout(task, delay) *)
  requests : list request;       (* fetch(...) *)
  console : list JS.exn          (* console.error(e) *)
}.

(** One setter for each field the code writes. *)

Definition set_localStorage (v : gmap string string) (s : state) : state :=
  {| localStorage := v; repoInput := repoInput s; patInput := patInput s;
     urlInput := urlInput s; modelSelect := modelSelect s;
     templateSelect := templateSelect s; promptSelect := promptSelect s;
     settingsContent_open := settingsContent_open s; arrow := arrow s;
     btnTrigger := btnTrigger s; statusMsg := statusMsg s; toast := toast s;
     toast_show := toast_show s; timeouts := timeouts s; requests := requests s;
     console := console s |}.

Definition set_repoInput (v : string) (s : state) : state :=
  {| localStorage := localStorage s; repoInput := v; patInput := patInput s;
     urlInput := urlInput s; modelSelect := modelSelect s;
     templateSelect := templateSelect s; promptSelect := promptSelect s;
     settingsContent_open := settingsContent_open s; arrow := arrow s;
     btnTrigger := btnTrigger s; statusMsg := statusMsg s; toast := toast s;
     toast_show := toast_show s; timeouts := timeouts s; requests := requests s;
     console := console s |}.

Definition set_patInput (v : string) (s : state) : state :=
  {| localStorage := localStorage s; repoInput := repoInput s; patInput := v;
     urlInput := urlInput s; modelSelect := modelSelect s;
     templateSelect := templateSelect s; promptSelect := promptSelect s;
     settingsContent_open := settingsContent_open s; arrow := arrow s;
     btnTrigger := btnTrigger s; statusMsg := statusMsg s; toast := toast s;
     toast_show := toast_show s; timeouts := timeouts s; requests := requests s;
     console := console s |}.

Definition set_settingsContent_open (v : bool) (s : state) : state :=
  {| localStorage := localStorage s; repoInput := repoInput s;
     patInput := patInput s; urlInput := urlInput s; modelSelect := modelSelect s;
     templateSelect := templateSelect s; promptSelect := promptSelect s;
     settingsContent_open := v; arrow := arrow s; btnTrigger := btnTrigger s;
     statusMsg := statusMsg s; toast := toast s; toast_show := toast_show s;
     timeouts := timeouts s; requests := requests s; console := console s |}.

Definition set_arrow (v : string) (s : state) : state :=
  {| localStorage := localStorage s; repoInput := repoInput s;
     patInput := patInput s; urlInput := urlInput s; modelSelect := modelSelect s;
     templateSelect := templateSelect s; promptSelect := promptSelect s;
     settingsContent_open := settingsContent_open s; arrow := v;
     btnTrigger := btnTrigger s; statusMsg := statusMsg s; toast := toast s;
     toast_show := toast_show s; timeouts := timeouts s; requests := requests s;
     console := console s |}.

Definition set_btnTrigger (v : button) (s : state) : state :=
  {| localStorage := localStorage s; repoInput := repoInput s;
     patInput := patInput s; urlInput := urlInput s; modelSelect := modelSelect s;
     templateSelect := templateSelect s; promptSelect := promptSelect s;
     settingsContent_open := settingsContent_open s; arrow := arrow s;
     btnTrigger := v; statusMsg := statusMsg s; toast := toast s;
     toast_show := toast_show s; timeouts := timeouts s; requests := requests s;
     console := console s |}.

Definition set_statusMsg (v : JS.text) (s : state) : state :=
  {| localStorage := localStorage s; repoInput := repoInput s;
     patInput := patInput s; urlInput := urlInput s; modelSelect := modelSelect s;
     templateSelect := templateSelect s; promptSelect := promptSelect s;
     settingsContent_open := settingsContent_open s; arrow := arrow s;
     btnTrigger := btnTrigger s; statusMsg := v; toast := toast s;
     toast_show := toast_show s; timeouts := timeouts s; requests := requests s;
     console := console s |}.

Definition set_toast (v : JS.text) (s : state) : state :=
  {| localStorage := localStorage s; repoInput := repoInput s;
     patInput := patInput s; urlInput := urlInput s; modelSelect := modelSelect s;
     templateSelect := templateSelect s; promptSelect := promptSelect s;
     settingsContent_open := settingsContent_open s; arrow := arrow s;
     btnTrigger := btnTrigger s; statusMsg := statusMsg s; toast := v;
     toast_show := toast_show s; timeouts := timeouts s; requests := requests s;
     console := console s |}.

Definition set_toast_show (v : bool) (s : state) : state :=
  {| localStorage := localStorage s; repoInput := repoInput s;
     patInput := patInput s; urlInput := urlInput s; modelSelect := modelSelect s;
     templateSelect := templateSelect s; promptSelect := promptSelect s;
     settingsContent_open := settingsContent_open s; arrow := arrow s;
     btnTrigger := btnTrigger s; statusMsg := statusMsg s; toast := toast s;
     toast_show := v; timeouts := timeouts s; requests := requests s;
     console := console s |}.

Definition set_timeouts (v : list (Z * task)) (s : state) : state :=
  {| localStorage := localStorage s; repoInput := repoInput s;
     patInput := patInput s; urlInput := urlInput s; modelSelect := modelSelect s;
     templateSelect := templateSelect s; promptSelect := promptSelect s;
     settingsContent_open := settingsContent_open s; arrow := arrow s;
     btnTrigger := btnTrigger s; statusMsg := statusMsg s; toast := toast s;
     toast_show := toast_show s; timeouts := v; requests := requests s;
     console := console s |}.

Definition set_requests (v : list request) (s : state) : state :=
  {| localStorage := localStorage s; repoInput := repoInput s;
     patInput := patInput s; urlInput := urlInput s; modelSelect := modelSelect s;
     templateSelect := templateSelect s; promptSelect := promptSelect s;
     settingsContent_open := settingsContent_open s; arrow := arrow s;
     btnTrigger := btnTrigger s; statusMsg := statusMsg s; toast := toast s;
     toast_show := toast_show s; timeouts := timeouts s; requests := v;
     console := console s |}.

Definition set_console (v : list JS.exn) (s : state) : state :=
  {| localStorage := localStorage s; repoInput := repoInput s;
     patInput := patInput s; urlInput := urlInput s; modelSelect := modelSelect s;
     templateSelect := templateSelect s; promptSelect := promptSelect s;
     settingsContent_open := settingsContent_open s; arrow := arrow s;
     btnTrigger := btnTrigger s; statusMsg := statusMsg s; toast := toast s;
     toast_show := toast_show s; timeouts := timeouts s; requests := requests s;
     console := v |}.

Record settings := { repo : string; pat : string }.

(** [localStorage.getItem(k) || ''] *)
Definition getItem_or_empty (k : string) (s : state) : string :=
  default "" (localStorage s !! k).

Definition getSettings (s : state) : settings :=
  {| repo := getItem_or_empty "xhs_repo" s;
     pat := getItem_or_empty "xhs_pat" s |}.

Definition setItem (k v : string) (s : state) : state :=
  set_localStorage (<[k := v]> (localStorage s)) s.

Definition showToast (msg : JS.text) (s : state) : state :=
  set_timeouts (timeouts s ++ [(3000, HideToast)])
    (set_toast_show true (set_toast msg s)).

Definition api_headers (pat : string) : list (string * string) :=
  [("Authorization", "token " ++ pat);
   ("Accept", "application/vnd.github.v3+json")].

Definition fetch (r : request) (s : state) : state :=
  set_requests (requests s ++ [r]) s.

(** [loadRuns] up to its first [await]: the request for the run list leaves
    when both settings are present.  What it renders into [#runsList] once
    the response arrives is not read by any other function and is left out. *)
Definition loadRuns (s : state) : state :=
  let st := getSettings s in
  if negb (JS.nonempty (repo st)) || negb (JS.nonempty (pat st)) then s
  else
    fetch {| req_method := "GET";
             req_url := "https://api.github.com/repos/" ++ repo st
                        ++ "/actions/runs?per_page=5";
             req_headers := api_headers (pat st);
             req_body := None |} s.

Definition saveSettings (s : state) : state :=
  let repo := JS.trim (repoInput s) in
  let pat := JS.trim (patInput s) in
  let s1 := if JS.nonempty repo then setItem "xhs_repo" repo s else s in
  let s2 := if JS.nonempty pat then setItem "xhs_pat" pat s1 else s1 in
  let s3 := showToast "💾 设置已保存" s2 in
  if JS.nonempty repo && JS.nonempty pat then loadRuns s3 else s3.

Definition loadSettings (s : state) : state :=
  let st := getSettings s in
  set_patInput (pat st) (set_repoInput (repo st) s).

Definition showSettings (s : state) : state :=
  set_arrow "▲" (set_settingsContent_open true s).

Definition trigger_label : string := "<span>🚀</span> <span>触发云端发布</span>".
Definition settings_notice : string := "⚠️ 请先配置 Repo 和 PAT".
Definition url_notice : string := "⚠️ 请输入文章链接".

Definition dispatch_request (repo pat url : string) (s : state) : request :=
  {| req_method := "POST";
     req_url := "https://api.github.com/repos/" ++ repo ++ "/dispatches";
     req_headers := api_headers pat;
     req_body := Some (JS.Obj
       [("event_type", JS.Str "publish_trigger");
        ("client_payload", JS.Obj
          [("url", JS.Str url);
           ("model", JS.Str (modelSelect s));
           ("template", JS.Str (templateSelect s));
           ("prompt_style", JS.Str (promptSelect s))])]) |}.

(** [triggerAction] up to [await fetch(...)].  The result tells whether the
    function is suspended on the request ([true]) or has returned. *)
Definition triggerAction (s : state) : state * bool :=
  let st := getSettings s in
  if negb (JS.nonempty (repo st)) || negb (JS.nonempty (pat st)) then
    (showSettings (showToast settings_notice s), false)
  else
    let url := JS.trim (urlInput s) in
    if negb (JS.nonempty url) then
      (showToast url_notice s, false)
    else
      let s1 := set_btnTrigger {| disabled := true; innerHTML := "🚀 发送指令..." |} s in
      (fetch (dispatch_request (repo st) (pat st) url s1) s1, true).

(** The rest of [triggerAction], run when the request settles. *)
Definition triggerAction_resume (r : fetch_result) : Eff.M state unit :=
  Eff.finally
    (Eff.try_catch
       (match r with
        | Rejected => Eff.throw JS.NetworkError
        | Response status body =>
            if resp_ok status then
              Eff.exec (showToast "✅ 指令已发送！Actions 即将开始") ;;
              Eff.exec (set_statusMsg "✅ 指令已发送，请等待下方列表刷新...") ;;
              Eff.exec (fun s => set_timeouts (timeouts s ++ [(3000, LoadRuns)]) s)
            else
              let* err := Eff.of_sum (from_option inr (inl JS.SyntaxError) body) in
              let* m := Eff.of_sum (JS.get err "message") in
              let* notice := Eff.of_sum (JS.template
                [JS.Lit "❌ 发送失败: "; JS.Sub (JS.or m (JS.Num status))]) in
              Eff.exec (showToast notice) ;;
              let* m' := Eff.of_sum (JS.get err "message") in
              let* msg := Eff.of_sum (JS.template [JS.Lit "❌ 错误: "; JS.Sub m']) in
              Eff.exec (set_statusMsg msg)
        end)
       (fun e =>
          Eff.exec (showToast "❌ 网络错误") ;;
          Eff.exec (fun s => set_console (console s ++ [e]) s)))
    (Eff.exec (set_btnTrigger {| disabled := false; innerHTML := trigger_label |})).

(** *** Example data *)

Definition example_state : state :=
  {| localStorage := {["xhs_repo" := "owner/repo"; "xhs_pat" := "ghp_token"]};
     repoInput := "owner/repo"; patInput := "ghp_token";
     urlInput := "https://example.com/a";
     modelSelect := "m1"; templateSelect := "t1"; promptSelect := "p1";
     settingsContent_open := false; arrow := "▼";
     btnTrigger := {| disabled := false; innerHTML := trigger_label |};
     statusMsg := JS.Raw JS.Undefined; toast := JS.Raw JS.Undefined;
     toast_show := false; timeouts := []; requests := []; console := [] |}.

End Cloud.

(** ** The resource cache: [src/api/static/sw.js] and [src/docs/sw.js]

    The two workers are the same program up to three constants: the cache
    name, the manifest and the test that lets a request pass untouched. *)

Module SW.

(** [hay.includes(needle)] *)
Fixpoint includes (needle hay : string) : bool :=
  match JS.strip_prefix needle hay with
  | Some _ => true
  | None =>
      match hay with
      | EmptyString => false
      | String _ hay' => includes needle hay'
      end
  end.

(** A stored or fetched response, by its content. *)
Definition response := string.

(** A Cache maps the URL of a GET request to a response; the CacheStorage
    of the origin maps names to caches, in creation order. *)
Definition cache := list (string * response).
Definition storage := list (string * cache).

Record worker := {
  CACHE_NAME : string;
  URLS_TO_CACHE : list string;    (* resolved against the worker's location *)
  bypass : string -> bool         (* the guard of the fetch listener *)
}.

(** A manifest entry resolved against [base]: the origin for the absolute
    paths of the backend worker, the directory of the worker (with its final
    slash) for the "./" paths of the cloud worker. *)
Definition resolve (base u : string) : string :=
  match u with
  | String "."%char (String "/"%char rest) => base ++ rest
  | _ => base ++ u
  end.

(** [src/api/static/sw.js] *)
Definition api_worker (origin : string) : worker :=
  {| CACHE_NAME := "xhs-publisher-v1";
     URLS_TO_CACHE := map (resolve origin)
       ["/"; "/static/style.css"; "/static/app.js"; "/static/manifest.json"];
     bypass := fun url => includes "/api/" url || includes "/ws/" url |}.

(** [src/docs/sw.js] *)
Definition docs_worker (dir : string) : worker :=
  {| CACHE_NAME := "xhs-publisher-v1";
     URLS_TO_CACHE := map (resolve dir)
       ["./"; "./index.html"; "./style.css"; "./app.js"; "./manifest.json";
        "./icon-192.png"; "./icon-512.png"];
     bypass := fun url => includes "api.github.com" url |}.

(** *** Cache and CacheStorage *)

Fixpoint assoc {A} (k : string) (l : list (string * A)) : option A :=
  match l with
  | [] => None
  | (k', a) :: l' => if String.eqb k k' then Some a else assoc k l'
  end.

(** The URL up to its fragment. *)
Fixpoint no_fragment (url : string) : string :=
  match url with
  | EmptyString => EmptyString
  | String c rest =>
      if Ascii.eqb c "#"%char then EmptyString else String c (no_fragment rest)
  end.

(** [cache.match(request)]: the request of a GET is matched by its URL,
    fragment apart, query included. *)
Definition cache_match (url : string) (c : cache) : option response :=
  assoc (no_fragment url) c.

(** [caches.match(request)]: the first cache, in creation order, that holds
    the request. *)
Fixpoint caches_match (url : string) (cs : storage) : option response :=
  match cs with
  | [] => None
  | (_, c) :: cs' =>
      match cache_match url c with
      | Some r => Some r
      | None => caches_match url cs'
      end
  end.

(** [caches.keys()] *)
Definition keys (cs : storage) : list string := map fst cs.

(** [caches.delete(k)] *)
Definition delete (k : string) (cs : storage) : storage :=
  List.filter (fun e => negb (String.eqb (fst e) k)) cs.

(** [cache.put]: an entry for the same request is replaced. *)
Definition put (url : string) (r : response) (c : cache) : cache :=
  (List.filter (fun e => negb (String.eqb (fst e) url)) c ++ [(url, r)])%list.

(** The network as the worker sees it during one event: the response to a
    GET of each URL, [None] when the request fails. *)
Definition network := string -> option response.

Fixpoint fetch_all (net : network) (urls : list string) : option (list (string * response)) :=
  match urls with
  | [] => Some []
  | u :: urls' =>
      match net u, fetch_all net urls' with
      | Some r, Some rs => Some ((u, r) :: rs)
      | _, _ => None
      end
  end.

(** [cache.addAll(urls)]: all or nothing. *)
Definition addAll (net : network) (urls : list string) (c : cache) : option cache :=
  match fetch_all net urls with
  | Some rs => Some (fold_left (fun c e => put (fst e) (snd e) c) rs c)
  | None => None
  end.

(** [caches.open(name)] creates the cache when there is none. *)
Definition open (name : string) (cs : storage) : storage :=
  match assoc name cs with
  | Some _ => cs
  | None => (cs ++ [(name, [])])%list
  end.

Fixpoint replace (name : string) (c : cache) (cs : storage) : storage :=
  match cs with
  | [] => []
  | (n, c') :: cs' =>
      if String.eqb n name then (n, c) :: cs' else (n, c') :: replace name c cs'
  end.

(** *** The three listeners *)

(** 'install': [false] when the promise given to [waitUntil] rejects. *)
Definition install (w : worker) (net : network) (cs : storage) : storage * bool :=
  let cs1 := open (CACHE_NAME w) cs in
  match addAll net (URLS_TO_CACHE w) (default [] (assoc (CACHE_NAME w) cs1)) with
  | Some c => (replace (CACHE_NAME w) c cs1, true)
  | None => (cs1, false)
  end.

(** 'activate' *)
Definition activate (w : worker) (cs : storage) : storage :=
  fold_left (fun cs k => delete k cs)
    (List.filter (fun k => negb (String.eqb k (CACHE_NAME w))) (keys cs)) cs.

Inductive served :=
  | FromCache (r : response)
  | FromNetwork (r : option response).   (* fetch(event.request) *)

Inductive outcome :=
  | NotIntercepted        (* the listener returns: the browser does the request *)
  | RespondWith (r : served).

(** 'fetch', for the GET of [url]; [net] is what the network would answer.
    The storage is returned as the listener leaves it. *)
Definition fetch_listener (w : worker) (url : string) (net : option response)
    (cs : storage) : outcome * storage :=
  if bypass w url then (NotIntercepted, cs)
  else
    (RespondWith
       (match caches_match url cs with
        | Some r => FromCache r
        | None => FromNetwork net
        end), cs).

Definition served_from_cache (o : outcome) : bool :=
  match o with
  | RespondWith (FromCache _) => true
  | _ => false
  end.

(** *** Life of a worker *)

Inductive phase := Parsed | Installed | Activated | Redundant.

Record sw := { status : phase; caches : storage }.

Inductive event :=
  | Install (net : network)
  | Activate
  | Fetch (url : string) (net : option response).

(** The browser dispatches 'install' once, 'activate' after a successful
    install, and 'fetch' to the active worker only. *)
Definition step (w : worker) (st : sw) (e : event) : option sw :=
  match e, status st with
  | Install net, Parsed =>
      let '(cs, ok) := install w net (caches st) in
      Some {| status := if ok then Installed else Redundant; caches := cs |}
  | Activate, Installed =>
      Some {| status := Activated; caches := activate w (caches st) |}
  | Fetch url net, Activated =>
      Some {| status := Activated; caches := snd (fetch_listener w url net (caches st)) |}
  | _, _ => None
  end.

Fixpoint run (w : worker) (st : sw) (es : list event) : option sw :=
  match es with
  | [] => Some st
  | e :: es' =>
      match step w st e with
      | Some st' => run w st' es'
      | None => None
      end
  end.

(** The live URLs: the log socket and the paths of the backend API. *)
Definition is_live (url : string) : bool :=
  includes "/ws/logs" url || includes "/api/" url.

(** No manifest entry is a live URL, passes the listener untouched or has a
    fragment. *)
Definition static_manifest (w : worker) : bool :=
  forallb (fun u => negb (bypass w u) && negb (is_live u)
                    && String.eqb (no_fragment u) u)
    (URLS_TO_CACHE w).

(** The cache a successful install leaves under the worker's name. *)
Definition installed (w : worker) (net : network) : cache :=
  match addAll net (URLS_TO_CACHE w) [] with Some c => c | None => [] end.

(** A network that answers every request, for the examples. *)
Definition example_net : network := fun u => Some ("copy of " ++ u)%string.

End SW.

(** ** The backend panel: [src/api/static/app.js] *)

Module Backend.

(** [WebSocket.readyState] *)
Inductive readyState := CONNECTING | OPEN | CLOSING | CLOSED.

Record socket := { sock_url : string; sock_state : readyState }.

(** Callbacks given to [setTimeout] and [setInterval]. *)
Inductive task :=
  | HideToast     (* () => toast.classList.remove('show') *)
  | Reconnect     (* connectWebSocket *)
  | Heartbeat.    (* () => { if (ws && ws.readyState === WebSocket.OPEN) ws.send('ping') } *)

(** An async function suspended on its [fetch]. *)
Inductive job := ConfigJob | ManualJob | AutoJob | PublishJob.

(** An [img] appended to the carousel. *)
Record img := {
  className : string;
  src : JS.value;
  alt : JS.text;
  onclick : JS.value     (* the argument of openViewer *)
}.

(** An [option] appended to a drop-down. *)
Record option_el := {
  opt_value : JS.value;      (* the value assigned to .value *)
  opt_text : JS.text;        (* textContent *)
  opt_selected : bool        (* selectedness *)
}.

(** A drop-down, by its options in tree order. *)
Definition select := list option_el.

Inductive which := ModelSelect | TemplateSelect | PromptSelect.

Record state := {
  (* module-level variables *)
  ws : option nat;               (* index into [sockets]; null at load *)
  isProcessing : bool;
  (* the page location *)
  location_protocol : string;
  location_host : string;
  (* form controls *)
  urlInput : string;             (* .value *)
  modelSelect : select;
  templateSelect : select;
  promptSelect : select;
  (* elements *)
  connectionStatus : string;     (* textContent *)
  statusDot : string;            (* style.background *)
  btnManual : button;
  btnAuto : button;
  btnPublish : button;
  progressWrapper : bool;        (* has class 'active' *)
  progressBar : JS.text;         (* the text assigned to style.width *)
  progressText : JS.text;
  logPanel : bool;               (* has class 'active' *)
  logContainer : list JS.text;   (* textContent of the entries, in order *)
  previewPanel : bool;           (* has class 'active' *)
  previewTitle : JS.text;
  previewSubtitle : JS.text;
  imageCarousel : list img;
  imageViewer : bool;            (* has class 'active' *)
  viewerImage : JS.value;        (* src *)
  toast : JS.text;
  toast_show : bool;             (* has class 'show' *)
  (* the browser *)
  sockets : list socket;         (* every WebSocket created, in order *)
  sent : list (nat * string);    (* ws.send(msg), with the socket *)
  timeouts : list (Z * task);    (* pending setTimeout(task, delay) *)
  intervals : list (Z * task);   (* setInterval(task, period) *)
  requests : list request;       (* fetch(...), oldest first *)
  jobs : list job;               (* async functions awaiting their fetch *)
  dialogs : list (string * bool);(* confirm(prompt) and what the user chose *)
  console : list JS.exn          (* console.error(e) *)
}.

(** One setter for each field the code writes. *)

Definition set_ws (v : option nat) (s : state) : state :=
  {| ws := v; isProcessing := isProcessing s;
     location_protocol := location_protocol s; location_host := location_host s;
     urlInput := urlInput s; modelSelect := modelSelect s;
     templateSelect := templateSelect s; promptSelect := promptSelect s;
     connectionStatus := connectionStatus s; statusDot := statusDot s;
     btnManual := btnManual s; btnAuto := btnAuto s; btnPublish := btnPublish s;
     progressWrapper := progressWrapper s; progressBar := progressBar s;
     progressText := progressText s; logPanel := logPanel s;
     logContainer := logContainer s; previewPanel := previewPanel s;
     previewTitle := previewTitle s; previewSubtitle := previewSubtitle s;
     imageCarousel := imageCarousel s; imageViewer := imageViewer s;
     viewerImage := viewerImage s; toast := toast s; toast_show := toast_show s;
     sockets := sockets s; sent := sent s; timeouts := timeouts s;
     intervals := intervals s; requests := requests s; jobs := jobs s;
     dialogs := dialogs s; console := console s |}.

Definition set_isProcessing (v : bool) (s : state) : state :=
  {| ws := ws s; isProcessing := v; location_protocol := location_protocol s;
     location_host := location_host s; urlInput := urlInput s;
     modelSelect := modelSelect s; templateSelect := templateSelect s;
     promptSelect := promptSelect s; connectionStatus := connectionStatus s;
     statusDot := statusDot s; btnManual := btnManual s; btnAuto := btnAuto s;
     btnPublish := btnPublish s; progressWrapper := progressWrapper s;
     progressBar := progressBar s; progressText := progressText s;
     logPanel := logPanel s; logContainer := logContainer s;
     previewPanel := previewPanel s; previewTitle := previewTitle s;
     previewSubtitle := previewSubtitle s; imageCarousel := imageCarousel s;
     imageViewer := imageViewer s; viewerImage := viewerImage s; toast := toast s;
     toast_show := toast_show s; sockets := sockets s; sent := sent s;
     timeouts := timeouts s; intervals := intervals s; requests := requests s;
     jobs := jobs s; dialogs := dialogs s; console := console s |}.

Definition set_urlInput (v : string) (s : state) : state :=
  {| ws := ws s; isProcessing := isProcessing s;
     location_protocol := location_protocol s; location_host := location_host s;
     urlInput := v; modelSelect := modelSelect s;
     templateSelect := templateSelect s; promptSelect := promptSelect s;
     connectionStatus := connectionStatus s; statusDot := statusDot s;
     btnManual := btnManual s; btnAuto := btnAuto s; btnPublish := btnPublish s;
     progressWrapper := progressWrapper s; progressBar := progressBar s;
     progressText := progressText s; logPanel := logPanel s;
     logContainer := logContainer s; previewPanel := previewPanel s;
     previewTitle := previewTitle s; previewSubtitle := previewSubtitle s;
     imageCarousel := imageCarousel s; imageViewer := imageViewer s;
     viewerImage := viewerImage s; toast := toast s; toast_show := toast_show s;
     sockets := sockets s; sent := sent s; timeouts := timeouts s;
     intervals := intervals s; requests := requests s; jobs := jobs s;
     dialogs := dialogs s; console := console s |}.

Definition set_modelSelect (v : select) (s : state) : state :=
  {| ws := ws s; isProcessing := isProcessing s;
     location_protocol := location_protocol s; location_host := location_host s;
     urlInput := urlInput s; modelSelect := v; templateSelect := templateSelect s;
     promptSelect := promptSelect s; connectionStatus := connectionStatus s;
     statusDot := statusDot s; btnManual := btnManual s; btnAuto := btnAuto s;
     btnPublish := btnPublish s; progressWrapper := progressWrapper s;
     progressBar := progressBar s; progressText := progressText s;
     logPanel := logPanel s; logContainer := logContainer s;
     previewPanel := previewPanel s; previewTitle := previewTitle s;
     previewSubtitle := previewSubtitle s; imageCarousel := imageCarousel s;
     imageViewer := imageViewer s; viewerImage := viewerImage s; toast := toast s;
     toast_show := toast_show s; sockets := sockets s; sent := sent s;
     timeouts := timeouts s; intervals := intervals s; requests := requests s;
     jobs := jobs s; dialogs := dialogs s; console := console s |}.

Definition set_templateSelect (v : select) (s : state) : state :=
  {| ws := ws s; isProcessing := isProcessing s;
     location_protocol := location_protocol s; location_host := location_host s;
     urlInput := urlInput s; modelSelect := modelSelect s; templateSelect := v;
     promptSelect := promptSelect s; connectionStatus := connectionStatus s;
     statusDot := statusDot s; btnManual := btnManual s; btnAuto := btnAuto s;
     btnPublish := btnPublish s; progressWrapper := progressWrapper s;
     progressBar := progressBar s; progressText := progressText s;
     logPanel := logPanel s; logContainer := logContainer s;
     previewPanel := previewPanel s; previewTitle := previewTitle s;
     previewSubtitle := previewSubtitle s; imageCarousel := imageCarousel s;
     imageViewer := imageViewer s; viewerImage := viewerImage s; toast := toast s;
     toast_show := toast_show s; sockets := sockets s; sent := sent s;
     timeouts := timeouts s; intervals := intervals s; requests := requests s;
     jobs := jobs s; dialogs := dialogs s; console := console s |}.

Definition set_promptSelect (v : select) (s : state) : state :=
  {| ws := ws s; isProcessing := isProcessing s;
     location_protocol := location_protocol s; location_host := location_host s;
     urlInput := urlInput s; modelSelect := modelSelect s;
     templateSelect := templateSelect s; promptSelect := v;
     connectionStatus := connectionStatus s; statusDot := statusDot s;
     btnManual := btnManual s; btnAuto := btnAuto s; btnPublish := btnPublish s;
     progressWrapper := progressWrapper s; progressBar := progressBar s;
     progressText := progressText s; logPanel := logPanel s;
     logContainer := logContainer s; previewPanel := previewPanel s;
     previewTitle := previewTitle s; previewSubtitle := previewSubtitle s;
     imageCarousel := imageCarousel s; imageViewer := imageViewer s;
     viewerImage := viewerImage s; toast := toast s; toast_show := toast_show s;
     sockets := sockets s; sent := sent s; timeouts := timeouts s;
     intervals := intervals s; requests := requests s; jobs := jobs s;
     dialogs := dialogs s; console := console s |}.

Definition set_connectionStatus (v : string) (s : state) : state :=
  {| ws := ws s; isProcessing := isProcessing s;
     location_protocol := location_protocol s; location_host := location_host s;
     urlInput := urlInput s; modelSelect := modelSelect s;
     templateSelect := templateSelect s; promptSelect := promptSelect s;
     connectionStatus := v; statusDot := statusDot s; btnManual := btnManual s;
     btnAuto := btnAuto s; btnPublish := btnPublish s;
     progressWrapper := progressWrapper s; progressBar := progressBar s;
     progressText := progressText s; logPanel := logPanel s;
     logContainer := logContainer s; previewPanel := previewPanel s;
     previewTitle := previewTitle s; previewSubtitle := previewSubtitle s;
     imageCarousel := imageCarousel s; imageViewer := imageViewer s;
     viewerImage := viewerImage s; toast := toast s; toast_show := toast_show s;
     sockets := sockets s; sent := sent s; timeouts := timeouts s;
     intervals := intervals s; requests := requests s; jobs := jobs s;
     dialogs := dialogs s; console := console s |}.

Definition set_statusDot (v : string) (s : state) : state :=
  {| ws := ws s; isProcessing := isProcessing s;
     location_protocol := location_protocol s; location_host := location_host s;
     urlInput := urlInput s; modelSelect := modelSelect s;
     templateSelect := templateSelect s; promptSelect := promptSelect s;
     connectionStatus := connectionStatus s; statusDot := v;
     btnManual := btnManual s; btnAuto := btnAuto s; btnPublish := btnPublish s;
     progressWrapper := progressWrapper s; progressBar := progressBar s;
     progressText := progressText s; logPanel := logPanel s;
     logContainer := logContainer s; previewPanel := previewPanel s;
     previewTitle := previewTitle s; previewSubtitle := previewSubtitle s;
     imageCarousel := imageCarousel s; imageViewer := imageViewer s;
     viewerImage := viewerImage s; toast := toast s; toast_show := toast_show s;
     sockets := sockets s; sent := sent s; timeouts := timeouts s;
     intervals := intervals s; requests := requests s; jobs := jobs s;
     dialogs := dialogs s; console := console s |}.

Definition set_btnManual (v : button) (s : state) : state :=
  {| ws := ws s; isProcessing := isProcessing s;
     location_protocol := location_protocol s; location_host := location_host s;
     urlInput := urlInput s; modelSelect := modelSelect s;
     templateSelect := templateSelect s; promptSelect := promptSelect s;
     connectionStatus := connectionStatus s; statusDot := statusDot s;
     btnManual := v; btnAuto := btnAuto s; btnPublish := btnPublish s;
     progressWrapper := progressWrapper s; progressBar := progressBar s;
     progressText := progressText s; logPanel := logPanel s;
     logContainer := logContainer s; previewPanel := previewPanel s;
     previewTitle := previewTitle s; previewSubtitle := previewSubtitle s;
     imageCarousel := imageCarousel s; imageViewer := imageViewer s;
     viewerImage := viewerImage s; toast := toast s; toast_show := toast_show s;
     sockets := sockets s; sent := sent s; timeouts := timeouts s;
     intervals := intervals s; requests := requests s; jobs := jobs s;
     dialogs := dialogs s; console := console s |}.

Definition set_btnAuto (v : button) (s : state) : state :=
  {| ws := ws s; isProcessing := isProcessing s;
     location_protocol := location_protocol s; location_host := location_host s;
     urlInput := urlInput s; modelSelect := modelSelect s;
     templateSelect := templateSelect s; promptSelect := promptSelect s;
     connectionStatus := connectionStatus s; statusDot := statusDot s;
     btnManual := btnManual s; btnAuto := v; btnPublish := btnPublish s;
     progressWrapper := progressWrapper s; progressBar := progressBar s;
     progressText := progressText s; logPanel := logPanel s;
     logContainer := logContainer s; previewPanel := previewPanel s;
     previewTitle := previewTitle s; previewSubtitle := previewSubtitle s;
     imageCarousel := imageCarousel s; imageViewer := imageViewer s;
     viewerImage := viewerImage s; toast := toast s; toast_show := toast_show s;
     sockets := sockets s; sent := sent s; timeouts := timeouts s;
     intervals := intervals s; requests := requests s; jobs := jobs s;
     dialogs := dialogs s; console := console s |}.

Definition set_btnPublish (v : button) (s : state) : state :=
  {| ws := ws s; isProcessing := isProcessing s;
     location_protocol := location_protocol s; location_host := location_host s;
     urlInput := urlInput s; modelSelect := modelSelect s;
     templateSelect := templateSelect s; promptSelect := promptSelect s;
     connectionStatus := connectionStatus s; statusDot := statusDot s;
     btnManual := btnManual s; btnAuto := btnAuto s; btnPublish := v;
     progressWrapper := progressWrapper s; progressBar := progressBar s;
     progressText := progressText s; logPanel := logPanel s;
     logContainer := logContainer s; previewPanel := previewPanel s;
     previewTitle := previewTitle s; previewSubtitle := previewSubtitle s;
     imageCarousel := imageCarousel s; imageViewer := imageViewer s;
     viewerImage := viewerImage s; toast := toast s; toast_show := toast_show s;
     sockets := sockets s; sent := sent s; timeouts := timeouts s;
     intervals := intervals s; requests := requests s; jobs := jobs s;
     dialogs := dialogs s; console := console s |}.

Definition set_progressWrapper (v : bool) (s : state) : state :=
  {| ws := ws s; isProcessing := isProcessing s;
     location_protocol := location_protocol s; location_host := location_host s;
     urlInput := urlInput s; modelSelect := modelSelect s;
     templateSelect := templateSelect s; promptSelect := promptSelect s;
     connectionStatus := connectionStatus s; statusDot := statusDot s;
     btnManual := btnManual s; btnAuto := btnAuto s; btnPublish := btnPublish s;
     progressWrapper := v; progressBar := progressBar s;
     progressText := progressText s; logPanel := logPanel s;
     logContainer := logContainer s; previewPanel := previewPanel s;
     previewTitle := previewTitle s; previewSubtitle := previewSubtitle s;
     imageCarousel := imageCarousel s; imageViewer := imageViewer s;
     viewerImage := viewerImage s; toast := toast s; toast_show := toast_show s;
     sockets := sockets s; sent := sent s; timeouts := timeouts s;
     intervals := intervals s; requests := requests s; jobs := jobs s;
     dialogs := dialogs s; console := console s |}.

Definition set_progressBar (v : JS.text) (s : state) : state :=
  {| ws := ws s; isProcessing := isProcessing s;
     location_protocol := location_protocol s; location_host := location_host s;
     urlInput := urlInput s; modelSelect := modelSelect s;
     templateSelect := templateSelect s; promptSelect := promptSelect s;
     connectionStatus := connectionStatus s; statusDot := statusDot s;
     btnManual := btnManual s; btnAuto := btnAuto s; btnPublish := btnPublish s;
     progressWrapper := progressWrapper s; progressBar := v;
     progressText := progressText s; logPanel := logPanel s;
     logContainer := logContainer s; previewPanel := previewPanel s;
     previewTitle := previewTitle s; previewSubtitle := previewSubtitle s;
     imageCarousel := imageCarousel s; imageViewer := imageViewer s;
     viewerImage := viewerImage s; toast := toast s; toast_show := toast_show s;
     sockets := sockets s; sent := sent s; timeouts := timeouts s;
     intervals := intervals s; requests := requests s; jobs := jobs s;
     dialogs := dialogs s; console := console s |}.

Definition set_progressText (v : JS.text) (s : state) : state :=
  {| ws := ws s; isProcessing := isProcessing s;
     location_protocol := location_protocol s; location_host := location_host s;
     urlInput := urlInput s; modelSelect := modelSelect s;
     templateSelect := templateSelect s; promptSelect := promptSelect s;
     connectionStatus := connectionStatus s; statusDot := statusDot s;
     btnManual := btnManual s; btnAuto := btnAuto s; btnPublish := btnPublish s;
     progressWrapper := progressWrapper s; progressBar := progressBar s;
     progressText := v; logPanel := logPanel s; logContainer := logContainer s;
     previewPanel := previewPanel s; previewTitle := previewTitle s;
     previewSubtitle := previewSubtitle s; imageCarousel := imageCarousel s;
     imageViewer := imageViewer s; viewerImage := viewerImage s; toast := toast s;
     toast_show := toast_show s; sockets := sockets s; sent := sent s;
     timeouts := timeouts s; intervals := intervals s; requests := requests s;
     jobs := jobs s; dialogs := dialogs s; console := console s |}.

Definition set_logPanel (v : bool) (s : state) : state :=
  {| ws := ws s; isProcessing := isProcessing s;
     location_protocol := location_protocol s; location_host := location_host s;
     urlInput := urlInput s; modelSelect := modelSelect s;
     templateSelect := templateSelect s; promptSelect := promptSelect s;
     connectionStatus := connectionStatus s; statusDot := statusDot s;
     btnManual := btnManual s; btnAuto := btnAuto s; btnPublish := btnPublish s;
     progressWrapper := progressWrapper s; progressBar := progressBar s;
     progressText := progressText s; logPanel := v; logContainer := logContainer s;
     previewPanel := previewPanel s; previewTitle := previewTitle s;
     previewSubtitle := previewSubtitle s; imageCarousel := imageCarousel s;
     imageViewer := imageViewer s; viewerImage := viewerImage s; toast := toast s;
     toast_show := toast_show s; sockets := sockets s; sent := sent s;
     timeouts := timeouts s; intervals := intervals s; requests := requests s;
     jobs := jobs s; dialogs := dialogs s; console := console s |}.

Definition set_logContainer (v : list JS.text) (s : state) : state :=
  {| ws := ws s; isProcessing := isProcessing s;
     location_protocol := location_protocol s; location_host := location_host s;
     urlInput := urlInput s; modelSelect := modelSelect s;
     templateSelect := templateSelect s; promptSelect := promptSelect s;
     connectionStatus := connectionStatus s; statusDot := statusDot s;
     btnManual := btnManual s; btnAuto := btnAuto s; btnPublish := btnPublish s;
     progressWrapper := progressWrapper s; progressBar := progressBar s;
     progressText := progressText s; logPanel := logPanel s; logContainer := v;
     previewPanel := previewPanel s; previewTitle := previewTitle s;
     previewSubtitle := previewSubtitle s; imageCarousel := imageCarousel s;
     imageViewer := imageViewer s; viewerImage := viewerImage s; toast := toast s;
     toast_show := toast_show s; sockets := sockets s; sent := sent s;
     timeouts := timeouts s; intervals := intervals s; requests := requests s;
     jobs := jobs s; dialogs := dialogs s; console := console s |}.

Definition set_previewPanel (v : bool) (s : state) : state :=
  {| ws := ws s; isProcessing := isProcessing s;
     location_protocol := location_protocol s; location_host := location_host s;
     urlInput := urlInput s; modelSelect := modelSelect s;
     templateSelect := templateSelect s; promptSelect := promptSelect s;
     connectionStatus := connectionStatus s; statusDot := statusDot s;
     btnManual := btnManual s; btnAuto := btnAuto s; btnPublish := btnPublish s;
     progressWrapper := progressWrapper s; progressBar := progressBar s;
     progressText := progressText s; logPanel := logPanel s;
     logContainer := logContainer s; previewPanel := v;
     previewTitle := previewTitle s; previewSubtitle := previewSubtitle s;
     imageCarousel := imageCarousel s; imageViewer := imageViewer s;
     viewerImage := viewerImage s; toast := toast s; toast_show := toast_show s;
     sockets := sockets s; sent := sent s; timeouts := timeouts s;
     intervals := intervals s; requests := requests s; jobs := jobs s;
     dialogs := dialogs s; console := console s |}.

Definition set_previewTitle (v : JS.text) (s : state) : state :=
  {| ws := ws s; isProcessing := isProcessing s;
     location_protocol := location_protocol s; location_host := location_host s;
     urlInput := urlInput s; modelSelect := modelSelect s;
     templateSelect := templateSelect s; promptSelect := promptSelect s;
     connectionStatus := connectionStatus s; statusDot := statusDot s;
     btnManual := btnManual s; btnAuto := btnAuto s; btnPublish := btnPublish s;
     progressWrapper := progressWrapper s; progressBar := progressBar s;
     progressText := progressText s; logPanel := logPanel s;
     logContainer := logContainer s; previewPanel := previewPanel s;
     previewTitle := v; previewSubtitle := previewSubtitle s;
     imageCarousel := imageCarousel s; imageViewer := imageViewer s;
     viewerImage := viewerImage s; toast := toast s; toast_show := toast_show s;
     sockets := sockets s; sent := sent s; timeouts := timeouts s;
     intervals := intervals s; requests := requests s; jobs := jobs s;
     dialogs := dialogs s; console := console s |}.

Definition set_previewSubtitle (v : JS.text) (s : state) : state :=
  {| ws := ws s; isProcessing := isProcessing s;
     location_protocol := location_protocol s; location_host := location_host s;
     urlInput := urlInput s; modelSelect := modelSelect s;
     templateSelect := templateSelect s; promptSelect := promptSelect s;
     connectionStatus := connectionStatus s; statusDot := statusDot s;
     btnManual := btnManual s; btnAuto := btnAuto s; btnPublish := btnPublish s;
     progressWrapper := progressWrapper s; progressBar := progressBar s;
     progressText := progressText s; logPanel := logPanel s;
     logContainer := logContainer s; previewPanel := previewPanel s;
     previewTitle := previewTitle s; previewSubtitle := v;
     imageCarousel := imageCarousel s; imageViewer := imageViewer s;
     viewerImage := viewerImage s; toast := toast s; toast_show := toast_show s;
     sockets := sockets s; sent := sent s; timeouts := timeouts s;
     intervals := intervals s; requests := requests s; jobs := jobs s;
     dialogs := dialogs s; console := console s |}.

Definition set_imageCarousel (v : list img) (s : state) : state :=
  {| ws := ws s; isProcessing := isProcessing s;
     location_protocol := location_protocol s; location_host := location_host s;
     urlInput := urlInput s; modelSelect := modelSelect s;
     templateSelect := templateSelect s; promptSelect := promptSelect s;
     connectionStatus := connectionStatus s; statusDot := statusDot s;
     btnManual := btnManual s; btnAuto := btnAuto s; btnPublish := btnPublish s;
     progressWrapper := progressWrapper s; progressBar := progressBar s;
     progressText := progressText s; logPanel := logPanel s;
     logContainer := logContainer s; previewPanel := previewPanel s;
     previewTitle := previewTitle s; previewSubtitle := previewSubtitle s;
     imageCarousel := v; imageViewer := imageViewer s; viewerImage := viewerImage s;
     toast := toast s; toast_show := toast_show s; sockets := sockets s;
     sent := sent s; timeouts := timeouts s; intervals := intervals s;
     requests := requests s; jobs := jobs s; dialogs := dialogs s;
     console := console s |}.

Definition set_imageViewer (v : bool) (s : state) : state :=
  {| ws := ws s; isProcessing := isProcessing s;
     location_protocol := location_protocol s; location_host := location_host s;
     urlInput := urlInput s; modelSelect := modelSelect s;
     templateSelect := templateSelect s; promptSelect := promptSelect s;
     connectionStatus := connectionStatus s; statusDot := statusDot s;
     btnManual := btnManual s; btnAuto := btnAuto s; btnPublish := btnPublish s;
     progressWrapper := progressWrapper s; progressBar := progressBar s;
     progressText := progressText s; logPanel := logPanel s;
     logContainer := logContainer s; previewPanel := previewPanel s;
     previewTitle := previewTitle s; previewSubtitle := previewSubtitle s;
     imageCarousel := imageCarousel s; imageViewer := v;
     viewerImage := viewerImage s; toast := toast s; toast_show := toast_show s;
     sockets := sockets s; sent := sent s; timeouts := timeouts s;
     intervals := intervals s; requests := requests s; jobs := jobs s;
     dialogs := dialogs s; console := console s |}.

Definition set_viewerImage (v : JS.value) (s : state) : state :=
  {| ws := ws s; isProcessing := isProcessing s;
     location_protocol := location_protocol s; location_host := location_host s;
     urlInput := urlInput s; modelSelect := modelSelect s;
     templateSelect := templateSelect s; promptSelect := promptSelect s;
     connectionStatus := connectionStatus s; statusDot := statusDot s;
     btnManual := btnManual s; btnAuto := btnAuto s; btnPublish := btnPublish s;
     progressWrapper := progressWrapper s; progressBar := progressBar s;
     progressText := progressText s; logPanel := logPanel s;
     logContainer := logContainer s; previewPanel := previewPanel s;
     previewTitle := previewTitle s; previewSubtitle := previewSubtitle s;
     imageCarousel := imageCarousel s; imageViewer := imageViewer s;
     viewerImage := v; toast := toast s; toast_show := toast_show s;
     sockets := sockets s; sent := sent s; timeouts := timeouts s;
     intervals := intervals s; requests := requests s; jobs := jobs s;
     dialogs := dialogs s; console := console s |}.

Definition set_toast (v : JS.text) (s : state) : state :=
  {| ws := ws s; isProcessing := isProcessing s;
     location_protocol := location_protocol s; location_host := location_host s;
     urlInput := urlInput s; modelSelect := modelSelect s;
     templateSelect := templateSelect s; promptSelect := promptSelect s;
     connectionStatus := connectionStatus s; statusDot := statusDot s;
     btnManual := btnManual s; btnAuto := btnAuto s; btnPublish := btnPublish s;
     progressWrapper := progressWrapper s; progressBar := progressBar s;
     progressText := progressText s; logPanel := logPanel s;
     logContainer := logContainer s; previewPanel := previewPanel s;
     previewTitle := previewTitle s; previewSubtitle := previewSubtitle s;
     imageCarousel := imageCarousel s; imageViewer := imageViewer s;
     viewerImage := viewerImage s; toast := v; toast_show := toast_show s;
     sockets := sockets s; sent := sent s; timeouts := timeouts s;
     intervals := intervals s; requests := requests s; jobs := jobs s;
     dialogs := dialogs s; console := console s |}.

Definition set_toast_show (v : bool) (s : state) : state :=
  {| ws := ws s; isProcessing := isProcessing s;
     location_protocol := location_protocol s; location_host := location_host s;
     urlInput := urlInput s; modelSelect := modelSelect s;
     templateSelect := templateSelect s; promptSelect := promptSelect s;
     connectionStatus := connectionStatus s; statusDot := statusDot s;
     btnManual := btnManual s; btnAuto := btnAuto s; btnPublish := btnPublish s;
     progressWrapper := progressWrapper s; progressBar := progressBar s;
     progressText := progressText s; logPanel := logPanel s;
     logContainer := logContainer s; previewPanel := previewPanel s;
     previewTitle := previewTitle s; previewSubtitle := previewSubtitle s;
     imageCarousel := imageCarousel s; imageViewer := imageViewer s;
     viewerImage := viewerImage s; toast := toast s; toast_show := v;
     sockets := sockets s; sent := sent s; timeouts := timeouts s;
     intervals := intervals s; requests := requests s; jobs := jobs s;
     dialogs := dialogs s; console := console s |}.

Definition set_sockets (v : list socket) (s : state) : state :=
  {| ws := ws s; isProcessing := isProcessing s;
     location_protocol := location_protocol s; location_host := location_host s;
     urlInput := urlInput s; modelSelect := modelSelect s;
     templateSelect := templateSelect s; promptSelect := promptSelect s;
     connectionStatus := connectionStatus s; statusDot := statusDot s;
     btnManual := btnManual s; btnAuto := btnAuto s; btnPublish := btnPublish s;
     progressWrapper := progressWrapper s; progressBar := progressBar s;
     progressText := progressText s; logPanel := logPanel s;
     logContainer := logContainer s; previewPanel := previewPanel s;
     previewTitle := previewTitle s; previewSubtitle := previewSubtitle s;
     imageCarousel := imageCarousel s; imageViewer := imageViewer s;
     viewerImage := viewerImage s; toast := toast s; toast_show := toast_show s;
     sockets := v; sent := sent s; timeouts := timeouts s; intervals := intervals s;
     requests := requests s; jobs := jobs s; dialogs := dialogs s;
     console := console s |}.

Definition set_sent (v : list (nat * string)) (s : state) : state :=
  {| ws := ws s; isProcessing := isProcessing s;
     location_protocol := location_protocol s; location_host := location_host s;
     urlInput := urlInput s; modelSelect := modelSelect s;
     templateSelect := templateSelect s; promptSelect := promptSelect s;
     connectionStatus := connectionStatus s; statusDot := statusDot s;
     btnManual := btnManual s; btnAuto := btnAuto s; btnPublish := btnPublish s;
     progressWrapper := progressWrapper s; progressBar := progressBar s;
     progressText := progressText s; logPanel := logPanel s;
     logContainer := logContainer s; previewPanel := previewPanel s;
     previewTitle := previewTitle s; previewSubtitle := previewSubtitle s;
     imageCarousel := imageCarousel s; imageViewer := imageViewer s;
     viewerImage := viewerImage s; toast := toast s; toast_show := toast_show s;
     sockets := sockets s; sent := v; timeouts := timeouts s;
     intervals := intervals s; requests := requests s; jobs := jobs s;
     dialogs := dialogs s; console := console s |}.

Definition set_timeouts (v : list (Z * task)) (s : state) : state :=
  {| ws := ws s; isProcessing := isProcessing s;
     location_protocol := location_protocol s; location_host := location_host s;
     urlInput := urlInput s; modelSelect := modelSelect s;
     templateSelect := templateSelect s; promptSelect := promptSelect s;
     connectionStatus := connectionStatus s; statusDot := statusDot s;
     btnManual := btnManual s; btnAuto := btnAuto s; btnPublish := btnPublish s;
     progressWrapper := progressWrapper s; progressBar := progressBar s;
     progressText := progressText s; logPanel := logPanel s;
     logContainer := logContainer s; previewPanel := previewPanel s;
     previewTitle := previewTitle s; previewSubtitle := previewSubtitle s;
     imageCarousel := imageCarousel s; imageViewer := imageViewer s;
     viewerImage := viewerImage s; toast := toast s; toast_show := toast_show s;
     sockets := sockets s; sent := sent s; timeouts := v; intervals := intervals s;
     requests := requests s; jobs := jobs s; dialogs := dialogs s;
     console := console s |}.

Definition set_intervals (v : list (Z * task)) (s : state) : state :=
  {| ws := ws s; isProcessing := isProcessing s;
     location_protocol := location_protocol s; location_host := location_host s;
     urlInput := urlInput s; modelSelect := modelSelect s;
     templateSelect := templateSelect s; promptSelect := promptSelect s;
     connectionStatus := connectionStatus s; statusDot := statusDot s;
     btnManual := btnManual s; btnAuto := btnAuto s; btnPublish := btnPublish s;
     progressWrapper := progressWrapper s; progressBar := progressBar s;
     progressText := progressText s; logPanel := logPanel s;
     logContainer := logContainer s; previewPanel := previewPanel s;
     previewTitle := previewTitle s; previewSubtitle := previewSubtitle s;
     imageCarousel := imageCarousel s; imageViewer := imageViewer s;
     viewerImage := viewerImage s; toast := toast s; toast_show := toast_show s;
     sockets := sockets s; sent := sent s; timeouts := timeouts s; intervals := v;
     requests := requests s; jobs := jobs s; dialogs := dialogs s;
     console := console s |}.

Definition set_requests (v : list request) (s : state) : state :=
  {| ws := ws s; isProcessing := isProcessing s;
     location_protocol := location_protocol s; location_host := location_host s;
     urlInput := urlInput s; modelSelect := modelSelect s;
     templateSelect := templateSelect s; promptSelect := promptSelect s;
     connectionStatus := connectionStatus s; statusDot := statusDot s;
     btnManual := btnManual s; btnAuto := btnAuto s; btnPublish := btnPublish s;
     progressWrapper := progressWrapper s; progressBar := progressBar s;
     progressText := progressText s; logPanel := logPanel s;
     logContainer := logContainer s; previewPanel := previewPanel s;
     previewTitle := previewTitle s; previewSubtitle := previewSubtitle s;
     imageCarousel := imageCarousel s; imageViewer := imageViewer s;
     viewerImage := viewerImage s; toast := toast s; toast_show := toast_show s;
     sockets := sockets s; sent := sent s; timeouts := timeouts s;
     intervals := intervals s; requests := v; jobs := jobs s; dialogs := dialogs s;
     console := console s |}.

Definition set_jobs (v : list job) (s : state) : state :=
  {| ws := ws s; isProcessing := isProcessing s;
     location_protocol := location_protocol s; location_host := location_host s;
     urlInput := urlInput s; modelSelect := modelSelect s;
     templateSelect := templateSelect s; promptSelect := promptSelect s;
     connectionStatus := connectionStatus s; statusDot := statusDot s;
     btnManual := btnManual s; btnAuto := btnAuto s; btnPublish := btnPublish s;
     progressWrapper := progressWrapper s; progressBar := progressBar s;
     progressText := progressText s; logPanel := logPanel s;
     logContainer := logContainer s; previewPanel := previewPanel s;
     previewTitle := previewTitle s; previewSubtitle := previewSubtitle s;
     imageCarousel := imageCarousel s; imageViewer := imageViewer s;
     viewerImage := viewerImage s; toast := toast s; toast_show := toast_show s;
     sockets := sockets s; sent := sent s; timeouts := timeouts s;
     intervals := intervals s; requests := requests s; jobs := v;
     dialogs := dialogs s; console := console s |}.

Definition set_dialogs (v : list (string * bool)) (s : state) : state :=
  {| ws := ws s; isProcessing := isProcessing s;
     location_protocol := location_protocol s; location_host := location_host s;
     urlInput := urlInput s; modelSelect := modelSelect s;
     templateSelect := templateSelect s; promptSelect := promptSelect s;
     connectionStatus := connectionStatus s; statusDot := statusDot s;
     btnManual := btnManual s; btnAuto := btnAuto s; btnPublish := btnPublish s;
     progressWrapper := progressWrapper s; progressBar := progressBar s;
     progressText := progressText s; logPanel := logPanel s;
     logContainer := logContainer s; previewPanel := previewPanel s;
     previewTitle := previewTitle s; previewSubtitle := previewSubtitle s;
     imageCarousel := imageCarousel s; imageViewer := imageViewer s;
     viewerImage := viewerImage s; toast := toast s; toast_show := toast_show s;
     sockets := sockets s; sent := sent s; timeouts := timeouts s;
     intervals := intervals s; requests := requests s; jobs := jobs s; dialogs := v;
     console := console s |}.

Definition set_console (v : list JS.exn) (s : state) : state :=
  {| ws := ws s; isProcessing := isProcessing s;
     location_protocol := location_protocol s; location_host := location_host s;
     urlInput := urlInput s; modelSelect := modelSelect s;
     templateSelect := templateSelect s; promptSelect := promptSelect s;
     connectionStatus := connectionStatus s; statusDot := statusDot s;
     btnManual := btnManual s; btnAuto := btnAuto s; btnPublish := btnPublish s;
     progressWrapper := progressWrapper s; progressBar := progressBar s;
     progressText := progressText s; logPanel := logPanel s;
     logContainer := logContainer s; previewPanel := previewPanel s;
     previewTitle := previewTitle s; previewSubtitle := previewSubtitle s;
     imageCarousel := imageCarousel s; imageViewer := imageViewer s;
     viewerImage := viewerImage s; toast := toast s; toast_show := toast_show s;
     sockets := sockets s; sent := sent s; timeouts := timeouts s;
     intervals := intervals s; requests := requests s; jobs := jobs s;
     dialogs := dialogs s; console := v |}.

(** *** UI helpers *)

Definition manual_label : string := "<span>🔍</span> <span>手动生成</span>".
Definition auto_label : string := "<span>🚀</span> <span>自动发布</span>".
Definition dquote : string := String (Ascii.ascii_of_nat 34) EmptyString.
Definition spinner : string :=
  "<span class=" ++ dquote ++ "spinner" ++ dquote ++ "></span>".
Definition busy_label : string := spinner ++ " 处理中...".
Definition publish_label : string := "✅ 确认发布到小红书".
Definition publishing_label : string := spinner ++ " 发布中...".
Definition published_label : string := "✅ 已发布".

Definition setProcessing (b : bool) (s : state) : state :=
  let s := set_isProcessing b s in
  if b then
    set_progressWrapper true
      (set_btnAuto {| disabled := true; innerHTML := busy_label |}
        (set_btnManual {| disabled := true; innerHTML := busy_label |} s))
  else
    set_progressWrapper false
      (set_btnAuto {| disabled := false; innerHTML := auto_label |}
        (set_btnManual {| disabled := false; innerHTML := manual_label |} s)).

Definition showLogPanel (s : state) : state := set_logPanel true s.

Definition clearLogs (s : state) : state := set_logContainer [] s.

(** The entry is appended once its [textContent] has taken [msg]. *)
Definition appendLog (msg : JS.value) : Eff.M state unit :=
  let* entry := Eff.of_sum (JS.raw msg) in
  Eff.exec (fun s => set_logContainer (logContainer s ++ [entry]) s).

(** [appendLog] on a string literal, which always converts. *)
Definition appendLog_lit (msg : string) (s : state) : state :=
  set_logContainer (logContainer s ++ [JS.lit msg]) s.

Definition updateProgress (value : JS.value) : Eff.M state unit :=
  Eff.exec (set_progressWrapper true) ;;
  let* width := Eff.of_sum (JS.template [JS.Sub value; JS.Lit "%"]) in
  Eff.exec (set_progressBar width) ;;
  let* label := Eff.of_sum (JS.template [JS.Round value; JS.Lit "%"]) in
  Eff.exec (set_progressText label).

Definition hidePreview (s : state) : state := set_previewPanel false s.

Definition openViewer (v : JS.value) (s : state) : state :=
  set_imageViewer true (set_viewerImage v s).

Definition closeViewer (s : state) : state := set_imageViewer false s.

Definition showToast (message : JS.text) (s : state) : state :=
  set_timeouts (timeouts s ++ [(3000, HideToast)])
    (set_toast_show true (set_toast message s)).

Definition fetch (r : request) (j : job) (s : state) : state :=
  set_jobs (jobs s ++ [j]) (set_requests (requests s ++ [r]) s).

(** [confirm(prompt)]; [answer] is what the user chooses. *)
Definition confirm (prompt : string) (answer : bool) (s : state) : state :=
  set_dialogs (dialogs s ++ [(prompt, answer)]) s.

Definition console_error (e : JS.exn) (s : state) : state :=
  set_console (console s ++ [e]) s.

(** [await fetch(...)] then [await resp.json()], as one resumption: the
    function does nothing between the two. *)
Definition await_json (r : fetch_result) : Eff.M state (Z * JS.value) :=
  match r with
  | Rejected => Eff.throw JS.NetworkError
  | Response status None => Eff.throw JS.SyntaxError
  | Response status (Some data) => Eff.ret (status, data)
  end.

(** [v.forEach(f)] on a value: only an array has the method. *)
Definition as_array (v : JS.value) : JS.exn + list JS.value :=
  match v with
  | JS.Arr l => inr l
  | _ => inl JS.TypeError
  end.

(** *** Drop-downs

    The three selects are taken to be plain drop-downs (no [multiple], no
    [size]), as their use in [getConfig] has them. *)

Definition with_selected (b : bool) (o : option_el) : option_el :=
  {| opt_value := opt_value o; opt_text := opt_text o; opt_selected := b |}.

Fixpoint last_selected (i : nat) (opts : select) : option nat :=
  match opts with
  | [] => None
  | o :: opts' =>
      match last_selected (S i) opts' with
      | Some k => Some k
      | None => if opt_selected o then Some i else None
      end
  end.

(** The option that ends up selected: the last one whose selectedness is
    set, the first option when none is. *)
Definition chosen (opts : select) : nat :=
  match last_selected 0 opts with Some k => k | None => 0%nat end.

(** [select.appendChild(opt)], with the adjustment of selectedness that
    follows an insertion. *)
Definition appendChild (o : option_el) (opts : select) : select :=
  let opts := (opts ++ [o])%list in
  imap (fun i o => with_selected (Nat.eqb i (chosen opts)) o) opts.

(** The user picks option [i]. *)
Definition pick (i : nat) (opts : select) : select :=
  if Nat.ltb i (length opts)
  then imap (fun k o => with_selected (Nat.eqb k i) o) opts
  else opts.

(** [select.value] *)
Definition select_value (opts : select) : string :=
  match List.find opt_selected opts with
  | Some o => JS.to_string (opt_value o)
  | None => EmptyString
  end.

(** *** Loading the configuration *)

Definition loadConfig (s : state) : state :=
  fetch {| req_method := "GET"; req_url := "/api/config";
           req_headers := []; req_body := None |} ConfigJob s.

(** [data.defaults.k] *)
Definition default_of (data : JS.value) (k : string) : Eff.M state JS.value :=
  let* defaults := Eff.of_sum (JS.get data "defaults") in
  Eff.of_sum (JS.get defaults k).

Definition add_model (data : JS.value) (m : JS.value) : Eff.M state unit :=
  let* value := Eff.of_sum (JS.printable m) in
  let* label := Eff.of_sum (JS.raw m) in
  let* dflt := default_of data "model" in
  Eff.exec (fun s => set_modelSelect
    (appendChild {| opt_value := value; opt_text := label;
                    opt_selected := JS.strict_eq m dflt |} (modelSelect s)) s).

Definition add_template (data : JS.value) (t : JS.value) : Eff.M state unit :=
  let* id := Eff.of_sum (JS.get t "id") in
  let* value := Eff.of_sum (JS.printable id) in
  let* name := Eff.of_sum (JS.get t "name") in
  let* label := Eff.of_sum (JS.template [JS.Sub name]) in
  let* dflt := default_of data "template" in
  Eff.exec (fun s => set_templateSelect
    (appendChild {| opt_value := value; opt_text := label;
                    opt_selected := JS.strict_eq id dflt |} (templateSelect s)) s).

Definition add_prompt (data : JS.value) (p : JS.value) : Eff.M state unit :=
  let* name := Eff.of_sum (JS.get p "name") in
  let* value := Eff.of_sum (JS.printable name) in
  let* description := Eff.of_sum (JS.get p "description") in
  let* label := Eff.of_sum (JS.template
    [JS.Sub name; JS.Lit " — "; JS.Sub description]) in
  let* dflt := default_of data "prompt_style" in
  Eff.exec (fun s => set_promptSelect
    (appendChild {| opt_value := value; opt_text := label;
                    opt_selected := JS.strict_eq name dflt |} (promptSelect s)) s).

(** [data.k.forEach(f)] *)
Definition each_of (data : JS.value) (k : string)
    (f : JS.value -> Eff.M state unit) : Eff.M state unit :=
  let* list := Eff.of_sum (JS.get data k) in
  let* items := Eff.of_sum (as_array list) in
  Eff.forEach (fun _ x => f x) 0 items.

(** The rest of [loadConfig], run when the request settles. *)
Definition loadConfig_resume (r : fetch_result) : Eff.M state unit :=
  Eff.try_catch
    (let* resp := await_json r in
     let data := snd resp in
     Eff.exec (set_modelSelect []) ;;
     each_of data "models" (add_model data) ;;
     Eff.exec (set_templateSelect []) ;;
     each_of data "templates" (add_template data) ;;
     Eff.exec (set_promptSelect []) ;;
     each_of data "prompt_styles" (add_prompt data) ;;
     let* key_set := default_of data "api_key_set" in
     if negb (JS.truthy key_set)
     then Eff.exec (showToast "⚠️ 未设置 API Key，请在电脑端配置")
     else Eff.ret tt)
    (fun e =>
       Eff.exec (showToast "❌ 无法连接后端服务") ;;
       Eff.exec (console_error e)).

(** *** Paste button *)

(** The click handler of [#pasteBtn]; [clipboard] is what
    [navigator.clipboard.readText()] resolves to, [None] when it rejects. *)
Definition pasteClick (clipboard : option string) (s : state) : state :=
  match clipboard with
  | Some text => showToast "📋 已粘贴" (set_urlInput text s)
  | None => showToast "⚠️ 无法访问剪贴板，请手动粘贴" s
  end.

(** *** Preview *)

(** [str.replace(/\n/g, ' | ')] *)
Fixpoint replace_newlines (str : string) : string :=
  match str with
  | EmptyString => EmptyString
  | String c rest =>
      if Ascii.eqb c (Ascii.ascii_of_nat 10)
      then (" | " ++ replace_newlines rest)%string
      else String c (replace_newlines rest)
  end.

(** [v.replace(/\n/g, ' | ')] on a value: only a string has the method. *)
Definition call_replace (v : JS.value) : JS.exn + string :=
  match v with
  | JS.Str str => inr (replace_newlines str)
  | _ => inl JS.TypeError
  end.

Definition make_img (i : nat) (url : JS.value) : img :=
  {| className := "preview-image";
     src := url;
     alt := JS.Tpl [JS.Lit "页面 "; JS.Sub (JS.Num (Z.of_nat i + 1))];
     onclick := url |}.

(** The callback of [forEach] in [showPreview]: the image is appended once
    its [src] has taken [url]. *)
Definition add_image (i : nat) (url : JS.value) : Eff.M state unit :=
  let* url := Eff.of_sum (JS.printable url) in
  Eff.exec (fun s => set_imageCarousel (imageCarousel s ++ [make_img i url]) s).

Definition showPreview (data : JS.value) : Eff.M state unit :=
  let* caption := Eff.of_sum (JS.get data "caption_title") in
  let* title := Eff.of_sum (JS.raw (JS.or caption (JS.Str ""))) in
  Eff.exec (set_previewTitle title) ;;
  let* cover := Eff.of_sum (JS.get data "cover_title") in
  let* joined := Eff.of_sum (call_replace (JS.or cover (JS.Str ""))) in
  Eff.exec (set_previewSubtitle (JS.Tpl [JS.Lit "封面标题: "; JS.Sub (JS.Str joined)])) ;;
  Eff.exec (set_imageCarousel []) ;;
  let* images := Eff.of_sum (JS.get data "images") in
  let* urls := Eff.of_sum (as_array (JS.or images (JS.Arr []))) in
  Eff.forEach add_image 0 urls ;;
  Eff.exec (set_btnPublish {| disabled := false; innerHTML := publish_label |}) ;;
  Eff.exec (set_previewPanel true).

(** *** Job launcher *)

Definition getConfig (s : state) : JS.value :=
  JS.Obj [("url", JS.Str (JS.trim (urlInput s)));
          ("model", JS.Str (select_value (modelSelect s)));
          ("template", JS.Str (select_value (templateSelect s)));
          ("prompt_style", JS.Str (select_value (promptSelect s)))].

Definition config_url (s : state) : string := JS.trim (urlInput s).

Definition post (url : string) (body : JS.value) : request :=
  {| req_method := "POST";
     req_url := url;
     req_headers := [("Content-Type", "application/json")];
     req_body := Some body |}.

Definition url_notice : string := "⚠️ 请先输入文章链接".
Definition auto_prompt : string := "🚀 确认自动发布？将直接抓取、生成并发布到小红书。".
Definition publish_prompt : string := "✅ 确认发布到小红书？".

(** [handleManual] up to [await fetch(...)]; [true] when it is suspended on
    the request. *)
Definition handleManual (s : state) : state * bool :=
  if negb (JS.nonempty (config_url s)) then
    (showToast url_notice s, false)
  else
    let config := getConfig s in
    let s := setProcessing true s in
    let s := showLogPanel s in
    let s := hidePreview s in
    let s := clearLogs s in
    let s := appendLog_lit "📱 手动模式启动..." s in
    (fetch (post "/api/generate" config) ManualJob s, true).

(** [resp.ok && data.success]: [data.success] is read only when [resp.ok]. *)
Definition ok_and_success (status : Z) (data : JS.value) : Eff.M state bool :=
  if resp_ok status then
    let* success := Eff.of_sum (JS.get data "success") in
    Eff.ret (JS.truthy success)
  else Eff.ret false.

(** [showToast(`❌ ${data.error || fallback}`)] *)
Definition toast_error (data : JS.value) (fallback : string) : Eff.M state unit :=
  let* err := Eff.of_sum (JS.get data "error") in
  let* notice := Eff.of_sum (JS.template
    [JS.Lit "❌ "; JS.Sub (JS.or err (JS.Str fallback))]) in
  Eff.exec (showToast notice).

(** The rest of [handleManual], run when the request settles. *)
Definition handleManual_resume (r : fetch_result) : Eff.M state unit :=
  Eff.finally
    (Eff.try_catch
       (let* resp := await_json r in
        let* good := ok_and_success (fst resp) (snd resp) in
        if good then
          showPreview (snd resp) ;;
          Eff.exec (showToast "✅ 生成完成，请预览确认")
        else toast_error (snd resp) "生成失败")
       (fun e =>
          Eff.exec (showToast "❌ 请求失败，请检查后端是否运行") ;;
          Eff.exec (console_error e)))
    (Eff.exec (setProcessing false)).

(** [handleAuto] up to [await fetch(...)]; [answer] is what the user chooses
    if [confirm] is shown. *)
Definition handleAuto (answer : bool) (s : state) : state * bool :=
  if negb (JS.nonempty (config_url s)) then
    (showToast url_notice s, false)
  else
    let config := getConfig s in
    let s := confirm auto_prompt answer s in
    if negb answer then (s, false)
    else
      let s := setProcessing true s in
      let s := showLogPanel s in
      let s := hidePreview s in
      let s := clearLogs s in
      let s := appendLog_lit "🤖 自动发布模式启动..." s in
      (fetch (post "/api/auto-publish" config) AutoJob s, true).

Definition handleAuto_resume (r : fetch_result) : Eff.M state unit :=
  Eff.finally
    (Eff.try_catch
       (let* resp := await_json r in
        let* good := ok_and_success (fst resp) (snd resp) in
        if good then Eff.exec (showToast "✅ 自动发布成功！")
        else toast_error (snd resp) "发布失败")
       (fun e =>
          Eff.exec (showToast "❌ 请求失败") ;;
          Eff.exec (console_error e)))
    (Eff.exec (setProcessing false)).

(** [handlePublish] up to [await fetch(...)]. *)
Definition handlePublish (answer : bool) (s : state) : state * bool :=
  let s := confirm publish_prompt answer s in
  if negb answer then (s, false)
  else
    let s := set_btnPublish {| disabled := true; innerHTML := publishing_label |} s in
    (fetch (post "/api/publish" (JS.Obj [("auto_publish", JS.Bool true)])) PublishJob s,
     true).

Definition handlePublish_resume (r : fetch_result) : Eff.M state unit :=
  Eff.try_catch
    (let* resp := await_json r in
     let* good := ok_and_success (fst resp) (snd resp) in
     if good then
       Eff.exec (showToast "✅ 发布成功！") ;;
       Eff.exec (fun s => set_btnPublish
                   {| disabled := disabled (btnPublish s); innerHTML := published_label |} s)
     else
       toast_error (snd resp) "发布失败" ;;
       Eff.exec (set_btnPublish {| disabled := false; innerHTML := publish_label |}))
    (fun _ =>
       Eff.exec (showToast "❌ 请求失败") ;;
       Eff.exec (set_btnPublish {| disabled := false; innerHTML := publish_label |})).

Definition resume (j : job) (r : fetch_result) : Eff.M state unit :=
  match j with
  | ConfigJob => loadConfig_resume r
  | ManualJob => handleManual_resume r
  | AutoJob => handleAuto_resume r
  | PublishJob => handlePublish_resume r
  end.

(** *** Session controller *)

Definition ws_url (s : state) : string :=
  (if String.eqb (location_protocol s) "https:" then "wss:" else "ws:")
  ++ "//" ++ location_host s ++ "/ws/logs".

Definition connectWebSocket (s : state) : state :=
  let id := length (sockets s) in
  let s := set_sockets (sockets s ++ [{| sock_url := ws_url s; sock_state := CONNECTING |}]) s in
  let s := set_ws (Some id) s in
  set_intervals (intervals s ++ [(30000, Heartbeat)]) s.

Definition onopen (s : state) : state :=
  set_statusDot "var(--success)" (set_connectionStatus "已连接" s).

(** [frame] is [JSON.parse(event.data)], [None] when the text is not JSON. *)
Definition onmessage (frame : option JS.value) : Eff.M state unit :=
  let* data := Eff.of_sum (from_option inr (inl JS.SyntaxError) frame) in
  let* type := Eff.of_sum (JS.get data "type") in
  if JS.is_str type "log" then
    let* message := Eff.of_sum (JS.get data "message") in
    appendLog message
  else if JS.is_str type "progress" then
    let* value := Eff.of_sum (JS.get data "value") in
    updateProgress value
  else Eff.ret tt.

Definition onclose (s : state) : state :=
  let s := set_connectionStatus "连接断开，重连中..." s in
  let s := set_statusDot "var(--danger)" s in
  set_timeouts (timeouts s ++ [(3000, Reconnect)]) s.

Definition onerror (s : state) : state :=
  set_statusDot "var(--danger)" (set_connectionStatus "连接失败" s).

(** [ws.readyState] of the socket the variable [ws] holds. *)
Definition ws_readyState (s : state) : option readyState :=
  match ws s with
  | Some id => sock_state <$> sockets s !! id
  | None => None
  end.

Definition is_open (r : option readyState) : bool :=
  match r with Some OPEN => true | _ => false end.

Definition heartbeat (s : state) : state :=
  match ws s with
  | Some id =>
      if is_open (ws_readyState s) then set_sent (sent s ++ [(id, "ping")]) s else s
  | None => s
  end.

Definition run_task (t : task) (s : state) : state :=
  match t with
  | HideToast => set_toast_show false s
  | Reconnect => connectWebSocket s
  | Heartbeat => heartbeat s
  end.

(** *** The page as an event loop

    One event runs one handler to its end or to its next [await].  The
    handlers of the three buttons are attached in [index.html]; a disabled
    button dispatches no click. *)

Inductive event :=
  | ClickManual
  | ClickAuto (answer : bool)
  | ClickPublish (answer : bool)
  | ClickPaste (clipboard : option string)
  | Settle (i : nat) (r : fetch_result)      (* the request of job [i] settles *)
  | SockOpen (id : nat)
  | SockMessage (id : nat) (frame : option JS.value)
  | SockError (id : nat)
  | SockClosing (id : nat)                   (* the closing handshake starts *)
  | SockClose (id : nat)
  | FireTimeout (i : nat)
  | FireInterval (i : nat)
  | ClickImage (i : nat)
  | CloseViewer
  | TypeUrl (text : string)                  (* the user edits #urlInput *)
  | Pick (w : which) (i : nat).              (* the user picks an option *)

Definition socket_state (id : nat) (s : state) : option readyState :=
  sock_state <$> sockets s !! id.

Definition set_readyState (id : nat) (r : readyState) (s : state) : state :=
  set_sockets
    (alter (fun k => {| sock_url := sock_url k; sock_state := r |}) id (sockets s)) s.

Definition pick_in (w : which) (i : nat) (s : state) : state :=
  match w with
  | ModelSelect => set_modelSelect (pick i (modelSelect s)) s
  | TemplateSelect => set_templateSelect (pick i (templateSelect s)) s
  | PromptSelect => set_promptSelect (pick i (promptSelect s)) s
  end.

Definition step (s : state) (e : event) : option state :=
  match e with
  | ClickManual =>
      if disabled (btnManual s) then None else Some (fst (handleManual s))
  | ClickAuto answer =>
      if disabled (btnAuto s) then None else Some (fst (handleAuto answer s))
  | ClickPublish answer =>
      if disabled (btnPublish s) then None else Some (fst (handlePublish answer s))
  | ClickPaste clipboard => Some (pasteClick clipboard s)
  | Settle i r =>
      match jobs s !! i with
      | Some j => Some (fst (resume j r (set_jobs (delete i (jobs s)) s)))
      | None => None
      end
  | SockOpen id =>
      match socket_state id s with
      | Some CONNECTING => Some (onopen (set_readyState id OPEN s))
      | _ => None
      end
  | SockMessage id frame =>
      match socket_state id s with
      | Some OPEN => Some (fst (onmessage frame s))
      | _ => None
      end
  | SockError id =>
      match socket_state id s with
      | Some CLOSED | None => None
      | Some _ => Some (onerror s)
      end
  | SockClosing id =>
      match socket_state id s with
      | Some CONNECTING | Some OPEN => Some (set_readyState id CLOSING s)
      | _ => None
      end
  | SockClose id =>
      match socket_state id s with
      | Some CLOSED | None => None
      | Some _ => Some (onclose (set_readyState id CLOSED s))
      end
  | FireTimeout i =>
      match timeouts s !! i with
      | Some (_, t) => Some (run_task t (set_timeouts (delete i (timeouts s)) s))
      | None => None
      end
  | FireInterval i =>
      match intervals s !! i with
      | Some (_, t) => Some (run_task t s)
      | None => None
      end
  | ClickImage i =>
      match imageCarousel s !! i with
      | Some im => Some (openViewer (onclick im) s)
      | None => None
      end
  | CloseViewer => Some (closeViewer s)
  | TypeUrl text => Some (set_urlInput text s)
  | Pick w i => Some (pick_in w i s)
  end.

Fixpoint run (s : state) (es : list event) : option state :=
  match es with
  | [] => Some s
  | e :: es' =>
      match step s e with
      | Some s' => run s' es'
      | None => None
      end
  end.

(** The page before its script runs. *)
Definition fresh (protocol host : string) : state :=
  {| ws := None; isProcessing := false;
     location_protocol := protocol; location_host := host;
     urlInput := EmptyString; modelSelect := [];
     templateSelect := []; promptSelect := [];
     connectionStatus := EmptyString; statusDot := EmptyString;
     btnManual := {| disabled := false; innerHTML := manual_label |};
     btnAuto := {| disabled := false; innerHTML := auto_label |};
     btnPublish := {| disabled := false; innerHTML := publish_label |};
     progressWrapper := false; progressBar := JS.Raw JS.Undefined;
     progressText := JS.Raw JS.Undefined;
     logPanel := false; logContainer := [];
     previewPanel := false; previewTitle := JS.Raw JS.Undefined;
     previewSubtitle := JS.Raw JS.Undefined; imageCarousel := [];
     imageViewer := false; viewerImage := JS.Undefined;
     toast := JS.Raw JS.Undefined; toast_show := false;
     sockets := []; sent := []; timeouts := []; intervals := [];
     requests := []; jobs := []; dialogs := []; console := [] |}.

(** After 'DOMContentLoaded': [loadConfig(); connectWebSocket();
    setupPasteButton()], the last only attaching [pasteClick]. *)
Definition loaded (protocol host : string) : state :=
  connectWebSocket (loadConfig (fresh protocol host)).

Inductive reachable : state -> Prop :=
  | reach_loaded protocol host : reachable (loaded protocol host)
  | reach_step s e s' : reachable s -> step s e = Some s' -> reachable s'.

(** Counting. *)
Definition is_launch (j : job) : bool :=
  match j with ManualJob | AutoJob => true | ConfigJob | PublishJob => false end.


Definition is_reconnect (t : Z * task) : bool :=
  match snd t with Reconnect => true | _ => false end.

Definition pending_reconnects (s : state) : nat :=
  length (List.filter is_reconnect (timeouts s)).

Definition is_live (k : socket) : bool :=
  match sock_state k with CLOSED => false | _ => true end.

Definition live_sockets (s : state) : nat := length (List.filter is_live (sockets s)).

(** What the job launcher owns: the flag, its two buttons and its jobs. *)
Definition launcher_view (s : state) : bool * button * button * list job :=
  (isProcessing s, btnManual s, btnAuto s, List.filter is_launch (jobs s)).

(** What the session controller owns: the socket variable, the sockets,
    what was sent, the heartbeat timers and the reconnect timers. *)
Definition session_view (s : state)
    : option nat * list socket * list (nat * string) * list (Z * task) * list (Z * task) :=
  (ws s, sockets s, sent s, intervals s, List.filter is_reconnect (timeouts s)).

(** *** Shapes of a generate response *)

Definition absent (v : JS.value) : bool :=
  match v with JS.Undefined => true | _ => false end.

Definition is_string (v : JS.value) : bool :=
  match v with JS.Str _ => true | _ => false end.

Definition absent_or_string (v : JS.value) : bool := absent v || is_string v.

(** Absent, or an array of strings. *)
Definition absent_or_urls (v : JS.value) : bool :=
  match v with
  | JS.Undefined => true
  | JS.Arr l => forallb is_string l
  | _ => false
  end.

(** An object whose [caption_title], [cover_title] and [images], where
    present, are a string, a string and an array of strings. *)
Definition artifact (data : JS.value) : bool :=
  match data with
  | JS.Obj fs =>
      absent_or_string (JS.lookup_field "caption_title" fs)
      && absent_or_string (JS.lookup_field "cover_title" fs)
      && absent_or_urls (JS.lookup_field "images" fs)
  | _ => false
  end.

(** The value converts to a string. *)
Definition converts (u : JS.value) : bool := negb (JS.unprintable u).

(** The values on which [showPreview] runs to its end: [data] is not null,
    the title converts to a string, [cover_title] is falsy or a string,
    [images] is falsy or an array of values that convert to a string. *)
Definition previewable (data : JS.value) : bool :=
  match JS.get data "caption_title", JS.get data "cover_title",
        JS.get data "images" with
  | inr caption, inr cover, inr images =>
      converts (JS.or caption (JS.Str ""))
      && is_string (JS.or cover (JS.Str ""))
      && match JS.or images (JS.Arr []) with
         | JS.Arr l => forallb converts l
         | _ => false
         end
  | _, _, _ => false
  end.

(** [resp.ok && data.success] on a settled request. *)
Definition succeeded (r : fetch_result) : bool :=
  match r with
  | Response status (Some data) =>
      resp_ok status &&
      match JS.get data "success" with inr v => JS.truthy v | inl _ => false end
  | _ => false
  end.

(** *** Invariants *)


Definition live_bit (k : socket) : nat := if is_live k then 1%nat else 0%nat.

(** There is always exactly one thing that keeps the session going: a socket
    that is not closed, or a pending reconnect; reconnects wait 3000 ms and
    heartbeats tick every 30000 ms. *)
Definition session_inv (s : state) : Prop :=
  (live_sockets s + pending_reconnects s = 1)%nat
  /\ Forall (fun t => t = (3000%Z, Reconnect)) (List.filter is_reconnect (timeouts s))
  /\ Forall (fun t => t = (30000%Z, Heartbeat)) (intervals s).

(** *** Example data *)


(** The page after a confirmed publish has succeeded. *)
Definition published_state : state :=
  fst (handlePublish_resume
         (Response 200 (Some (JS.Obj [("success", JS.Bool true)])))
         (fst (handlePublish true (loaded "http:" "localhost:8000")))).

(** The page with a URL typed in. *)
Definition run_state : state :=
  set_urlInput "https://example.com/a" (loaded "http:" "localhost:8000").

Definition example_artifact : JS.value :=
  JS.Obj [("success", JS.Bool true); ("caption_title", JS.Str "T");
          ("images", JS.Arr [JS.Str "i1.png"])].

(** A configuration as the backend sends it. *)
Definition example_config : JS.value :=
  JS.Obj [("models", JS.Arr [JS.Str "m1"; JS.Str "m2"]);
          ("templates", JS.Arr
             [JS.Obj [("id", JS.Str "t1"); ("name", JS.Str "One")];
              JS.Obj [("id", JS.Str "t2"); ("name", JS.Str "Two")]]);
          ("prompt_styles", JS.Arr
             [JS.Obj [("name", JS.Str "p1"); ("description", JS.Str "plain")]]);
          ("defaults", JS.Obj
             [("model", JS.Str "m2"); ("template", JS.Str "t1");
              ("prompt_style", JS.Str "p1"); ("api_key_set", JS.Bool true)])].

End Backend.


(** ** Invariants of effectful code *)

(** [m] takes states that satisfy [P] to states that satisfy [P], thrown or
    not. *)
Definition preserves {St A} (P : St -> Prop) (m : Eff.M St A) : Prop :=
  forall s, P s -> P (fst (m s)).

(** ** Notions about the workers *)

(** The entry of the cache storage that belongs to the worker. *)
Definition own (w : SW.worker) (e : string * SW.cache) : bool :=
  String.eqb (fst e) (SW.CACHE_NAME w).

(** ** Notions about the backend panel *)

Module Panel.
Import Backend.

(** *** Drop-downs filled by [loadConfig] *)

(** The options with exactly option [k] selected. *)
Definition sel_at (k : nat) (opts : select) : select :=
  imap (fun i o => with_selected (Nat.eqb i k) o) opts.

(** The options as [loadConfig] creates them, before they are appended. *)
Definition model_option (dflt m : JS.value) : option_el :=
  {| opt_value := m; opt_text := JS.Raw m; opt_selected := JS.strict_eq m dflt |}.

Definition template_option (dflt id name : JS.value) : option_el :=
  {| opt_value := id; opt_text := JS.Tpl [JS.Sub name];
     opt_selected := JS.strict_eq id dflt |}.

Definition prompt_option (dflt name description : JS.value) : option_el :=
  {| opt_value := name;
     opt_text := JS.Tpl [JS.Sub name; JS.Lit " — "; JS.Sub description];
     opt_selected := JS.strict_eq name dflt |}.

(** A string field of an item of the configuration. *)
Definition has_str (k : string) (v : JS.value) : bool :=
  match JS.get v k with inr (JS.Str _) => true | _ => false end.

Definition str_of (k : string) (v : JS.value) : string :=
  match JS.get v k with inr (JS.Str x) => x | _ => EmptyString end.

(** The default when it is one of the names, the first name otherwise, the
    empty string when there is no name. *)
Definition default_or_first (dflt : JS.value) (names : list string) : string :=
  if existsb (fun n => JS.strict_eq (JS.Str n) dflt) names
  then JS.to_string dflt
  else hd EmptyString names.

(** *** Toasts *)

Definition is_hide (t : Z * task) : bool :=
  match snd t with HideToast => true | _ => false end.

Definition pending_hides (s : state) : nat :=
  length (List.filter is_hide (timeouts s)).

(** A toast on display has a timer that will hide it, and hide timers wait
    3000 ms. *)
Definition toast_inv (s : state) : Prop :=
  (toast_show s = true -> 1 <= pending_hides s)%nat
  /\ Forall (fun t => t = (3000%Z, HideToast)) (List.filter is_hide (timeouts s)).

(** What the invariant reads. *)
Definition toast_view (s : state) : bool * list (Z * task) :=
  (toast_show s, List.filter is_hide (timeouts s)).

(** *** Frames of the log socket *)

Definition is_log (frame : list (string * JS.value)) : bool :=
  JS.is_str (JS.lookup_field "type" frame) "log"
  && is_string (JS.lookup_field "message" frame).

(** *** Preview *)

(** The page with what [showPreview] writes blanked out. *)
Definition outside_preview (s : state) : state :=
  set_previewPanel false
    (set_btnPublish {| disabled := false; innerHTML := EmptyString |}
       (set_imageCarousel []
          (set_previewSubtitle (JS.Raw JS.Undefined)
             (set_previewTitle (JS.Raw JS.Undefined) s)))).

(** The notice of a handler when the backend gives no error text. *)
Definition fallback (j : job) : string :=
  match j with
  | ManualJob => "生成失败"
  | AutoJob | PublishJob => "发布失败"
  | ConfigJob => EmptyString
  end.

(** *** Requests *)

Definition endpoints : list (string * string) :=
  [("GET", "/api/config"); ("POST", "/api/generate");
   ("POST", "/api/auto-publish"); ("POST", "/api/publish")].

Definition to_endpoint (rq : request) : bool :=
  existsb (fun e => String.eqb (req_method rq) (fst e) && String.eqb (req_url rq) (snd e))
    endpoints.

Definition is_publish (j : job) : bool :=
  match j with PublishJob => true | _ => false end.

(** *** Session *)

(** Every socket but the newest is closed, [ws] holds the newest, each
    socket came with one heartbeat timer and all go to the same URL. *)
Definition newest_only (s : state) : Prop :=
  ws s = Some (length (sockets s) - 1)%nat
  /\ (1 <= length (sockets s))%nat
  /\ length (intervals s) = length (sockets s)
  /\ (forall id k, sockets s !! id = Some k -> (id + 1 < length (sockets s))%nat ->
        sock_state k = CLOSED)
  /\ Forall (fun k => sock_url k = ws_url s) (sockets s).

(** What [newest_only] reads. *)
Definition net_view (s : state)
    : option nat * list socket * list (Z * task) * string * string :=
  (ws s, sockets s, intervals s, location_protocol s, location_host s).

End Panel.

(** ** The cloud panel as a page: [src/docs/app.js] with its listeners,
    its refresh timer and the run list *)

Module CloudPage.

(** An async function suspended on its [fetch]. *)
Inductive job := TriggerJob | RunsJob.

(** The callback given to [setInterval]:
    [() => { if (getSettings().pat) loadRuns(); }] *)
Inductive ticker := Refresh.

(** A [div.run-item] of [#runsList], by the substitutions of the template
    literal its [innerHTML] is built from, in their order.  [created_at] is
    the argument of [new Date(...)]; what [toLocaleString] makes of it depends
    on the time zone of the browser and is not spelled out. *)
Record run_item := {
  statusClass : string;
  run_name : JS.value;
  run_number : JS.value;
  created_at : JS.value;
  run_status : JS.value;
  html_url : JS.value
}.

(** A child of [#runsList]. *)
Inductive node :=
  | EmptyRuns (text : string)     (* div.empty-runs, by its text *)
  | RunItem (item : run_item).

Record state := {
  core : Cloud.state;
  runsList : list node;            (* children of #runsList, in order *)
  intervals : list (Z * ticker);   (* setInterval(task, period) *)
  jobs : list job                  (* async functions awaiting their fetch *)
}.

Definition set_core (v : Cloud.state) (p : state) : state :=
  {| core := v; runsList := runsList p; intervals := intervals p; jobs := jobs p |}.

Definition set_runsList (v : list node) (p : state) : state :=
  {| core := core p; runsList := v; intervals := intervals p; jobs := jobs p |}.

Definition set_intervals (v : list (Z * ticker)) (p : state) : state :=
  {| core := core p; runsList := runsList p; intervals := v; jobs := jobs p |}.

Definition set_jobs (v : list job) (p : state) : state :=
  {| core := core p; runsList := runsList p; intervals := intervals p; jobs := v |}.

(** A statement on the elements and the store alone. *)
Definition lift (f : Cloud.state -> Cloud.state) (p : state) : state :=
  set_core (f (core p)) p.

Definition lift_m {A} (m : Eff.M Cloud.state A) : Eff.M state A :=
  fun p => (set_core (fst (m (core p))) p, snd (m (core p))).

(** The form controls the user writes and the code only reads. *)
Definition set_urlInput (v : string) (c : Cloud.state) : Cloud.state :=
  {| Cloud.localStorage := Cloud.localStorage c; Cloud.repoInput := Cloud.repoInput c;
     Cloud.patInput := Cloud.patInput c; Cloud.urlInput := v;
     Cloud.modelSelect := Cloud.modelSelect c;
     Cloud.templateSelect := Cloud.templateSelect c;
     Cloud.promptSelect := Cloud.promptSelect c;
     Cloud.settingsContent_open := Cloud.settingsContent_open c;
     Cloud.arrow := Cloud.arrow c; Cloud.btnTrigger := Cloud.btnTrigger c;
     Cloud.statusMsg := Cloud.statusMsg c; Cloud.toast := Cloud.toast c;
     Cloud.toast_show := Cloud.toast_show c; Cloud.timeouts := Cloud.timeouts c;
     Cloud.requests := Cloud.requests c; Cloud.console := Cloud.console c |}.

Definition set_select (w : Backend.which) (v : string) (c : Cloud.state) : Cloud.state :=
  {| Cloud.localStorage := Cloud.localStorage c; Cloud.repoInput := Cloud.repoInput c;
     Cloud.patInput := Cloud.patInput c; Cloud.urlInput := Cloud.urlInput c;
     Cloud.modelSelect :=
       match w with Backend.ModelSelect => v | _ => Cloud.modelSelect c end;
     Cloud.templateSelect :=
       match w with Backend.TemplateSelect => v | _ => Cloud.templateSelect c end;
     Cloud.promptSelect :=
       match w with Backend.PromptSelect => v | _ => Cloud.promptSelect c end;
     Cloud.settingsContent_open := Cloud.settingsContent_open c;
     Cloud.arrow := Cloud.arrow c; Cloud.btnTrigger := Cloud.btnTrigger c;
     Cloud.statusMsg := Cloud.statusMsg c; Cloud.toast := Cloud.toast c;
     Cloud.toast_show := Cloud.toast_show c; Cloud.timeouts := Cloud.timeouts c;
     Cloud.requests := Cloud.requests c; Cloud.console := Cloud.console c |}.

(** *** [setupEventListeners] *)

(** The click handler of [#toggleSettings]: [classList.toggle('open')], then
    the arrow follows [classList.contains('open')]. *)
Definition toggleSettings (c : Cloud.state) : Cloud.state :=
  let c := Cloud.set_settingsContent_open (negb (Cloud.settingsContent_open c)) c in
  Cloud.set_arrow (if Cloud.settingsContent_open c then "▲" else "▼") c.

(** The click handler of [#pasteBtn], from the moment its read of the
    clipboard settles: the click itself changes nothing before that.
    [clipboard] is what [navigator.clipboard.readText()] resolves to, [None]
    when it rejects or cannot be called. *)
Definition pasteClick (clipboard : option string) (c : Cloud.state) : Cloud.state :=
  match clipboard with
  | Some text => Cloud.showToast "📋 已粘贴" (set_urlInput text c)
  | None => Cloud.showToast "⚠️ 请手动粘贴" c
  end.

(** [loadRuns] up to its [await]: the request leaves and the function waits
    for it when both settings are present. *)
Definition loadRuns (p : state) : state :=
  let st := Cloud.getSettings (core p) in
  if negb (JS.nonempty (Cloud.repo st)) || negb (JS.nonempty (Cloud.pat st)) then p
  else set_jobs (jobs p ++ [RunsJob]) (lift Cloud.loadRuns p).

(** The callback of the refresh timer. *)
Definition refresh (p : state) : state :=
  if JS.nonempty (Cloud.pat (Cloud.getSettings (core p))) then loadRuns p else p.

(** [saveSettings], the 'change' handler of the two settings inputs. *)
Definition saveSettings (p : state) : state :=
  let repo := JS.trim (Cloud.repoInput (core p)) in
  let pat := JS.trim (Cloud.patInput (core p)) in
  let p := if JS.nonempty repo then lift (Cloud.setItem "xhs_repo" repo) p else p in
  let p := if JS.nonempty pat then lift (Cloud.setItem "xhs_pat" pat) p else p in
  let p := lift (Cloud.showToast "💾 设置已保存") p in
  if JS.nonempty repo && JS.nonempty pat then loadRuns p else p.

(** The listeners are attached (they are the events of [step] below) and
    the refresh timer is started. *)
Definition setupEventListeners (p : state) : state :=
  set_intervals (intervals p ++ [(30000, Refresh)]) p.

(** *** Page load *)

(** [document.querySelector('.empty-runs').textContent = text]: the first
    element of that class takes the text; without one the read of [null]
    throws.  The class is taken to occur in [#runsList] only, where
    [loadRuns] puts it. *)
Fixpoint set_empty_runs (text : string) (l : list node) : option (list node) :=
  match l with
  | [] => None
  | EmptyRuns _ :: l' => Some (EmptyRuns text :: l')
  | RunItem item :: l' =>
      match set_empty_runs text l' with
      | Some l'' => Some (RunItem item :: l'')
      | None => None
      end
  end.

(** The 'DOMContentLoaded' listener. *)
Definition DOMContentLoaded : Eff.M state unit :=
  Eff.exec (lift Cloud.loadSettings) ;;
  Eff.exec setupEventListeners ;;
  fun p =>
    if JS.nonempty (Cloud.pat (Cloud.getSettings (core p))) then
      Eff.exec loadRuns p
    else
      (let* l := Eff.of_sum
         (from_option inr (inl JS.TypeError)
            (set_empty_runs "请先配置 GitHub PAT" (runsList p))) in
       Eff.exec (set_runsList l) ;;
       Eff.exec (lift Cloud.showSettings)) p.

(** *** [triggerAction] *)

Definition triggerAction (p : state) : state :=
  let r := Cloud.triggerAction (core p) in
  let p := set_core (fst r) p in
  if snd r then set_jobs (jobs p ++ [TriggerJob]) p else p.

(** *** The run list *)

(** [v.length === 0]: an array or a string has its length, an object the
    property of that name if it has one, a number or a boolean none. *)
Definition length_is_zero (v : JS.value) : JS.exn + bool :=
  match v with
  | JS.Undefined | JS.Null => inl JS.TypeError
  | JS.Arr l => inr (match l with [] => true | _ :: _ => false end)
  | JS.Str s => inr (negb (JS.nonempty s))
  | JS.Obj fs => inr (JS.strict_eq (JS.lookup_field "length" fs) (JS.Num 0))
  | JS.Bool _ | JS.Num _ => inr false
  end.

(** The class of the status dot. *)
Definition status_class (run : JS.value) : Eff.M state string :=
  let* status := Eff.of_sum (JS.get run "status") in
  if JS.is_str status "completed" then
    let* conclusion := Eff.of_sum (JS.get run "conclusion") in
    Eff.ret (if JS.is_str conclusion "success" then "status-success"
             else "status-failure")
  else if JS.is_str status "in_progress" then Eff.ret "status-in_progress"
  else Eff.ret "status-queued".

(** The callback of [forEach] in [loadRuns]: [new Date(v)] and every
    substitution of the template convert their value, and the item is
    appended when all of them did. *)
Definition add_run (run : JS.value) : Eff.M state unit :=
  let* class := status_class run in
  let* created := Eff.of_sum (JS.get run "created_at") in
  let* created := Eff.of_sum (JS.printable created) in
  let* name := Eff.of_sum (JS.get run "name") in
  let* name := Eff.of_sum (JS.printable name) in
  let* number := Eff.of_sum (JS.get run "run_number") in
  let* number := Eff.of_sum (JS.printable number) in
  let* status := Eff.of_sum (JS.get run "status") in
  let* status := Eff.of_sum (JS.printable status) in
  let* url := Eff.of_sum (JS.get run "html_url") in
  let* url := Eff.of_sum (JS.printable url) in
  Eff.exec (fun p => set_runsList
    (runsList p ++ [RunItem {| statusClass := class; run_name := name;
                               run_number := number; created_at := created;
                               run_status := status; html_url := url |}]) p).

Definition console_error (e : JS.exn) (c : Cloud.state) : Cloud.state :=
  Cloud.set_console (Cloud.console c ++ [e]) c.

(** The rest of [loadRuns], run when the request settles. *)
Definition loadRuns_resume (r : fetch_result) : Eff.M state unit :=
  Eff.try_catch
    (match r with
     | Rejected => Eff.throw JS.NetworkError
     | Response status body =>
         if negb (resp_ok status) then Eff.ret tt
         else
           let* data := Eff.of_sum (from_option inr (inl JS.SyntaxError) body) in
           Eff.exec (set_runsList []) ;;
           let* runs := Eff.of_sum (JS.get data "workflow_runs") in
           let* none := Eff.of_sum (length_is_zero runs) in
           if none then Eff.exec (set_runsList [EmptyRuns "暂无运行记录"])
           else
             let* items := Eff.of_sum (Backend.as_array runs) in
             Eff.forEach (fun _ run => add_run run) 0 items
     end)
    (fun e => Eff.exec (lift (console_error e))).

(** *** The page as an event loop *)

Definition resume (j : job) (r : fetch_result) : Eff.M state unit :=
  match j with
  | TriggerJob => lift_m (Cloud.triggerAction_resume r)
  | RunsJob => loadRuns_resume r
  end.

Definition run_task (t : Cloud.task) (p : state) : state :=
  match t with
  | Cloud.HideToast => lift (Cloud.set_toast_show false) p
  | Cloud.LoadRuns => loadRuns p
  end.

Definition run_ticker (t : ticker) (p : state) : state :=
  match t with Refresh => refresh p end.

(** The click handler of [#btnTrigger] is attached in [index.html]; a
    disabled button dispatches no click. *)
Inductive event :=
  | ToggleSettings
  | ChangeRepo (text : string)       (* the user edits #repoInput and leaves it *)
  | ChangePat (text : string)
  | TypeUrl (text : string)
  | Select (w : Backend.which) (v : string)
  | ClickPaste (clipboard : option string)   (* the clipboard read of a click settles *)
  | ClickTrigger
  | Settle (i : nat) (r : fetch_result)
  | FireTimeout (i : nat)
  | Tick (i : nat).

Definition step (p : state) (e : event) : option state :=
  match e with
  | ToggleSettings => Some (lift toggleSettings p)
  | ChangeRepo text => Some (saveSettings (lift (Cloud.set_repoInput text) p))
  | ChangePat text => Some (saveSettings (lift (Cloud.set_patInput text) p))
  | TypeUrl text => Some (lift (set_urlInput text) p)
  | Select w v => Some (lift (set_select w v) p)
  | ClickPaste clipboard => Some (lift (pasteClick clipboard) p)
  | ClickTrigger =>
      if disabled (Cloud.btnTrigger (core p)) then None else Some (triggerAction p)
  | Settle i r =>
      match jobs p !! i with
      | Some j => Some (fst (resume j r (set_jobs (delete i (jobs p)) p)))
      | None => None
      end
  | FireTimeout i =>
      match Cloud.timeouts (core p) !! i with
      | Some (_, t) =>
          Some (run_task t (lift (fun c => Cloud.set_timeouts (delete i (Cloud.timeouts c)) c) p))
      | None => None
      end
  | Tick i =>
      match intervals p !! i with
      | Some (_, t) => Some (run_ticker t p)
      | None => None
      end
  end.

Fixpoint run (p : state) (es : list event) : option state :=
  match es with
  | [] => Some p
  | e :: es' =>
      match step p e with
      | Some p' => run p' es'
      | None => None
      end
  end.

(** The page as [index.html] gives it, before the script runs: nothing is
    pending yet. *)
Definition pristine (p : state) : Prop :=
  Cloud.requests (core p) = [] /\ Cloud.timeouts (core p) = []
  /\ intervals p = [] /\ jobs p = [].

(** The states the page goes through after it was loaded as [p0]. *)
Inductive reachable (p0 : state) : state -> Prop :=
  | reach_loaded : reachable p0 (fst (DOMContentLoaded p0))
  | reach_step p e p' : reachable p0 p -> step p e = Some p' -> reachable p0 p'.

(** *** What the page asks of the network *)

Definition runs_request (repo pat : string) : request :=
  {| req_method := "GET";
     req_url := "https://api.github.com/repos/" ++ repo ++ "/actions/runs?per_page=5";
     req_headers := Cloud.api_headers pat;
     req_body := None |}.

(** A request for the run list or a dispatch, with the token in its
    [Authorization] header. *)
Definition github_request (rq : request) : Prop :=
  exists repo pat,
    JS.nonempty repo = true /\ JS.nonempty pat = true
    /\ req_headers rq = Cloud.api_headers pat
    /\ ((req_method rq = "GET"
         /\ req_url rq = "https://api.github.com/repos/" ++ repo
                         ++ "/actions/runs?per_page=5"
         /\ req_body rq = None)
        \/ (req_method rq = "POST"
            /\ req_url rq = "https://api.github.com/repos/" ++ repo ++ "/dispatches"
            /\ exists payload, req_body rq = Some payload)).

Definition all_github (p : state) : Prop :=
  Forall github_request (Cloud.requests (core p)).

(** The arrow of the settings header tells whether the panel is open. *)
Definition arrow_ok (c : Cloud.state) : Prop :=
  Cloud.arrow c = if Cloud.settingsContent_open c then "▲" else "▼".

(** *** The run list, described *)

(** [run.k] on a run that is not null. *)
Definition field (run : JS.value) (k : string) : JS.value :=
  match JS.get run k with inr v => v | inl _ => JS.Undefined end.

(** The runs an item can be made of: not null, and with a date, a name, a
    number, a status and a link that convert to strings. *)
Definition renders (run : JS.value) : bool :=
  match run with
  | JS.Undefined | JS.Null => false
  | _ =>
      forallb (fun k => negb (JS.unprintable (field run k)))
        ["created_at"; "name"; "run_number"; "status"; "html_url"]
  end.

Definition class_of (run : JS.value) : string :=
  if JS.is_str (field run "status") "completed" then
    if JS.is_str (field run "conclusion") "success" then "status-success"
    else "status-failure"
  else if JS.is_str (field run "status") "in_progress" then "status-in_progress"
  else "status-queued".

Definition item_of (run : JS.value) : run_item :=
  {| statusClass := class_of run;
     run_name := field run "name";
     run_number := field run "run_number";
     created_at := field run "created_at";
     run_status := field run "status";
     html_url := field run "html_url" |}.

(** The runs up to the first that cannot be rendered. *)
Fixpoint while_renders (runs : list JS.value) : list JS.value :=
  match runs with
  | [] => []
  | run :: runs' => if renders run then run :: while_renders runs' else []
  end.

(** *** Example data *)

Definition example_page : state :=
  {| core := Cloud.example_state;
     runsList := [EmptyRuns "加载中..."];
     intervals := []; jobs := [] |}.

(** A page on which nothing was saved yet. *)
Definition blank_page : state :=
  set_core (Cloud.set_patInput "" (Cloud.set_repoInput ""
              (Cloud.set_localStorage ∅ Cloud.example_state))) example_page.

Definition example_runs : JS.value :=
  JS.Obj [("total_count", JS.Num 2);
          ("workflow_runs", JS.Arr
             [JS.Obj [("name", JS.Str "publish"); ("run_number", JS.Num 8);
                      ("status", JS.Str "in_progress"); ("conclusion", JS.Null);
                      ("created_at", JS.Str "2025-01-02T03:04:05Z");
                      ("html_url", JS.Str "https://github.com/o/r/actions/runs/8")];
              JS.Obj [("name", JS.Str "publish"); ("run_number", JS.Num 7);
                      ("status", JS.Str "completed"); ("conclusion", JS.Str "success");
                      ("created_at", JS.Str "2025-01-01T03:04:05Z");
                      ("html_url", JS.Str "https://github.com/o/r/actions/runs/7")]])].

End CloudPage.
(** * Properties *)

(** ** Settings store *)

Section SettingsStore.
Import Cloud.

Lemma localStorage_showToast msg s :
  localStorage (showToast msg s) = localStorage s.
Proof. reflexivity. Qed.

Lemma localStorage_loadRuns s : localStorage (loadRuns s) = localStorage s.
Proof. unfold loadRuns. by destruct (_ || _). Qed.

(** What [saveSettings] leaves in the store. *)
Lemma localStorage_saveSettings s :
  localStorage (saveSettings s) =
    let r := JS.trim (repoInput s) in
    let p := JS.trim (patInput s) in
    let m := if JS.nonempty r then <["xhs_repo" := r]> (localStorage s)
             else localStorage s in
    if JS.nonempty p then <["xhs_pat" := p]> m else m.
Proof.
  unfold saveSettings; cbv zeta.
  destruct (JS.nonempty (JS.trim (repoInput s)));
    destruct (JS.nonempty (JS.trim (patInput s))); simpl;
    rewrite ?localStorage_loadRuns; reflexivity.
Qed.

Lemma getItem_or_empty_spec k s :
  getItem_or_empty k s =
    match localStorage s !! k with Some v => v | None => EmptyString end.
Proof. unfold getItem_or_empty. by destruct (_ !! _). Qed.

(** C9. [saveSettings] writes a field only when its input is non-empty after
    trimming, and then writes the trimmed input; every other key of the store
    keeps its value, so a save with one input empty leaves that field as it
    was stored.  [getSettings] returns the stored values, the empty string
    for a key that is absent. *)
Theorem C9_settings_store (s : Cloud.state) :
  let s' := saveSettings s in
  let r := JS.trim (repoInput s) in
  let p := JS.trim (patInput s) in
  localStorage s' !! "xhs_repo" =
    (if JS.nonempty r then Some r else localStorage s !! "xhs_repo")
  /\ localStorage s' !! "xhs_pat" =
    (if JS.nonempty p then Some p else localStorage s !! "xhs_pat")
  /\ (forall k, k <> "xhs_repo" -> k <> "xhs_pat" ->
        localStorage s' !! k = localStorage s !! k)
  /\ repo (getSettings s') =
       (if JS.nonempty r then r else repo (getSettings s))
  /\ pat (getSettings s') =
       (if JS.nonempty p then p else pat (getSettings s))
  /\ repo (getSettings s) =
       match localStorage s !! "xhs_repo" with Some v => v | None => EmptyString end
  /\ pat (getSettings s) =
       match localStorage s !! "xhs_pat" with Some v => v | None => EmptyString end.
Proof.
  cbv zeta.
  assert (Hr : localStorage (saveSettings s) !! "xhs_repo" =
    (if JS.nonempty (JS.trim (repoInput s)) then Some (JS.trim (repoInput s))
     else localStorage s !! "xhs_repo")).
  { rewrite localStorage_saveSettings; cbv zeta.
    destruct (JS.nonempty (JS.trim (repoInput s)));
      destruct (JS.nonempty (JS.trim (patInput s))); by simplify_map_eq. }
  assert (Hp : localStorage (saveSettings s) !! "xhs_pat" =
    (if JS.nonempty (JS.trim (patInput s)) then Some (JS.trim (patInput s))
     else localStorage s !! "xhs_pat")).
  { rewrite localStorage_saveSettings; cbv zeta.
    destruct (JS.nonempty (JS.trim (repoInput s)));
      destruct (JS.nonempty (JS.trim (patInput s))); by simplify_map_eq. }
  split; [exact Hr|]. split; [exact Hp|].
  split; [|split; [|split; [|split; apply getItem_or_empty_spec]]].
  - intros k E1 E2. rewrite localStorage_saveSettings; cbv zeta.
    destruct (JS.nonempty (JS.trim (repoInput s)));
      destruct (JS.nonempty (JS.trim (patInput s))); by simplify_map_eq.
  - unfold getSettings; simpl. rewrite !getItem_or_empty_spec, Hr.
    destruct (JS.nonempty (JS.trim (repoInput s))); reflexivity.
  - unfold getSettings; simpl. rewrite !getItem_or_empty_spec, Hp.
    destruct (JS.nonempty (JS.trim (patInput s))); reflexivity.
Qed.

End SettingsStore.

(** ** Resource cache *)

Section ResourceCache.
Import SW.
#[local] Open Scope list_scope.

Lemma eqb_sym_false (a b : string) : String.eqb a b = false -> String.eqb b a = false.
Proof. rewrite !String.eqb_neq. congruence. Qed.

Lemma assoc_app {A} k (l1 l2 : list (string * A)) :
  assoc k (l1 ++ l2) =
    match assoc k l1 with Some a => Some a | None => assoc k l2 end.
Proof.
  induction l1 as [|[k' a] l1 IH]; simpl; [reflexivity|].
  destruct (String.eqb k k'); [reflexivity|exact IH].
Qed.

Lemma assoc_drop {A} k u (l : list (string * A)) :
  assoc k (List.filter (fun e => negb (String.eqb (fst e) u)) l) =
    if String.eqb k u then None else assoc k l.
Proof.
  induction l as [|[k' a] l IH]; simpl.
  - by destruct (String.eqb k u).
  - destruct (String.eqb k' u) eqn:Ek'; simpl.
    + apply String.eqb_eq in Ek'; subst k'. rewrite IH.
      by destruct (String.eqb k u).
    + destruct (String.eqb k k') eqn:Ek.
      * apply String.eqb_eq in Ek; subst k'. by rewrite Ek'.
      * exact IH.
Qed.

Lemma assoc_put k u r c :
  assoc k (put u r c) = if String.eqb k u then Some r else assoc k c.
Proof.
  unfold put. rewrite assoc_app, assoc_drop; simpl.
  destruct (String.eqb k u); [reflexivity|]. by destruct (assoc k c).
Qed.

Lemma fetch_all_sound net urls rs :
  fetch_all net urls = Some rs ->
  map fst rs = urls /\ Forall (fun e => net (fst e) = Some (snd e)) rs.
Proof.
  revert rs; induction urls as [|u urls IH]; simpl; intros rs H.
  - by inversion H.
  - destruct (net u) as [r|] eqn:Eu; [|discriminate].
    destruct (fetch_all net urls) as [rs'|]; [|discriminate].
    inversion H; subst rs; clear H. destruct (IH rs' eq_refl) as [H1 H2].
    simpl. split; [by rewrite H1|]. by constructor.
Qed.

Lemma assoc_put_all net rs c u :
  Forall (fun e => net (fst e) = Some (snd e)) rs ->
  assoc u (fold_left (fun c e => put (fst e) (snd e) c) rs c) =
    if bool_decide (u ∈ map fst rs) then net u else assoc u c.
Proof.
  revert c; induction rs as [|[k r] rs IH]; intros c H; simpl.
  - reflexivity.
  - inversion H as [|? ? Hk Hrs]; subst. simpl in Hk.
    rewrite (IH _ Hrs), assoc_put.
    destruct (bool_decide (u ∈ map fst rs)) eqn:E.
    + apply bool_decide_eq_true in E.
      rewrite bool_decide_eq_true_2; [reflexivity|]. by right.
    + apply bool_decide_eq_false in E.
      destruct (String.eqb u k) eqn:Ek.
      * apply String.eqb_eq in Ek; subst k.
        rewrite bool_decide_eq_true_2; [by rewrite Hk|]. by left.
      * apply String.eqb_neq in Ek.
        rewrite bool_decide_eq_false_2; [reflexivity|].
        intros [->|?]%elem_of_cons; done.
Qed.

Lemma installed_lookup w net u :
  is_Some (fetch_all net (URLS_TO_CACHE w)) ->
  assoc u (installed w net) =
    if bool_decide (u ∈ URLS_TO_CACHE w) then net u else None.
Proof.
  intros [rs Hrs]. unfold installed, addAll. rewrite Hrs.
  destruct (fetch_all_sound _ _ _ Hrs) as [Hk Hall].
  rewrite (assoc_put_all net rs [] u Hall), Hk. reflexivity.
Qed.

Lemma replace_fresh name c c0 (old : storage) :
  assoc name old = None ->
  replace name c (old ++ [(name, c0)]) = old ++ [(name, c)].
Proof.
  intros Hold. induction old as [|[n c'] old IH]; simpl.
  - by rewrite String.eqb_refl.
  - simpl in Hold. destruct (String.eqb name n) eqn:E; [discriminate|].
    rewrite (eqb_sym_false _ _ E). f_equal. by apply IH.
Qed.

Lemma install_fresh w net old :
  assoc (CACHE_NAME w) old = None ->
  install w net old =
    match fetch_all net (URLS_TO_CACHE w) with
    | Some _ => (old ++ [(CACHE_NAME w, installed w net)], true)
    | None => (old ++ [(CACHE_NAME w, [])], false)
    end.
Proof.
  intros Hold. unfold install, open, installed, addAll. rewrite Hold.
  rewrite assoc_app, Hold; simpl. rewrite String.eqb_refl; simpl.
  destruct (fetch_all net (URLS_TO_CACHE w)) as [rs|]; [|reflexivity].
  f_equal. by apply replace_fresh.
Qed.

Lemma delete_all ks (cs : storage) :
  fold_left (fun cs k => delete k cs) ks cs =
    List.filter (fun e => forallb (fun k => negb (String.eqb (fst e) k)) ks) cs.
Proof.
  revert cs; induction ks as [|k ks IH]; intros cs; simpl.
  - induction cs as [|e cs IHcs]; [reflexivity|]. simpl. by rewrite <- IHcs.
  - rewrite IH. unfold delete. clear IH.
    induction cs as [|e cs IHcs]; [reflexivity|]. simpl.
    destruct (String.eqb (fst e) k); simpl; [exact IHcs|].
    destruct (forallb _ ks); [by rewrite IHcs|exact IHcs].
Qed.

Lemma assoc_None_In {A} k (l : list (string * A)) e :
  assoc k l = None -> In e l -> String.eqb (fst e) k = false.
Proof.
  induction l as [|[k' a] l IH]; simpl; [tauto|].
  destruct (String.eqb k k') eqn:E; [discriminate|].
  intros H [<-|Hin]; [by apply eqb_sym_false|by apply IH].
Qed.

Lemma filter_none {A} (f : A -> bool) (l : list A) :
  (forall e, In e l -> f e = false) -> List.filter f l = [].
Proof.
  induction l as [|a l IH]; simpl; intros H; [reflexivity|].
  rewrite (H a) by tauto. apply IH. intros e He. apply H. tauto.
Qed.

Lemma activate_fresh w old c :
  assoc (CACHE_NAME w) old = None ->
  activate w (old ++ [(CACHE_NAME w, c)]) = [(CACHE_NAME w, c)].
Proof.
  intros Hold. unfold activate. rewrite delete_all.
  set (cs := old ++ [(CACHE_NAME w, c)]).
  rewrite (List.filter_ext_in _ (fun e => String.eqb (fst e) (CACHE_NAME w))).
  - subst cs. rewrite List.filter_app; simpl. rewrite String.eqb_refl.
    rewrite filter_none; [reflexivity|].
    intros e He. by apply (assoc_None_In _ old).
  - intros e He. destruct (String.eqb (fst e) (CACHE_NAME w)) eqn:E.
    + apply String.eqb_eq in E. apply forallb_forall. intros k Hk.
      apply List.filter_In in Hk as [_ Hk].
      apply negb_true_iff, String.eqb_neq in Hk.
      apply negb_true_iff, String.eqb_neq. congruence.
    + destruct (forallb _ _) eqn:F; [|reflexivity]. exfalso.
      assert (Hin : In (fst e) (List.filter
        (fun k => negb (String.eqb k (CACHE_NAME w))) (keys cs))).
      { apply List.filter_In. split; [by apply List.in_map|by rewrite E]. }
      pose proof (proj1 (forallb_forall _ _) F _ Hin) as Hne.
      simpl in Hne. by rewrite String.eqb_refl in Hne.
Qed.

(** What every state of an installed and activated worker looks like. *)
Lemma run_fetches w st es :
  status st = Activated ->
  Forall (fun e => match e with Fetch _ _ => True | _ => False end) es ->
  run w st es = Some st.
Proof.
  intros Hst Hes. induction Hes as [|e es He _ IH]; [reflexivity|].
  destruct e as [| |url net]; try done. simpl. rewrite Hst.
  unfold fetch_listener. destruct (bypass w url); simpl;
    (destruct st as [ph cs]; simpl in *; subst ph; exact IH).
Qed.

Lemma run_activated w old es st :
  assoc (CACHE_NAME w) old = None ->
  run w {| status := Parsed; caches := old |} es = Some st ->
  status st = Activated ->
  exists net, is_Some (fetch_all net (URLS_TO_CACHE w))
    /\ caches st = [(CACHE_NAME w, installed w net)].
Proof.
  intros Hold Hrun Hst. destruct es as [|e es]; simpl in Hrun.
  { inversion Hrun; subst st. discriminate. }
  destruct e as [net| |]; simpl in Hrun; try discriminate.
  rewrite (install_fresh _ _ _ Hold) in Hrun.
  destruct (fetch_all net (URLS_TO_CACHE w)) as [rs|] eqn:Hrs.
  2:{ destruct es as [|e es]; simpl in Hrun.
      - inversion Hrun; subst st. discriminate.
      - destruct e; discriminate. }
  destruct es as [|e es]; simpl in Hrun.
  { inversion Hrun; subst st. discriminate. }
  destruct e; simpl in Hrun; try discriminate.
  rewrite (activate_fresh _ _ _ Hold) in Hrun.
  exists net. split; [by rewrite Hrs|].
  clear Hst Hrs. set (a := {| status := Activated; caches := _ |}) in Hrun.
  assert (Ha : status a = Activated) by reflexivity.
  change [(CACHE_NAME w, installed w net)] with (caches a).
  clearbody a. revert a Ha Hrun.
  induction es as [|e es IH]; intros a Ha Hrun; simpl in Hrun.
  - by inversion Hrun.
  - destruct e as [| |url nt]; simpl in Hrun; rewrite Ha in Hrun; try discriminate.
    unfold fetch_listener in Hrun.
    destruct (bypass w url); simpl in Hrun;
      exact (IH {| status := Activated; caches := caches a |} eq_refl Hrun).
Qed.

Lemma strip_prefix_app a b s r :
  JS.strip_prefix (a ++ b)%string s = Some r ->
  exists r', JS.strip_prefix a s = Some r'.
Proof.
  revert s; induction a as [|c a IH]; simpl; intros s H; [by eexists|].
  destruct s as [|c' s]; [discriminate|].
  destruct (Ascii.eqb c c'); [by apply IH|discriminate].
Qed.

Lemma includes_app a b s :
  includes (a ++ b)%string s = true -> includes a s = true.
Proof.
  induction s as [|c s IH]; simpl.
  - destruct (JS.strip_prefix (a ++ b)%string EmptyString) eqn:E; [|discriminate].
    apply strip_prefix_app in E as [r' ->]. reflexivity.
  - destruct (JS.strip_prefix (a ++ b)%string (String c s)) eqn:E.
    + apply strip_prefix_app in E as [r' ->]. reflexivity.
    + intros H. destruct (JS.strip_prefix a (String c s)); [reflexivity|by apply IH].
Qed.

Lemma strip_prefix_no_fragment a s r :
  JS.strip_prefix a (no_fragment s) = Some r ->
  exists r', JS.strip_prefix a s = Some r'.
Proof.
  revert s r; induction a as [|c a IH]; simpl; intros s r H; [by eexists|].
  destruct s as [|c' s]; simpl in H; [discriminate|].
  destruct (Ascii.eqb c' "#"%char); [discriminate|].
  destruct (Ascii.eqb c c'); [by apply (IH s r)|discriminate].
Qed.

(** What the URL holds before its fragment, it holds. *)
Lemma includes_no_fragment a s :
  includes a (no_fragment s) = true -> includes a s = true.
Proof.
  induction s as [|c s IH]; simpl; [done|].
  destruct (Ascii.eqb c "#"%char) eqn:Ec.
  - simpl. destruct a as [|c' a]; simpl; [done|discriminate].
  - simpl. destruct (JS.strip_prefix a (String c (no_fragment s))) eqn:E.
    + assert (E' : JS.strip_prefix a (no_fragment (String c s)) = Some s0)
        by (simpl; by rewrite Ec).
      apply strip_prefix_no_fragment in E' as [r' ->]. reflexivity.
    + intros H. destruct (JS.strip_prefix a (String c s)); [reflexivity|by apply IH].
Qed.

(** The backend worker lets every live URL pass untouched. *)
Lemma api_bypasses_live origin url :
  is_live url = true -> bypass (api_worker origin) url = true.
Proof.
  unfold is_live; simpl. intros [H|H]%orb_true_iff.
  - apply (includes_app "/ws/" "logs") in H. rewrite H. apply orb_true_r.
  - by rewrite H.
Qed.

Lemma fetch_all_covers net urls u :
  is_Some (fetch_all net urls) -> In u urls -> is_Some (net u).
Proof.
  induction urls as [|u' urls IH]; simpl; [tauto|].
  destruct (net u') as [r|] eqn:E; [|by intros []].
  destruct (fetch_all net urls); [|by intros []].
  intros _ [<-|Hin]; [by rewrite E|]. by apply IH.
Qed.

(** C2. Both workers, installed and activated on an origin that holds no
    cache of their name, with a manifest of static URLs: a request whose URL
    holds /ws/logs or /api/ before its fragment is never answered from the
    cache (the backend worker does not even intercept a URL that holds one
    of them anywhere, nor the cloud worker a URL that holds api.github.com);
    a request for a manifest URL with the network down is
    answered with the copy stored at install; and no fetch event changes the
    cache storage. *)
Theorem C2_resource_cache (base : string) (w : worker) (old : storage)
    (es : list event) (st : sw) (url : string) (net : option response) :
  w = api_worker base \/ w = docs_worker base ->
  static_manifest w = true ->
  assoc (CACHE_NAME w) old = None ->
  run w {| status := Parsed; caches := old |} es = Some st ->
  status st = Activated ->
  let out := fetch_listener w url net (caches st) in
  (is_live (no_fragment url) = true -> served_from_cache (fst out) = false)
  /\ (w = api_worker base -> is_live url = true -> fst out = NotIntercepted)
  /\ (w = docs_worker base -> includes "api.github.com" url = true ->
      fst out = NotIntercepted)
  /\ (In url (URLS_TO_CACHE w) ->
      exists r, caches_match url (caches st) = Some r
        /\ fst (fetch_listener w url None (caches st)) = RespondWith (FromCache r))
  /\ snd out = caches st
  /\ step w st (Fetch url net) = Some st.
Proof.
  intros Hw Hstatic Hold Hrun Hst out.
  destruct (run_activated _ _ _ _ Hold Hrun Hst) as (net0 & Hnet0 & Hcs).
  assert (Hmatch : caches_match url (caches st) =
    if bool_decide (no_fragment url ∈ URLS_TO_CACHE w)
    then net0 (no_fragment url) else None).
  { rewrite Hcs; simpl. unfold cache_match. rewrite (installed_lookup _ _ _ Hnet0).
    by destruct (bool_decide _), (net0 (no_fragment url)). }
  pose proof (proj1 (forallb_forall _ _) Hstatic) as Hman.
  assert (Hsnd : snd out = caches st).
  { subst out. unfold fetch_listener. by destruct (bypass w url). }
  split; [|split; [|split; [|split; [|split]]]].
  - intros Hlive. subst out. unfold fetch_listener.
    destruct (bypass w url); [reflexivity|]. simpl.
    rewrite Hmatch.
    destruct (bool_decide (no_fragment url ∈ URLS_TO_CACHE w)) eqn:E; [|reflexivity].
    apply bool_decide_eq_true, list_elem_of_In, Hman in E.
    rewrite Hlive in E. simpl in E. by rewrite andb_false_r in E.
  - intros -> Hlive. subst out. unfold fetch_listener.
    by rewrite (api_bypasses_live _ _ Hlive).
  - intros -> Hgh. subst out. unfold fetch_listener. simpl. by rewrite Hgh.
  - intros Hin. pose proof (Hman _ Hin) as Hu.
    apply andb_true_iff in Hu as [[Hu _]%andb_true_iff Hfrag].
    apply String.eqb_eq in Hfrag. apply negb_true_iff in Hu.
    destruct (fetch_all_covers _ _ _ Hnet0 Hin) as [r Hr].
    exists r. rewrite Hmatch, Hfrag.
    rewrite bool_decide_eq_true_2 by (by apply list_elem_of_In).
    split; [exact Hr|]. unfold fetch_listener. rewrite Hu; simpl.
    rewrite Hmatch, Hfrag.
    rewrite bool_decide_eq_true_2 by (by apply list_elem_of_In). by rewrite Hr.
  - exact Hsnd.
  - simpl. rewrite Hst. fold out. rewrite Hsnd.
    destruct st as [ph cs]; simpl in *. by subst ph.
Qed.

Lemma C2_resource_cache_witness :
  let base := "https://panel.example" in
  let w := api_worker base in
  let old := [("xhs-publisher-v0", [("https://panel.example/api/config", "stale")])] in
  let es := [Install example_net; Activate;
             Fetch "https://panel.example/api/config" None] in
  let st := {| status := Activated;
               caches := [(CACHE_NAME w, installed w example_net)] |} in
  let url := "https://panel.example/static/app.js" in
  (w = api_worker base \/ w = docs_worker base)
  /\ static_manifest w = true
  /\ assoc (CACHE_NAME w) old = None
  /\ run w {| status := Parsed; caches := old |} es = Some st
  /\ status st = Activated
  /\ ((is_live (no_fragment url) = true ->
        served_from_cache (fst (fetch_listener w url None (caches st))) = false)
      /\ (w = api_worker base -> is_live url = true ->
          fst (fetch_listener w url None (caches st)) = NotIntercepted)
      /\ (w = docs_worker base -> includes "api.github.com" url = true ->
          fst (fetch_listener w url None (caches st)) = NotIntercepted)
      /\ (In url (URLS_TO_CACHE w) ->
          exists r, caches_match url (caches st) = Some r
            /\ fst (fetch_listener w url None (caches st)) = RespondWith (FromCache r))
      /\ snd (fetch_listener w url None (caches st)) = caches st
      /\ step w st (Fetch url None) = Some st).
Proof.
  cbv zeta.
  split; [by left|]. split; [reflexivity|]. split; [reflexivity|].
  split; [reflexivity|]. split; [reflexivity|].
  exact (C2_resource_cache "https://panel.example"
    (api_worker "https://panel.example")
    [("xhs-publisher-v0", [("https://panel.example/api/config", "stale")])]
    [Install example_net; Activate; Fetch "https://panel.example/api/config" None]
    {| status := Activated;
       caches := [(CACHE_NAME (api_worker "https://panel.example"),
                   installed (api_worker "https://panel.example") example_net)] |}
    "https://panel.example/static/app.js" None
    (or_introl eq_refl) eq_refl eq_refl eq_refl eq_refl).
Defined.

(** The cloud worker on its pages site has a static manifest too. *)
Example docs_manifest_static :
  static_manifest (docs_worker "https://user.github.io/xhs-publisher/") = true.
Proof. reflexivity. Qed.

(** On a host that is itself named like an API path the manifest is not
    static: the guard of the backend worker lets its own assets pass. *)
Example api_manifest_not_static :
  static_manifest (api_worker "https://api") = false.
Proof. reflexivity. Qed.

(** The cloud worker matches a request by its URL without the fragment. *)
Example docs_fragment_from_cache :
  let w := docs_worker "https://user.github.io/xhs-publisher/" in
  fst (fetch_listener w "https://user.github.io/xhs-publisher/index.html#/api/x" None
         [(CACHE_NAME w, installed w example_net)])
  = RespondWith (FromCache "copy of https://user.github.io/xhs-publisher/index.html").
Proof. reflexivity. Qed.

Example includes_examples :
  includes "/api/" "https://panel.example/api/config" = true
  /\ includes "/ws/" "wss://panel.example/ws/logs" = true
  /\ includes "/api/" "https://api.github.com/repos/a/b/dispatches" = false
  /\ includes "api.github.com" "https://api.github.com/repos/a/b/dispatches" = true.
Proof. repeat split. Qed.
End ResourceCache.

(** ** Frames of effectful code *)

Section Frames.
Context {St B : Type} (f : St -> B).

Lemma keeps_ret {A} (a : A) : Eff.keeps f (Eff.ret a).
Proof. by intros s. Qed.

Lemma keeps_throw {A} e : Eff.keeps f (Eff.throw (A := A) e).
Proof. by intros s. Qed.

Lemma keeps_of_sum {A} (r : JS.exn + A) : Eff.keeps f (Eff.of_sum r).
Proof. by intros s. Qed.

Lemma keeps_exec (g : St -> St) :
  (forall s, f (g s) = f s) -> Eff.keeps f (Eff.exec g).
Proof. intros H s. apply H. Qed.

Lemma keeps_bind {A C} (m : Eff.M St A) (k : A -> Eff.M St C) :
  Eff.keeps f m -> (forall a, Eff.keeps f (k a)) -> Eff.keeps f (Eff.bind m k).
Proof.
  intros Hm Hk s. unfold Eff.bind. specialize (Hm s).
  destruct (m s) as [s' [e|a]]; simpl in *; [exact Hm|].
  by rewrite Hk.
Qed.

Lemma keeps_try_catch {A} (m : Eff.M St A) h :
  Eff.keeps f m -> (forall e, Eff.keeps f (h e)) -> Eff.keeps f (Eff.try_catch m h).
Proof.
  intros Hm Hh s. unfold Eff.try_catch. specialize (Hm s).
  destruct (m s) as [s' [e|a]]; simpl in *; [|exact Hm].
  by rewrite Hh.
Qed.

Lemma keeps_finally {A} (m : Eff.M St A) fin :
  Eff.keeps f m -> Eff.keeps f fin -> Eff.keeps f (Eff.finally m fin).
Proof.
  intros Hm Hf s. unfold Eff.finally. specialize (Hm s).
  destruct (m s) as [s' r]; simpl in *. specialize (Hf s').
  destruct (fin s') as [s'' [e|u]]; simpl in *; congruence.
Qed.

Lemma keeps_forEach {A} (g : nat -> A -> Eff.M St unit) i l :
  (forall k x, Eff.keeps f (g k x)) -> Eff.keeps f (Eff.forEach g i l).
Proof.
  intros Hg. revert i; induction l as [|x l IH]; intros i; simpl.
  - apply keeps_ret.
  - apply keeps_bind; [apply Hg|]. intros _. apply IH.
Qed.

(** A [finally] block that cannot throw has the last word on the state. *)
Lemma finally_exec {A} (m : Eff.M St A) (g : St -> St) s :
  Eff.finally m (Eff.exec g) s = (g (fst (m s)), snd (m s)).
Proof. unfold Eff.finally, Eff.exec. by destruct (m s). Qed.
End Frames.

Create HintDb frames discriminated.

Ltac frame_step :=
  lazymatch goal with
  | |- Eff.keeps _ (Eff.ret _) => apply keeps_ret
  | |- Eff.keeps _ (Eff.throw _) => apply keeps_throw
  | |- Eff.keeps _ (Eff.of_sum _) => apply keeps_of_sum
  | |- Eff.keeps _ (Eff.bind _ _) => apply keeps_bind; [|intros ?]
  | |- Eff.keeps _ (Eff.try_catch _ _) => apply keeps_try_catch; [|intros ?]
  | |- Eff.keeps _ (Eff.finally _ _) => apply keeps_finally
  | |- Eff.keeps _ (Eff.forEach _ _ _) => apply keeps_forEach; intros ? ?
  | |- Eff.keeps _ (Eff.exec _) => apply keeps_exec; intros ?
  | |- Eff.keeps _ (match ?x with _ => _ end) => destruct x
  | |- Eff.keeps _ (let _ := _ in _) => cbv zeta
  | |- Eff.keeps _ _ => progress autounfold with frames
  end.

Ltac frame := repeat frame_step.

(** ** What the handlers leave alone *)

Section BackendFrames.
Import Backend.
#[local] Open Scope list_scope.

#[local] Hint Unfold showPreview add_image toast_error appendLog updateProgress
  await_json ok_and_success default_of each_of add_model add_template add_prompt
  loadConfig_resume handleManual_resume handleAuto_resume handlePublish_resume
  resume onmessage : frames.

Lemma filter_reconnect_toast ts :
  List.filter is_reconnect (ts ++ [(3000, HideToast)]) = List.filter is_reconnect ts.
Proof. rewrite List.filter_app; simpl. apply app_nil_r. Qed.

Lemma session_view_showToast msg s : session_view (showToast msg s) = session_view s.
Proof. unfold session_view; simpl. by rewrite filter_reconnect_toast. Qed.

Lemma launcher_view_showToast msg s : launcher_view (showToast msg s) = launcher_view s.
Proof. reflexivity. Qed.

(** No handler that settles writes the session's variables. *)
Lemma resume_session j r : Eff.keeps session_view (resume j r).
Proof. frame; try apply session_view_showToast; reflexivity. Qed.


Lemma showPreview_launcher data : Eff.keeps launcher_view (showPreview data).
Proof. frame; reflexivity. Qed.



Lemma onmessage_session frame : Eff.keeps session_view (onmessage frame).
Proof. frame; reflexivity. Qed.

End BackendFrames.
(** ** Inbound frames and the preview *)

Section FramesAndPreview.
Import Backend.
#[local] Open Scope list_scope.

Lemma onmessage_object s fields :
  onmessage (Some (JS.Obj fields)) s =
    if JS.is_str (JS.lookup_field "type" fields) "log"
    then appendLog (JS.lookup_field "message" fields) s
    else if JS.is_str (JS.lookup_field "type" fields) "progress"
    then updateProgress (JS.lookup_field "value" fields) s
    else (s, inr tt).
Proof.
  unfold onmessage, Eff.bind, Eff.of_sum, Eff.ret; simpl.
  destruct (JS.is_str (JS.lookup_field "type" fields) "log"); [reflexivity|].
  by destruct (JS.is_str (JS.lookup_field "type" fields) "progress").
Qed.




(** A message that does not convert to a string is not appended. *)
Example log_frame_unprintable :
  let frame := JS.Obj [("type", JS.Str "log");
                       ("message", JS.Obj [("toString", JS.Num 1)])] in
  onmessage (Some frame) (loaded "http:" "localhost:8000")
  = (loaded "http:" "localhost:8000", inl JS.TypeError).
Proof. reflexivity. Qed.

(** *** [showPreview] *)

Lemma set_imageCarousel_id s : set_imageCarousel (imageCarousel s) s = s.
Proof. by destruct s. Qed.

Lemma set_imageCarousel_twice a b s :
  set_imageCarousel a (set_imageCarousel b s) = set_imageCarousel a s.
Proof. reflexivity. Qed.

Lemma forEach_add_image urls : forall i s,
  forallb converts urls = true ->
  Eff.forEach add_image i urls s =
    (set_imageCarousel (imageCarousel s ++ imap (fun k => make_img (i + k)) urls) s,
     inr tt).
Proof.
  induction urls as [|u urls IH]; intros i s Hok; simpl.
  - unfold Eff.ret. by rewrite app_nil_r, set_imageCarousel_id.
  - simpl in Hok. apply andb_true_iff in Hok as [Hu Hok].
    unfold converts in Hu. apply negb_true_iff in Hu.
    unfold add_image, JS.printable, Eff.bind, Eff.of_sum, Eff.exec at 1.
    rewrite Hu; simpl. rewrite (IH (S i) _ Hok), set_imageCarousel_twice.
    f_equal. f_equal. simpl. rewrite <- app_assoc; simpl. rewrite Nat.add_0_r.
    do 2 f_equal. apply imap_ext. intros k x _; simpl. f_equal. lia.
Qed.

Lemma forEach_add_image_threw urls : forall i s,
  Eff.threw (Eff.forEach add_image i urls s) = negb (forallb converts urls).
Proof.
  induction urls as [|u urls IH]; intros i s; simpl; [reflexivity|].
  unfold add_image, JS.printable, Eff.bind, Eff.of_sum, Eff.exec at 1, converts at 1.
  destruct (JS.unprintable u); simpl; [reflexivity|]. apply IH.
Qed.

(** What [showPreview] writes when nothing throws. *)
Lemma showPreview_spec data s caption cover images joined urls :
  JS.get data "caption_title" = inr caption ->
  JS.get data "cover_title" = inr cover ->
  JS.get data "images" = inr images ->
  JS.unprintable (JS.or caption (JS.Str EmptyString)) = false ->
  call_replace (JS.or cover (JS.Str EmptyString)) = inr joined ->
  as_array (JS.or images (JS.Arr [])) = inr urls ->
  forallb converts urls = true ->
  showPreview data s =
    (set_previewPanel true
       (set_btnPublish {| disabled := false; innerHTML := publish_label |}
          (set_imageCarousel (imap make_img urls)
             (set_previewSubtitle (JS.Tpl [JS.Lit "封面标题: "; JS.Sub (JS.Str joined)])
                (set_previewTitle (JS.Raw (JS.or caption (JS.Str EmptyString))) s)))),
     inr tt).
Proof.
  intros Hcap Hcov Himg Hprint Hjoin Harr Hok.
  unfold showPreview, Eff.bind, Eff.of_sum, JS.raw.
  rewrite Hcap, Hprint; simpl. rewrite Hcov, Hjoin; simpl.
  rewrite Himg, Harr; simpl. by rewrite (forEach_add_image _ _ _ Hok).
Qed.

(** [showPreview] throws exactly on the values that are not previewable. *)
Lemma showPreview_threw data s :
  Eff.threw (showPreview data s) = negb (previewable data).
Proof.
  unfold showPreview, previewable, Eff.bind, Eff.of_sum, JS.raw.
  destruct (JS.get data "caption_title") as [e|caption] eqn:Ecap.
  { destruct data; try discriminate; reflexivity. }
  assert (Hget : forall k, exists v, JS.get data k = inr v).
  { intros k. destruct data; try discriminate; by eexists. }
  destruct (Hget "cover_title") as [cover ->].
  destruct (Hget "images") as [images ->].
  unfold converts at 1.
  destruct (JS.unprintable (JS.or caption (JS.Str EmptyString))); simpl;
    [reflexivity|].
  destruct (JS.or cover (JS.Str EmptyString)); simpl; try reflexivity.
  destruct (JS.or images (JS.Arr [])); simpl; try reflexivity.
  match goal with |- context [Eff.forEach add_image 0 ?l ?s0] =>
    pose proof (forEach_add_image_threw l 0 s0) as Hthrew;
    destruct (Eff.forEach add_image 0 l s0) as [s1 [e|[]]] end;
    unfold Eff.threw in Hthrew; simpl in *; exact Hthrew.
Qed.

Lemma showPreview_completes s data :
  previewable data = true ->
  snd (showPreview data s) = inr tt
  /\ btnPublish (fst (showPreview data s))
     = {| disabled := false; innerHTML := publish_label |}
  /\ previewPanel (fst (showPreview data s)) = true.
Proof.
  intros Hdata. unfold previewable in Hdata.
  destruct (JS.get data "caption_title") as [e|caption] eqn:Ecap; [discriminate|].
  destruct (JS.get data "cover_title") as [e|cover] eqn:Ecov; [discriminate|].
  destruct (JS.get data "images") as [e|images] eqn:Eimg; [discriminate|].
  apply andb_true_iff in Hdata as [[Hcap Hcov]%andb_true_iff Himg].
  apply negb_true_iff in Hcap.
  destruct (JS.or cover (JS.Str EmptyString)) as [| | | |c| |] eqn:Eor;
    try discriminate.
  destruct (JS.or images (JS.Arr [])) as [| | | | |urls|] eqn:Eimgs;
    try discriminate.
  rewrite (showPreview_spec data s caption cover images (replace_newlines c) urls);
    try done; [by rewrite Eor|by rewrite Eimgs].
Qed.

(** C7. Whatever the page looks like, and so whatever a publish attempt left
    on the publish button, a call of [showPreview] that runs to its end (it
    does on every previewable value) leaves the button enabled with its
    default label, and the preview panel shown. *)
Theorem C7_showPreview_rearms (s : Backend.state) (data : JS.value) :
  previewable data = true ->
  let r := showPreview data s in
  snd r = inr tt
  /\ btnPublish (fst r) = {| disabled := false; innerHTML := publish_label |}
  /\ previewPanel (fst r) = true.
Proof. intros Hdata r. by apply showPreview_completes. Qed.

Lemma C7_showPreview_rearms_witness :
  btnPublish published_state = {| disabled := true; innerHTML := published_label |}
  /\ previewable example_artifact = true
  /\ (snd (showPreview example_artifact published_state) = inr tt
      /\ btnPublish (fst (showPreview example_artifact published_state))
         = {| disabled := false; innerHTML := publish_label |}
      /\ previewPanel (fst (showPreview example_artifact published_state)) = true).
Proof.
  split; [reflexivity|]. split; [reflexivity|].
  exact (C7_showPreview_rearms published_state example_artifact eq_refl).
Defined.

Lemma strings_convert l : forallb is_string l = true -> forallb converts l = true.
Proof.
  induction l as [|u l IH]; simpl; [done|].
  intros [Hu Hl]%andb_true_iff. rewrite (IH Hl), andb_true_r. by destruct u.
Qed.

(** C10. On a response object whose [caption_title], [cover_title] and
    [images] are each absent or of their documented type, [showPreview] does
    not throw; an absent [caption_title] gives an empty title, an absent
    [cover_title] an empty suffix after the cover label, absent [images] an
    empty carousel; the panel is shown and the publish button re-armed. *)
Theorem C10_showPreview_partial (s : Backend.state) (fs : list (string * JS.value)) :
  artifact (JS.Obj fs) = true ->
  let r := showPreview (JS.Obj fs) s in
  snd r = inr tt
  /\ (absent (JS.lookup_field "caption_title" fs) = true ->
        previewTitle (fst r) = JS.Raw (JS.Str EmptyString)
        /\ JS.render (previewTitle (fst r)) = Some EmptyString)
  /\ (absent (JS.lookup_field "cover_title" fs) = true ->
        previewSubtitle (fst r) = JS.Tpl [JS.Lit "封面标题: "; JS.Sub (JS.Str EmptyString)]
        /\ JS.render (previewSubtitle (fst r)) = Some "封面标题: ")
  /\ (absent (JS.lookup_field "images" fs) = true -> imageCarousel (fst r) = [])
  /\ previewPanel (fst r) = true
  /\ btnPublish (fst r) = {| disabled := false; innerHTML := publish_label |}.
Proof.
  intros Hart r. simpl in Hart.
  apply andb_true_iff in Hart as [[Hcap Hcov]%andb_true_iff Himg].
  set (caption := JS.lookup_field "caption_title" fs) in *.
  set (cover := JS.lookup_field "cover_title" fs) in *.
  set (images := JS.lookup_field "images" fs) in *.
  assert (Hprint : JS.unprintable (JS.or caption (JS.Str EmptyString)) = false).
  { destruct caption as [| | | |[|c str]| |]; try discriminate; reflexivity. }
  assert (Hjoin : exists joined,
            call_replace (JS.or cover (JS.Str EmptyString)) = inr joined
            /\ (absent cover = true -> joined = EmptyString)).
  { destruct cover as [| | | |[|c str]| |]; try discriminate; eexists;
      (split; [reflexivity|]); by intros. }
  assert (Hurls : exists urls,
            as_array (JS.or images (JS.Arr [])) = inr urls
            /\ forallb converts urls = true
            /\ (absent images = true -> urls = [])).
  { destruct images as [| | | | |l|]; try discriminate; eexists;
      (split; [reflexivity|]); (split; [|by intros]); [reflexivity|].
    by apply strings_convert. }
  destruct Hjoin as (joined & Hjoin & Hj0). destruct Hurls as (urls & Harr & Hok & Hu0).
  subst r.
  rewrite (showPreview_spec (JS.Obj fs) s caption cover images joined urls);
    try done; simpl.
  split; [reflexivity|]. split; [|split; [|split]].
  - intros Habs. destruct caption; try discriminate. by split.
  - intros Habs. rewrite (Hj0 Habs). by split.
  - intros Habs. by rewrite (Hu0 Habs).
  - by split.
Qed.

Lemma C10_showPreview_partial_witness :
  let fs := [("success", JS.Bool true); ("images", JS.Arr [JS.Str "i1.png"])] in
  artifact (JS.Obj fs) = true
  /\ absent (JS.lookup_field "caption_title" fs) = true
  /\ absent (JS.lookup_field "cover_title" fs) = true
  /\ previewTitle (fst (showPreview (JS.Obj fs) published_state))
     = JS.Raw (JS.Str EmptyString)
  /\ JS.render (previewSubtitle (fst (showPreview (JS.Obj fs) published_state)))
     = Some "封面标题: ".
Proof.
  cbv zeta. split; [reflexivity|]. split; [reflexivity|]. split; [reflexivity|].
  pose proof (C10_showPreview_partial published_state
    [("success", JS.Bool true); ("images", JS.Arr [JS.Str "i1.png"])] eq_refl) as H.
  cbv zeta in H. destruct H as (_ & Ht & Hs & _).
  split; [exact (proj1 (Ht eq_refl))|exact (proj2 (Hs eq_refl))].
Defined.

(** Outside the documented shape the reset is not reached: with a number as
    [cover_title] the call throws and the button stays as it was. *)
Example showPreview_ill_typed :
  let data := JS.Obj [("cover_title", JS.Num 5)] in
  snd (showPreview data published_state) = inl JS.TypeError
  /\ btnPublish (fst (showPreview data published_state)) = btnPublish published_state.
Proof. vm_compute. split; reflexivity. Qed.

(** The scenario of the specification: one title, one image. *)
Example preview_scenario :
  let s := fst (showPreview example_artifact run_state) in
  JS.render (previewTitle s) = Some "T"
  /\ map src (imageCarousel s) = [JS.Str "i1.png"]
  /\ previewPanel s = true.
Proof. vm_compute. repeat split. Qed.
End FramesAndPreview.
(** ** Job launcher *)

Section JobLauncher.
Import Backend.
#[local] Open Scope list_scope.

Lemma filter_app_one {A} (f : A -> bool) l a :
  List.filter f (l ++ [a]) = List.filter f l ++ (if f a then [a] else []).
Proof. rewrite List.filter_app; simpl. by destruct (f a). Qed.

Lemma filter_delete_false {A} (f : A -> bool) (l : list A) i a :
  l !! i = Some a -> f a = false -> List.filter f (delete i l) = List.filter f l.
Proof.
  revert i; induction l as [|b l IH]; intros [|i] Hi Ha; simpl in *; try discriminate.
  - inversion Hi; subst b. by rewrite Ha.
  - rewrite (IH i Hi Ha). reflexivity.
Qed.

Lemma filter_delete_true {A} (f : A -> bool) (l : list A) i a :
  l !! i = Some a -> f a = true ->
  length (List.filter f l) = S (length (List.filter f (delete i l))).
Proof.
  revert i; induction l as [|b l IH]; intros [|i] Hi Ha; simpl in *; try discriminate.
  - inversion Hi; subst b. by rewrite Ha.
  - destruct (f b); simpl; by rewrite (IH i Hi Ha).
Qed.

(** Every exit of the two launcher functions goes through [finally]. *)
Lemma launch_resume_resets j r s :
  is_launch j = true ->
  let s' := fst (resume j r s) in
  isProcessing s' = false
  /\ btnManual s' = {| disabled := false; innerHTML := manual_label |}
  /\ btnAuto s' = {| disabled := false; innerHTML := auto_label |}
  /\ progressWrapper s' = false.
Proof.
  destruct j; try discriminate; intros _;
    unfold resume, handleManual_resume, handleAuto_resume;
    rewrite finally_exec; simpl; by repeat split.
Qed.




End JobLauncher.

(** ** Submissions: flag, confirmation, validation *)

Section Submissions.
Import Backend.
#[local] Open Scope list_scope.





End Submissions.

Section Gates.
Import Backend.
#[local] Open Scope list_scope.

(** C5. autoPublish and confirmPublish send their request only after the
    user has accepted the [confirm] dialog: a suspended call means the
    answer was yes, the dialog is on record and the request has left; on a
    refusal nothing but the record of the dialog changes and no request
    leaves.  cloudDispatch has no dialog: with both settings and a URL its
    request leaves at once. *)
Theorem C5_confirmation_gate (s : Backend.state) (c : Cloud.state) (answer : bool) :
  (JS.nonempty (config_url s) = true ->
     handleAuto false s = (confirm auto_prompt false s, false))
  /\ handlePublish false s = (confirm publish_prompt false s, false)
  /\ (forall p, requests (confirm p false s) = requests s
        /\ jobs (confirm p false s) = jobs s
        /\ set_dialogs (dialogs s) (confirm p false s) = s)
  /\ (snd (handleAuto answer s) = true ->
        answer = true
        /\ dialogs (fst (handleAuto answer s)) = dialogs s ++ [(auto_prompt, true)]
        /\ requests (fst (handleAuto answer s))
           = requests s ++ [post "/api/auto-publish" (getConfig s)])
  /\ (snd (handleAuto answer s) = false ->
        requests (fst (handleAuto answer s)) = requests s)
  /\ (snd (handlePublish answer s) = true ->
        answer = true
        /\ dialogs (fst (handlePublish answer s)) = dialogs s ++ [(publish_prompt, true)]
        /\ requests (fst (handlePublish answer s))
           = requests s ++ [post "/api/publish" (JS.Obj [("auto_publish", JS.Bool true)])])
  /\ (snd (handlePublish answer s) = false ->
        requests (fst (handlePublish answer s)) = requests s)
  /\ (JS.nonempty (Cloud.repo (Cloud.getSettings c)) = true ->
      JS.nonempty (Cloud.pat (Cloud.getSettings c)) = true ->
      JS.nonempty (JS.trim (Cloud.urlInput c)) = true ->
        snd (Cloud.triggerAction c) = true
        /\ exists rq, Cloud.requests (fst (Cloud.triggerAction c)) = Cloud.requests c ++ [rq]
             /\ req_url rq = ("https://api.github.com/repos/"
                              ++ Cloud.repo (Cloud.getSettings c) ++ "/dispatches")%string).
Proof.
  split; [|split; [|split; [|split; [|split; [|split; [|split]]]]]].
  - intros Hurl. unfold handleAuto. by rewrite Hurl.
  - reflexivity.
  - intros p. split; [reflexivity|]. split; [reflexivity|]. by destruct s.
  - unfold handleAuto. destruct (negb (JS.nonempty (config_url s))); simpl;
      [discriminate|]. destruct answer; simpl; [|discriminate]. by repeat split.
  - unfold handleAuto. destruct (negb (JS.nonempty (config_url s))); simpl;
      [reflexivity|]. destruct answer; simpl; [discriminate|reflexivity].
  - unfold handlePublish. destruct answer; simpl; [|discriminate]. by repeat split.
  - unfold handlePublish. destruct answer; simpl; [discriminate|reflexivity].
  - intros Hr Hp Hu. unfold Cloud.triggerAction; cbv zeta. rewrite Hr, Hp, Hu; simpl.
    split; [reflexivity|]. eexists. split; reflexivity.
Qed.

Lemma C5_confirmation_gate_witness :
  JS.nonempty (config_url run_state) = true
  /\ handleAuto false run_state = (confirm auto_prompt false run_state, false)
  /\ snd (handleAuto true run_state) = true
  /\ requests (fst (handleAuto true run_state))
     = requests run_state ++ [post "/api/auto-publish" (getConfig run_state)]
  /\ snd (Cloud.triggerAction Cloud.example_state) = true.
Proof.
  split; [reflexivity|].
  pose proof (C5_confirmation_gate run_state Cloud.example_state true)
    as (H1 & _ & _ & H4 & _ & _ & _ & H8).
  split; [exact (H1 eq_refl)|]. split; [reflexivity|].
  split; [exact (proj2 (proj2 (H4 eq_refl)))|].
  exact (proj1 (H8 eq_refl eq_refl eq_refl)).
Defined.

(** C6. A submission with an empty URL, and a cloud dispatch with a setting
    missing, stops before its request: the toast is shown with its
    auto-dismiss timer, no request leaves, no job is started and the flag,
    the buttons and the rest of the page keep their values; the cloud panel
    in addition opens its settings when a setting is missing. *)
Theorem C6_validation (s : Backend.state) (c : Cloud.state) (answer : bool) :
  (JS.nonempty (config_url s) = false ->
     handleManual s = (showToast url_notice s, false)
     /\ handleAuto answer s = (showToast url_notice s, false))
  /\ (forall msg,
        toast (showToast msg s) = msg
        /\ toast_show (showToast msg s) = true
        /\ timeouts (showToast msg s) = timeouts s ++ [(3000, HideToast)]
        /\ requests (showToast msg s) = requests s
        /\ jobs (showToast msg s) = jobs s
        /\ dialogs (showToast msg s) = dialogs s
        /\ isProcessing (showToast msg s) = isProcessing s
        /\ set_timeouts (timeouts s) (set_toast_show (toast_show s)
             (set_toast (toast s) (showToast msg s))) = s)
  /\ (JS.nonempty (Cloud.repo (Cloud.getSettings c))
        && JS.nonempty (Cloud.pat (Cloud.getSettings c)) = false ->
        Cloud.triggerAction c
        = (Cloud.showSettings (Cloud.showToast Cloud.settings_notice c), false))
  /\ (JS.nonempty (Cloud.repo (Cloud.getSettings c))
        && JS.nonempty (Cloud.pat (Cloud.getSettings c)) = true ->
      JS.nonempty (JS.trim (Cloud.urlInput c)) = false ->
        Cloud.triggerAction c = (Cloud.showToast Cloud.url_notice c, false))
  /\ (forall msg,
        let c' := Cloud.showToast msg c in
        (Cloud.toast c' = msg /\ Cloud.toast_show c' = true
         /\ Cloud.timeouts c' = Cloud.timeouts c ++ [(3000, Cloud.HideToast)])
        /\ (Cloud.requests c' = Cloud.requests c
            /\ Cloud.btnTrigger c' = Cloud.btnTrigger c
            /\ Cloud.localStorage c' = Cloud.localStorage c
            /\ Cloud.statusMsg c' = Cloud.statusMsg c)
        /\ (Cloud.requests (Cloud.showSettings c') = Cloud.requests c
            /\ Cloud.btnTrigger (Cloud.showSettings c') = Cloud.btnTrigger c
            /\ Cloud.localStorage (Cloud.showSettings c') = Cloud.localStorage c
            /\ Cloud.statusMsg (Cloud.showSettings c') = Cloud.statusMsg c
            /\ Cloud.settingsContent_open (Cloud.showSettings c') = true)).
Proof.
  split; [|split; [|split; [|split]]].
  - intros Hurl. unfold handleManual, handleAuto. by rewrite Hurl.
  - intros msg. repeat split. by destruct s.
  - intros H. unfold Cloud.triggerAction; cbv zeta.
    apply andb_false_iff in H as [->| ->]; simpl; [reflexivity|].
    by rewrite orb_true_r.
  - intros [Hr Hp]%andb_true_iff Hu. unfold Cloud.triggerAction; cbv zeta.
    by rewrite Hr, Hp, Hu.
  - intros msg. by repeat split.
Qed.

Lemma C6_validation_witness :
  let s := loaded "http:" "localhost:8000" in
  let c := Cloud.set_localStorage ∅ Cloud.example_state in
  JS.nonempty (config_url s) = false
  /\ JS.nonempty (Cloud.repo (Cloud.getSettings c))
       && JS.nonempty (Cloud.pat (Cloud.getSettings c)) = false
  /\ handleManual s = (showToast url_notice s, false)
  /\ Cloud.triggerAction c
     = (Cloud.showSettings (Cloud.showToast Cloud.settings_notice c), false).
Proof.
  cbv zeta. split; [reflexivity|]. split; [reflexivity|].
  pose proof (C6_validation (loaded "http:" "localhost:8000")
    (Cloud.set_localStorage ∅ Cloud.example_state) true) as (H1 & _ & H3 & _).
  split; [exact (proj1 (H1 eq_refl))|exact (H3 eq_refl)].
Defined.

(** A URL of blanks only is empty after trimming. *)
Example blank_url_is_empty :
  JS.nonempty (config_url (set_urlInput "   " (loaded "http:" "localhost:8000"))) = false.
Proof. reflexivity. Qed.
End Gates.

(** ** Session controller *)

Section SessionController.
Import Backend.
#[local] Open Scope list_scope.
#[local] Open Scope nat_scope.

Lemma live_alter (f : socket -> socket) (l : list socket) id k :
  l !! id = Some k ->
  length (List.filter is_live (alter f id l)) + live_bit k
  = length (List.filter is_live l) + live_bit (f k).
Proof.
  unfold live_bit.
  revert id; induction l as [|a l IH]; intros [|id] Hid; simpl in *; try discriminate.
  - inversion Hid; subst a. destruct (is_live k), (is_live (f k)); simpl; lia.
  - specialize (IH id Hid). unfold alter in IH.
    destruct (is_live a); simpl; lia.
Qed.

Lemma none_live (l : list socket) id k :
  length (List.filter is_live l) = 0 -> l !! id = Some k -> is_live k = false.
Proof.
  revert id; induction l as [|a l IH]; intros [|id] Hlen Hid; simpl in *;
    try discriminate.
  - inversion Hid; subst a. by destruct (is_live k).
  - destruct (is_live a); [discriminate|]. by apply (IH id).
Qed.

Lemma session_view_handleManual s : session_view (fst (handleManual s)) = session_view s.
Proof.
  unfold handleManual. destruct (negb _); simpl; [|reflexivity].
  apply session_view_showToast.
Qed.

Lemma session_view_handleAuto a s : session_view (fst (handleAuto a s)) = session_view s.
Proof.
  unfold handleAuto. destruct (negb _); simpl; [apply session_view_showToast|].
  by destruct a.
Qed.

Lemma session_view_handlePublish a s :
  session_view (fst (handlePublish a s)) = session_view s.
Proof. unfold handlePublish. by destruct a. Qed.

Lemma session_inv_view s s' :
  session_view s' = session_view s -> session_inv s -> session_inv s'.
Proof.
  unfold session_view, session_inv, live_sockets, pending_reconnects. intros H.
  inversion H as [[H1 H2 H3 H4 H5]]. by rewrite H2, H4, H5.
Qed.


Lemma session_inv_heartbeat s : session_inv s -> session_inv (heartbeat s).
Proof.
  unfold heartbeat. destruct (ws s); [|done]. by destruct (is_open _).
Qed.

Lemma session_inv_connect s :
  live_sockets s + pending_reconnects s = 0 ->
  Forall (fun t => t = (3000%Z, Reconnect)) (List.filter is_reconnect (timeouts s)) ->
  Forall (fun t => t = (30000%Z, Heartbeat)) (intervals s) ->
  session_inv (connectWebSocket s).
Proof.
  intros Hn Ht Hi. unfold session_inv, live_sockets, pending_reconnects in *; simpl.
  rewrite List.filter_app, length_app; simpl. split; [lia|]. split; [exact Ht|].
  apply Forall_app. split; [exact Hi|]. by repeat constructor.
Qed.

Lemma session_inv_alter s id k r :
  sockets s !! id = Some k -> is_live k = true -> r <> CLOSED ->
  session_inv s -> session_inv (set_readyState id r s).
Proof.
  intros Hk Hlive Hr (Hn & Ht & Hi). unfold session_inv, live_sockets,
    pending_reconnects, set_readyState in *; simpl.
  pose proof (live_alter (fun k => {| sock_url := sock_url k; sock_state := r |})
                _ _ _ Hk) as Ha.
  unfold live_bit in Ha. rewrite Hlive in Ha. unfold is_live at 3 in Ha; simpl in Ha.
  destruct r; try done; (split; [lia|by split]).
Qed.

Lemma socket_state_live id s r :
  socket_state id s = Some r -> r <> CLOSED ->
  exists k, sockets s !! id = Some k /\ is_live k = true.
Proof.
  unfold socket_state. destruct (sockets s !! id) as [k|] eqn:E; [|discriminate].
  simpl. intros [= <-] Hr. exists k. split; [reflexivity|].
  unfold is_live. by destruct (sock_state k).
Qed.

Lemma close_counts s id r :
  socket_state id s = Some r -> r <> CLOSED -> session_inv s ->
  pending_reconnects s = 0
  /\ live_sockets (set_readyState id CLOSED s) = 0
  /\ session_inv (onclose (set_readyState id CLOSED s)).
Proof.
  intros Hs Hr (Hn & Ht & Hi).
  destruct (socket_state_live _ _ _ Hs Hr) as (k & Hk & Hlive).
  pose proof (live_alter (fun k => {| sock_url := sock_url k; sock_state := CLOSED |})
                _ _ _ Hk) as Ha.
  unfold live_bit in Ha. rewrite Hlive in Ha. simpl in Ha.
  unfold session_inv, live_sockets, pending_reconnects, set_readyState, onclose in *;
    simpl in *.
  rewrite List.filter_app, length_app; simpl.
  split; [lia|]. split; [lia|]. split; [lia|]. split; [|exact Hi].
  apply Forall_app. split; [exact Ht|]. by repeat constructor.
Qed.

Lemma session_inv_step s e s' :
  session_inv s -> step s e = Some s' -> session_inv s'.
Proof.
  intros Hinv Hstep. destruct e; simpl in Hstep.
  - destruct (disabled (btnManual s)); inversion Hstep; subst.
    exact (session_inv_view _ _ (session_view_handleManual s) Hinv).
  - destruct (disabled (btnAuto s)); inversion Hstep; subst.
    exact (session_inv_view _ _ (session_view_handleAuto _ s) Hinv).
  - destruct (disabled (btnPublish s)); inversion Hstep; subst.
    exact (session_inv_view _ _ (session_view_handlePublish _ s) Hinv).
  - inversion Hstep; subst. refine (session_inv_view s _ _ Hinv).
    destruct clipboard; simpl;
      [exact (session_view_showToast _ (set_urlInput _ s))
      |apply session_view_showToast].
  - destruct (jobs s !! i); inversion Hstep; subst.
    refine (session_inv_view s _ _ Hinv). by rewrite resume_session.
  - destruct (socket_state id s) as [[]|] eqn:Hs; inversion Hstep; subst.
    destruct (socket_state_live _ _ _ Hs) as (k & Hk & Hlive); [done|].
    refine (session_inv_view (set_readyState id OPEN s) _ eq_refl _).
    by apply (session_inv_alter s id k).
  - destruct (socket_state id s) as [[]|]; inversion Hstep; subst.
    exact (session_inv_view _ _ (onmessage_session _ _) Hinv).
  - destruct (socket_state id s) as [[]|]; inversion Hstep; subst;
      (refine (session_inv_view s _ _ Hinv); reflexivity).
  - destruct (socket_state id s) as [[]|] eqn:Hs; inversion Hstep; subst;
      destruct (socket_state_live _ _ _ Hs) as (k & Hk & Hlive); try done;
      by apply (session_inv_alter s id k).
  - destruct (socket_state id s) as [r|] eqn:Hs; [|discriminate].
    assert (Hr : r <> CLOSED) by (by destruct r).
    destruct r; inversion Hstep; subst; try done;
      exact (proj2 (proj2 (close_counts _ _ _ Hs Hr Hinv))).
  - destruct (timeouts s !! i) as [[d t]|] eqn:Hi; inversion Hstep; subst.
    destruct Hinv as (Hn & Ht & Hiv).
    destruct t; simpl.
    + refine (session_inv_view s _ _ (conj Hn (conj Ht Hiv))).
      unfold session_view; simpl. by rewrite (filter_delete_false _ _ _ _ Hi).
    + pose proof (filter_delete_true is_reconnect _ _ _ Hi eq_refl) as Hlen.
      apply session_inv_connect; unfold live_sockets, pending_reconnects in *;
        simpl; [lia| |exact Hiv].
      clear -Ht Hi. revert i Hi Ht.
      induction (timeouts s) as [|a l IH]; intros [|i] Hi Ht; simpl in *;
        try discriminate.
      * inversion Hi; subst a. simpl in Ht. by inversion Ht.
      * destruct (is_reconnect a); [|by apply (IH i)].
        inversion Ht; subst. constructor; [done|]. by apply (IH i).
    + apply session_inv_heartbeat.
      refine (session_inv_view s _ _ (conj Hn (conj Ht Hiv))).
      unfold session_view; simpl. by rewrite (filter_delete_false _ _ _ _ Hi).
  - destruct (intervals s !! i) as [[d t]|] eqn:Hi; inversion Hstep; subst.
    pose proof Hinv as (_ & _ & Hiv).
    rewrite Forall_forall in Hiv.
    assert (Ht : (d, t) = (30000%Z, Heartbeat)).
    { apply Hiv. by apply (list_elem_of_lookup_2 _ i). }
    inversion Ht; subst. by apply session_inv_heartbeat.
  - destruct (imageCarousel s !! i); inversion Hstep; subst.
    refine (session_inv_view s _ _ Hinv); reflexivity.
  - inversion Hstep; subst. refine (session_inv_view s _ _ Hinv); reflexivity.
  - inversion Hstep; subst. refine (session_inv_view s _ _ Hinv); reflexivity.
  - inversion Hstep; subst. refine (session_inv_view s _ _ Hinv). by destruct w.
Qed.

Lemma session_inv_reachable s : reachable s -> session_inv s.
Proof.
  induction 1 as [protocol host|s e s' _ IH Hstep].
  - split; [reflexivity|]. split; [constructor|]. by repeat constructor.
  - by apply (session_inv_step s e).
Qed.

Lemma ws_after_connect s :
  ws_readyState (connectWebSocket s) = Some CONNECTING.
Proof.
  unfold ws_readyState, connectWebSocket; simpl.
  by rewrite list_lookup_middle.
Qed.

(** C3. In every reachable state at most one reconnect timer is pending
    (there is exactly one of: a socket that is not closed, a pending
    reconnect).  Every close of a socket registers exactly one timer, for
    [connectWebSocket] with the delay 3000, whatever happened before: the
    code keeps no count of attempts and has no other delay.  Every pending
    reconnect has the delay 3000 and can fire, and firing it opens a new
    connecting socket. *)
Theorem C3_reconnect (s : Backend.state) :
  reachable s ->
  live_sockets s + pending_reconnects s = 1
  /\ pending_reconnects s <= 1
  /\ (forall id s', step s (SockClose id) = Some s' ->
        timeouts s' = timeouts s ++ [(3000%Z, Reconnect)]
        /\ pending_reconnects s = 0
        /\ pending_reconnects s' = 1
        /\ live_sockets s' = 0)
  /\ (forall i d, timeouts s !! i = Some (d, Reconnect) ->
        d = 3000%Z
        /\ exists s', step s (FireTimeout i) = Some s'
             /\ ws_readyState s' = Some CONNECTING
             /\ pending_reconnects s' = 0
             /\ live_sockets s' = 1).
Proof.
  intros Hreach. pose proof (session_inv_reachable s Hreach) as Hinv.
  pose proof Hinv as (Hn & Ht & Hi).
  split; [exact Hn|]. split; [lia|]. split.
  - intros id s' Hstep. simpl in Hstep.
    destruct (socket_state id s) as [r|] eqn:Hs; [|discriminate].
    assert (Hr : r <> CLOSED) by (by destruct r).
    destruct (close_counts _ _ _ Hs Hr Hinv) as (Hp & Hl & (Hn' & _)).
    assert (s' = onclose (set_readyState id CLOSED s)) as ->
      by (destruct r; by inversion Hstep).
    split; [reflexivity|]. split; [exact Hp|].
    assert (Hl' : live_sockets (onclose (set_readyState id CLOSED s)) = 0) by exact Hl.
    split; [lia|exact Hl'].
  - intros i d Hi'.
    assert (Hd : (d, Reconnect) = (3000%Z, Reconnect)).
    { rewrite Forall_forall in Ht. apply Ht, list_elem_of_In, List.filter_In.
      split; [|reflexivity]. by apply list_elem_of_In, (list_elem_of_lookup_2 _ i). }
    split; [by inversion Hd|].
    eexists. split; [simpl; by rewrite Hi'|].
    split; [apply ws_after_connect|].
    pose proof (session_inv_step s (FireTimeout i) _ Hinv
                  ltac:(simpl; by rewrite Hi')) as (Hn' & _).
    pose proof (filter_delete_true is_reconnect _ _ _ Hi' eq_refl) as Hlen.
    unfold pending_reconnects, live_sockets in *; simpl in *.
    rewrite List.filter_app, length_app in *; simpl in *. lia.
Qed.

Lemma C3_reconnect_witness :
  let s := loaded "http:" "localhost:8000" in
  let s1 := onclose (set_readyState 0 CLOSED s) in
  reachable s
  /\ (live_sockets s + pending_reconnects s = 1 /\ pending_reconnects s <= 1)
  /\ step s (SockClose 0) = Some s1
  /\ timeouts s1 = timeouts s ++ [(3000%Z, Reconnect)]
  /\ pending_reconnects s1 = 1.
Proof.
  cbv zeta.
  assert (E1 : step (loaded "http:" "localhost:8000") (SockClose 0)
               = Some (onclose (set_readyState 0 CLOSED (loaded "http:" "localhost:8000"))))
    by (vm_compute; reflexivity).
  pose proof (C3_reconnect (loaded "http:" "localhost:8000")
                (reach_loaded "http:" "localhost:8000")) as (H1 & H2 & H3 & _).
  destruct (H3 0 _ E1) as (H4 & _ & H5 & _).
  split; [apply reach_loaded|]. split; [by split|]. split; [exact E1|].
  split; [exact H4|exact H5].
Defined.


Lemma not_open_without_ws s : ws s = None -> is_open (ws_readyState s) = false.
Proof. unfold ws_readyState. by intros ->. Qed.



(** While the socket is open the timer does send. *)
Example heartbeat_when_open :
  match run (loaded "http:" "localhost:8000") [SockOpen 0; FireInterval 0] with
  | Some s => sent s = [(0, "ping")]
  | None => False
  end.
Proof. vm_compute. reflexivity. Qed.

(** Every call of [connectWebSocket] registers one more heartbeat timer and
    none is ever cleared: after a reconnect two timers tick. *)
Example heartbeat_timers_add_up :
  match run (loaded "http:" "localhost:8000") [SockClose 0; FireTimeout 0] with
  | Some s => intervals s = [(30000%Z, Heartbeat); (30000%Z, Heartbeat)]
  | None => False
  end.
Proof. vm_compute. reflexivity. Qed.
End SessionController.

(** ** Settled requests and the configuration *)

Section Configuration.
Import Backend Panel.
#[local] Open Scope list_scope.
#[local] Open Scope nat_scope.

Lemma try_catch_completes {St} (m : Eff.M St unit) h s :
  (forall e s', snd (h e s') = inr tt) -> snd (Eff.try_catch m h s) = inr tt.
Proof.
  intros Hh. unfold Eff.try_catch. destruct (m s) as [s' [e|[]]]; [apply Hh|reflexivity].
Qed.

Lemma finally_exec_completes {St} (m : Eff.M St unit) g s :
  snd (m s) = inr tt -> snd (Eff.finally m (Eff.exec g) s) = inr tt.
Proof. intros H. by rewrite finally_exec. Qed.

(** No handler of a settled request lets an exception escape: whatever the
    response, and whatever it could render of it, the promise of the async
    function is fulfilled. *)
Theorem settled_never_rejects (j : job) (cj : CloudPage.job) (r : fetch_result)
    (s : Backend.state) (p : CloudPage.state) :
  snd (resume j r s) = inr tt /\ snd (CloudPage.resume cj r p) = inr tt.
Proof.
  split.
  - destruct j; simpl.
    + by apply try_catch_completes.
    + by apply finally_exec_completes, try_catch_completes.
    + by apply finally_exec_completes, try_catch_completes.
    + by apply try_catch_completes.
  - destruct cj; simpl.
    + unfold CloudPage.lift_m; simpl.
      by apply finally_exec_completes, try_catch_completes.
    + by apply try_catch_completes.
Qed.

(** *** Selectedness *)

Lemma sel_at_lookup k (l : list option_el) i :
  (sel_at k l : list option_el) !! i = with_selected (Nat.eqb i k) <$> l !! i.
Proof. unfold sel_at. by rewrite list_lookup_imap. Qed.

Lemma sel_at_length k l : length (sel_at k l) = length l.
Proof. apply length_imap. Qed.

Lemma sel_at_cons k o (l : list option_el) :
  sel_at k (o :: l) =
    with_selected (Nat.eqb 0 k) o :: match k with O => sel_at (length (o :: l)) l
                                      | S k' => sel_at k' l end.
Proof.
  apply list_eq. intros [|i]; [reflexivity|].
  rewrite sel_at_lookup; simpl. destruct k as [|k']; rewrite sel_at_lookup; simpl.
  - destruct (l !! i) as [x|] eqn:E; simpl; [|reflexivity].
    apply lookup_lt_Some in E.
    replace (Nat.eqb i (S (length l))) with false; [reflexivity|].
    symmetry. apply Nat.eqb_neq. lia.
  - reflexivity.
Qed.

Lemma sel_at_snoc k (l : list option_el) k' o :
  sel_at k (sel_at k' l ++ [o]) = sel_at k (l ++ [o]).
Proof.
  apply list_eq. intros i. rewrite !sel_at_lookup.
  destruct (decide (i < length l)) as [Hi|Hi].
  - rewrite !lookup_app_l by (rewrite ?sel_at_length; lia).
    rewrite sel_at_lookup. by destruct (l !! i).
  - rewrite !lookup_app_r by (rewrite ?sel_at_length; lia).
    by rewrite sel_at_length.
Qed.

Lemma last_selected_app i l o :
  last_selected i (l ++ [o]) =
    if opt_selected o then Some (i + length l)%nat else last_selected i l.
Proof.
  revert i; induction l as [|a l IH]; intros i; simpl.
  - rewrite Nat.add_0_r. by destruct (opt_selected o).
  - rewrite IH. destruct (opt_selected o); [f_equal; lia|reflexivity].
Qed.

Lemma last_selected_sel_at i k l :
  last_selected i (sel_at k l) =
    if Nat.ltb k (length l) then Some (i + k)%nat else None.
Proof.
  revert i k; induction l as [|a l IH]; intros i k; [reflexivity|].
  rewrite sel_at_cons. cbn [last_selected]. destruct k as [|k'].
  - rewrite IH. rewrite (proj2 (Nat.ltb_ge _ _)) by (simpl; lia).
    simpl. by rewrite Nat.add_0_r.
  - rewrite IH. simpl length.
    change (Nat.ltb (S k') (S (length l))) with (Nat.ltb k' (length l)).
    destruct (Nat.ltb k' (length l)); [f_equal; lia|reflexivity].
Qed.

Lemma last_selected_bound i l k :
  last_selected i l = Some k -> (i <= k < i + length l)%nat.
Proof.
  revert i; induction l as [|a l IH]; intros i; simpl; [discriminate|].
  destruct (last_selected (S i) l) as [k'|] eqn:E.
  - intros [= <-]. apply IH in E. lia.
  - destruct (opt_selected a); [|discriminate]. intros [= <-]. lia.
Qed.

Lemma chosen_bound l : l <> [] -> (chosen l < length l)%nat.
Proof.
  intros Hl. unfold chosen. destruct (last_selected 0 l) as [k|] eqn:E.
  - apply last_selected_bound in E. lia.
  - destruct l; [done|simpl; lia].
Qed.

Lemma chosen_sel_at l : chosen (sel_at (chosen l) l) = chosen l.
Proof.
  destruct l as [|a l]; [reflexivity|].
  unfold chosen at 1. rewrite last_selected_sel_at.
  by rewrite (proj2 (Nat.ltb_lt _ _)) by (by apply chosen_bound).
Qed.

Lemma chosen_app l o :
  chosen (l ++ [o]) = if opt_selected o then length l else chosen l.
Proof.
  unfold chosen. rewrite last_selected_app. by destruct (opt_selected o).
Qed.

(** Appending the options one by one leaves the last one that was created
    selected, or the first when none was. *)
Lemma appendChild_all os :
  fold_left (fun acc o => appendChild o acc) os [] = sel_at (chosen os) os.
Proof.
  induction os as [|o os IH] using rev_ind; [reflexivity|].
  rewrite fold_left_app; simpl. rewrite IH. unfold appendChild.
  fold (sel_at (chosen (sel_at (chosen os) os ++ [o])) (sel_at (chosen os) os ++ [o])).
  rewrite sel_at_snoc. f_equal.
  rewrite !chosen_app, sel_at_length. destruct (opt_selected o); [reflexivity|].
  apply chosen_sel_at.
Qed.

Lemma find_sel_at k (l : list option_el) :
  List.find opt_selected (sel_at k l) = with_selected true <$> l !! k.
Proof.
  revert k; induction l as [|a l IH]; intros k; [reflexivity|].
  rewrite sel_at_cons. destruct k as [|k']; simpl; [reflexivity|]. apply IH.
Qed.

Lemma select_value_sel_at k (l : list option_el) :
  select_value (sel_at k l) =
    match l !! k with Some o => JS.to_string (opt_value o) | None => EmptyString end.
Proof. unfold select_value. rewrite find_sel_at. by destruct (l !! k). Qed.

Lemma last_selected_Some i (l : list option_el) k :
  last_selected i l = Some k ->
  exists o, l !! (k - i)%nat = Some o /\ opt_selected o = true.
Proof.
  revert i; induction l as [|a l IH]; intros i; simpl; [discriminate|].
  destruct (last_selected (S i) l) as [k'|] eqn:E.
  - intros [= <-]. pose proof (last_selected_bound _ _ _ E) as Hb.
    destruct (IH _ E) as (o & Ho & Hs). exists o. split; [|exact Hs].
    replace (k' - i)%nat with (S (k' - S i)) by lia. exact Ho.
  - destruct (opt_selected a) eqn:Ea; [|discriminate]. intros [= <-].
    exists a. by rewrite Nat.sub_diag.
Qed.

Lemma last_selected_None i l :
  last_selected i l = None -> existsb opt_selected l = false.
Proof.
  revert i; induction l as [|a l IH]; intros i; simpl; [done|].
  destruct (last_selected (S i) l) as [k'|] eqn:E; [discriminate|].
  destruct (opt_selected a); [discriminate|]. intros _. by apply (IH (S i)).
Qed.

Lemma strict_eq_str n d : JS.strict_eq (JS.Str n) d = true -> d = JS.Str n.
Proof.
  destruct d; simpl; try discriminate. intros H. by apply String.eqb_eq in H as ->.
Qed.

Lemma lookup_map {A B} (f : A -> B) (l : list A) k :
  map f l !! k = f <$> l !! k.
Proof.
  revert k; induction l as [|a l IH]; intros [|k]; simpl; try reflexivity. apply IH.
Qed.

Lemma existsb_through {A B} (g : A -> B) (f : B -> bool) l :
  existsb f (map g l) = existsb (fun a => f (g a)) l.
Proof. induction l as [|a l IH]; simpl; [reflexivity|]. by rewrite IH. Qed.

(** The value of a drop-down filled from [names], the default being [d]. *)
Lemma select_value_filled (d : JS.value) (names : list string) (os : list option_el) :
  map opt_value os = map JS.Str names ->
  map opt_selected os = map (fun n => JS.strict_eq (JS.Str n) d) names ->
  select_value (fold_left (fun acc o => appendChild o acc) os []) =
    default_or_first d names.
Proof.
  intros Hv Hs. rewrite appendChild_all, select_value_sel_at.
  assert (Hex : existsb opt_selected os
                = existsb (fun n => JS.strict_eq (JS.Str n) d) names).
  { rewrite <- (existsb_through opt_selected (fun b : bool => b)), Hs.
    by rewrite existsb_through. }
  assert (Hval : forall k o, os !! k = Some o ->
            exists n, names !! k = Some n /\ opt_value o = JS.Str n
                      /\ opt_selected o = JS.strict_eq (JS.Str n) d).
  { intros k o Ho.
    assert (H1 : map opt_value os !! k = Some (opt_value o))
      by (by rewrite lookup_map, Ho).
    assert (H2 : map opt_selected os !! k = Some (opt_selected o))
      by (by rewrite lookup_map, Ho).
    rewrite Hv in H1. rewrite Hs in H2.
    rewrite lookup_map in H1. rewrite lookup_map in H2.
    destruct (names !! k) as [n|]; [|discriminate]. exists n.
    simpl in *. by inversion H1; inversion H2. }
  unfold default_or_first, chosen.
  destruct (last_selected 0 os) as [k|] eqn:E.
  - destruct (last_selected_Some _ _ _ E) as (o & Ho & Hsel).
    rewrite Nat.sub_0_r in Ho. rewrite Ho.
    destruct (Hval _ _ Ho) as (n & Hn & Hov & Hos).
    rewrite Hsel in Hos. symmetry in Hos. apply strict_eq_str in Hos.
    rewrite <- Hex. rewrite (proj2 (existsb_exists _ _)).
    + by rewrite Hov, Hos.
    + exists o. split; [|exact Hsel]. by apply list_elem_of_In, (list_elem_of_lookup_2 _ k).
  - rewrite <- Hex, (last_selected_None _ _ E).
    destruct os as [|o os]; destruct names as [|n names]; try discriminate; simpl;
      [reflexivity|]. simpl in Hv. inversion Hv as [[Ho Hos]]. by rewrite Ho.
Qed.

Lemma sel_at_values k (l : list option_el) :
  map opt_value (sel_at k l) = map opt_value l
  /\ map opt_text (sel_at k l) = map opt_text l.
Proof.
  revert k; induction l as [|a l IH]; intros k; [done|].
  rewrite sel_at_cons; simpl.
  destruct k as [|k'].
  - destruct (IH (S (length l))) as [H1 H2]. by rewrite H1, H2.
  - destruct (IH k') as [H1 H2]. by rewrite H1, H2.
Qed.

(** *** The three loops of [loadConfig] *)

Lemma set_modelSelect_id s : set_modelSelect (modelSelect s) s = s.
Proof. by destruct s. Qed.

Lemma set_templateSelect_id s : set_templateSelect (templateSelect s) s = s.
Proof. by destruct s. Qed.

Lemma set_promptSelect_id s : set_promptSelect (promptSelect s) s = s.
Proof. by destruct s. Qed.

Lemma add_model_spec data dflts d x s :
  JS.get data "defaults" = inr dflts -> JS.get dflts "model" = inr d ->
  converts x = true ->
  add_model data x s =
    (set_modelSelect (appendChild (model_option d x) (modelSelect s)) s, inr tt).
Proof.
  intros Hd Hm Hx. unfold converts in Hx. apply negb_true_iff in Hx.
  unfold add_model, default_of, JS.printable, JS.raw, Eff.bind, Eff.of_sum, Eff.exec.
  by rewrite Hx, Hd, Hm.
Qed.

Lemma forEach_add_model data dflts d items :
  JS.get data "defaults" = inr dflts -> JS.get dflts "model" = inr d ->
  forallb converts items = true ->
  forall i s,
    Eff.forEach (fun _ x => add_model data x) i items s =
      (set_modelSelect
         (fold_left (fun acc o => appendChild o acc) (map (model_option d) items)
            (modelSelect s)) s, inr tt).
Proof.
  intros Hd Hm. induction items as [|x items IH]; intros Hok i s; simpl.
  - unfold Eff.ret. by rewrite set_modelSelect_id.
  - simpl in Hok. apply andb_true_iff in Hok as [Hx Hok].
    unfold Eff.bind. rewrite (add_model_spec _ _ _ _ _ Hd Hm Hx).
    by rewrite (IH Hok).
Qed.

Lemma has_str_get k v :
  has_str k v = true -> JS.get v k = inr (JS.Str (str_of k v)).
Proof.
  unfold has_str, str_of. destruct (JS.get v k) as [e|[]]; try discriminate. done.
Qed.

Lemma add_template_spec data dflts d x s :
  JS.get data "defaults" = inr dflts -> JS.get dflts "template" = inr d ->
  has_str "id" x = true -> has_str "name" x = true ->
  add_template data x s =
    (set_templateSelect
       (appendChild (template_option d (JS.Str (str_of "id" x)) (JS.Str (str_of "name" x)))
          (templateSelect s)) s, inr tt).
Proof.
  intros Hd Hm Hx Hy.
  unfold add_template, default_of, JS.printable, JS.template, Eff.bind, Eff.of_sum,
    Eff.exec.
  by rewrite (has_str_get _ _ Hx), (has_str_get _ _ Hy), Hd, Hm.
Qed.

Lemma forEach_add_template data dflts d items :
  JS.get data "defaults" = inr dflts -> JS.get dflts "template" = inr d ->
  forallb (has_str "id") items = true -> forallb (has_str "name") items = true ->
  forall i s,
    Eff.forEach (fun _ x => add_template data x) i items s =
      (set_templateSelect
         (fold_left (fun acc o => appendChild o acc)
            (map (fun t => template_option d (JS.Str (str_of "id" t))
                             (JS.Str (str_of "name" t))) items)
            (templateSelect s)) s, inr tt).
Proof.
  intros Hd Hm. induction items as [|x items IH]; intros Hid Hname i s; simpl.
  - unfold Eff.ret. by rewrite set_templateSelect_id.
  - simpl in Hid, Hname.
    apply andb_true_iff in Hid as [Hx Hid]. apply andb_true_iff in Hname as [Hy Hname].
    unfold Eff.bind. rewrite (add_template_spec _ _ _ _ _ Hd Hm Hx Hy).
    by rewrite (IH Hid Hname).
Qed.

Lemma add_prompt_spec data dflts d x s :
  JS.get data "defaults" = inr dflts -> JS.get dflts "prompt_style" = inr d ->
  has_str "name" x = true -> has_str "description" x = true ->
  add_prompt data x s =
    (set_promptSelect
       (appendChild (prompt_option d (JS.Str (str_of "name" x))
                       (JS.Str (str_of "description" x)))
          (promptSelect s)) s, inr tt).
Proof.
  intros Hd Hm Hx Hy.
  unfold add_prompt, default_of, JS.printable, JS.template, Eff.bind, Eff.of_sum,
    Eff.exec.
  by rewrite (has_str_get _ _ Hx), (has_str_get _ _ Hy), Hd, Hm.
Qed.

Lemma forEach_add_prompt data dflts d items :
  JS.get data "defaults" = inr dflts -> JS.get dflts "prompt_style" = inr d ->
  forallb (has_str "name") items = true ->
  forallb (has_str "description") items = true ->
  forall i s,
    Eff.forEach (fun _ x => add_prompt data x) i items s =
      (set_promptSelect
         (fold_left (fun acc o => appendChild o acc)
            (map (fun p => prompt_option d (JS.Str (str_of "name" p))
                             (JS.Str (str_of "description" p))) items)
            (promptSelect s)) s, inr tt).
Proof.
  intros Hd Hm. induction items as [|x items IH]; intros Hid Hname i s; simpl.
  - unfold Eff.ret. by rewrite set_promptSelect_id.
  - simpl in Hid, Hname.
    apply andb_true_iff in Hid as [Hx Hid]. apply andb_true_iff in Hname as [Hy Hname].
    unfold Eff.bind. rewrite (add_prompt_spec _ _ _ _ _ Hd Hm Hx Hy).
    by rewrite (IH Hid Hname).
Qed.

Lemma strings_printable ms : forallb converts (map JS.Str ms) = true.
Proof. by induction ms. Qed.

Lemma loadConfig_resume_spec s status data ms ts ps dflts :
  JS.get data "models" = inr (JS.Arr (map JS.Str ms)) ->
  JS.get data "templates" = inr (JS.Arr ts) ->
  JS.get data "prompt_styles" = inr (JS.Arr ps) ->
  JS.get data "defaults" = inr (JS.Obj dflts) ->
  forallb (has_str "id") ts = true -> forallb (has_str "name") ts = true ->
  forallb (has_str "name") ps = true -> forallb (has_str "description") ps = true ->
  let fill := fold_left (fun acc o => appendChild o acc) in
  let filled :=
    set_promptSelect
      (fill (map (fun p => prompt_option (JS.lookup_field "prompt_style" dflts)
                             (JS.Str (str_of "name" p))
                             (JS.Str (str_of "description" p))) ps) [])
      (set_templateSelect
         (fill (map (fun t => template_option (JS.lookup_field "template" dflts)
                                (JS.Str (str_of "id" t))
                                (JS.Str (str_of "name" t))) ts) [])
         (set_modelSelect
            (fill (map (model_option (JS.lookup_field "model" dflts)) (map JS.Str ms)) [])
            s)) in
  loadConfig_resume (Response status (Some data)) s =
    (if JS.truthy (JS.lookup_field "api_key_set" dflts) then filled
     else showToast "⚠️ 未设置 API Key，请在电脑端配置" filled, inr tt).
Proof.
  intros Hm Ht Hp Hd Hti Htn Hpn Hpd fill filled.
  unfold loadConfig_resume, Eff.try_catch, await_json, each_of, default_of,
    Eff.bind, Eff.of_sum, Eff.exec, Eff.ret.
  cbn [snd]. rewrite Hm, Ht, Hp, Hd. cbn [as_array JS.get].
  rewrite (forEach_add_model data (JS.Obj dflts) _ _ Hd eq_refl (strings_printable ms)).
  lazy beta iota zeta.
  rewrite (forEach_add_template data (JS.Obj dflts) _ _ Hd eq_refl Hti Htn).
  lazy beta iota zeta.
  rewrite (forEach_add_prompt data (JS.Obj dflts) _ _ Hd eq_refl Hpn Hpd).
  lazy beta iota zeta.
  by destruct (JS.truthy (JS.lookup_field "api_key_set" dflts)).
Qed.

(** The configuration as the backend documents it: [models] an array of
    strings, [templates] an array of objects with the strings [id] and
    [name], [prompt_styles] an array of objects with the strings [name] and
    [description], [defaults] an object.  Whatever the status of the
    response, [loadConfig] then replaces the options of the three drop-downs
    by one option for each item, in order; each drop-down shows the default
    when it is among its values and its first option otherwise; and the
    notice about the API key is shown exactly when [defaults.api_key_set] is
    falsy. *)
Theorem loadConfig_fills (s : Backend.state) (status : Z) (data : JS.value)
    (ms : list string) (ts ps : list JS.value) (dflts : list (string * JS.value)) :
  JS.get data "models" = inr (JS.Arr (map JS.Str ms)) ->
  JS.get data "templates" = inr (JS.Arr ts) ->
  JS.get data "prompt_styles" = inr (JS.Arr ps) ->
  JS.get data "defaults" = inr (JS.Obj dflts) ->
  forallb (has_str "id") ts && forallb (has_str "name") ts = true ->
  forallb (has_str "name") ps && forallb (has_str "description") ps = true ->
  let s' := fst (loadConfig_resume (Response status (Some data)) s) in
  (map opt_value (modelSelect s') = map JS.Str ms
   /\ map opt_text (modelSelect s') = map (fun m => JS.Raw (JS.Str m)) ms
   /\ select_value (modelSelect s')
      = default_or_first (JS.lookup_field "model" dflts) ms)
  /\ (map opt_value (templateSelect s') = map (fun t => JS.Str (str_of "id" t)) ts
      /\ map opt_text (templateSelect s')
         = map (fun t => JS.Tpl [JS.Sub (JS.Str (str_of "name" t))]) ts
      /\ select_value (templateSelect s')
         = default_or_first (JS.lookup_field "template" dflts) (map (str_of "id") ts))
  /\ (map opt_value (promptSelect s') = map (fun p => JS.Str (str_of "name" p)) ps
      /\ map opt_text (promptSelect s')
         = map (fun p => JS.Tpl [JS.Sub (JS.Str (str_of "name" p)); JS.Lit " — ";
                                 JS.Sub (JS.Str (str_of "description" p))]) ps
      /\ select_value (promptSelect s')
         = default_or_first (JS.lookup_field "prompt_style" dflts)
             (map (str_of "name") ps))
  /\ (if JS.truthy (JS.lookup_field "api_key_set" dflts)
      then toast s' = toast s /\ toast_show s' = toast_show s
           /\ timeouts s' = timeouts s
      else toast s' = JS.lit "⚠️ 未设置 API Key，请在电脑端配置"
           /\ toast_show s' = true
           /\ timeouts s' = timeouts s ++ [(3000%Z, HideToast)])
  /\ console s' = console s.
Proof.
  intros Hm Ht Hp Hd [Hti Htn]%andb_true_iff [Hpn Hpd]%andb_true_iff s'.
  subst s'.
  rewrite (loadConfig_resume_spec s status data ms ts ps dflts Hm Ht Hp Hd Hti Htn Hpn Hpd).
  set (fill := fold_left (fun acc o => appendChild o acc)).
  assert (Hfill : forall os,
            map opt_value (fill os []) = map opt_value os
            /\ map opt_text (fill os []) = map opt_text os).
  { intros os. unfold fill. rewrite appendChild_all. apply sel_at_values. }
  assert (Hsel : forall d names os,
            map opt_value os = map JS.Str names ->
            map opt_selected os = map (fun n => JS.strict_eq (JS.Str n) d) names ->
            select_value (fill os []) = default_or_first d names)
    by (intros; by apply select_value_filled).
  assert (Hparts :
    forall mos tos pos (f : Backend.state -> Backend.state),
      (forall x, modelSelect (f x) = modelSelect x) ->
      (forall x, templateSelect (f x) = templateSelect x) ->
      (forall x, promptSelect (f x) = promptSelect x) ->
      modelSelect (f (set_promptSelect pos (set_templateSelect tos (set_modelSelect mos s)))) = mos
      /\ templateSelect (f (set_promptSelect pos (set_templateSelect tos (set_modelSelect mos s)))) = tos
      /\ promptSelect (f (set_promptSelect pos (set_templateSelect tos (set_modelSelect mos s)))) = pos).
  { intros mos tos pos f H1 H2 H3. by rewrite H1, H2, H3. }
  cbn [fst].
  destruct (JS.truthy (JS.lookup_field "api_key_set" dflts)).
  - destruct (Hparts
      (fill (map (model_option (JS.lookup_field "model" dflts)) (map JS.Str ms)) [])
      (fill (map (fun t => template_option (JS.lookup_field "template" dflts)
                             (JS.Str (str_of "id" t)) (JS.Str (str_of "name" t))) ts) [])
      (fill (map (fun p => prompt_option (JS.lookup_field "prompt_style" dflts)
                             (JS.Str (str_of "name" p))
                             (JS.Str (str_of "description" p))) ps) [])
      (fun x => x) ltac:(done) ltac:(done) ltac:(done)) as (-> & -> & ->).
    split; [|split; [|split; [|split; [by repeat split|reflexivity]]]];
      (split; [|split]);
      try (rewrite (proj1 (Hfill _)), !map_map; reflexivity);
      try (rewrite (proj2 (Hfill _)), !map_map; reflexivity);
      apply Hsel; rewrite !map_map; reflexivity.
  - destruct (Hparts
      (fill (map (model_option (JS.lookup_field "model" dflts)) (map JS.Str ms)) [])
      (fill (map (fun t => template_option (JS.lookup_field "template" dflts)
                             (JS.Str (str_of "id" t)) (JS.Str (str_of "name" t))) ts) [])
      (fill (map (fun p => prompt_option (JS.lookup_field "prompt_style" dflts)
                             (JS.Str (str_of "name" p))
                             (JS.Str (str_of "description" p))) ps) [])
      (showToast "⚠️ 未设置 API Key，请在电脑端配置")
      ltac:(done) ltac:(done) ltac:(done)) as (-> & -> & ->).
    split; [|split; [|split; [|split; [by repeat split|reflexivity]]]];
      (split; [|split]);
      try (rewrite (proj1 (Hfill _)), !map_map; reflexivity);
      try (rewrite (proj2 (Hfill _)), !map_map; reflexivity);
      apply Hsel; rewrite !map_map; reflexivity.
Qed.

Lemma loadConfig_fills_witness :
  let s' := fst (loadConfig_resume (Response 200 (Some example_config))
                   (loaded "http:" "localhost:8000")) in
  select_value (modelSelect s') = "m2"
  /\ select_value (templateSelect s') = "t1"
  /\ map opt_value (promptSelect s') = [JS.Str "p1"].
Proof.
  pose proof (loadConfig_fills (loaded "http:" "localhost:8000") 200 example_config
    ["m1"; "m2"]
    [JS.Obj [("id", JS.Str "t1"); ("name", JS.Str "One")];
     JS.Obj [("id", JS.Str "t2"); ("name", JS.Str "Two")]]
    [JS.Obj [("name", JS.Str "p1"); ("description", JS.Str "plain")]]
    [("model", JS.Str "m2"); ("template", JS.Str "t1");
     ("prompt_style", JS.Str "p1"); ("api_key_set", JS.Bool true)]
    eq_refl eq_refl eq_refl eq_refl eq_refl eq_refl) as H.
  cbv zeta in H. destruct H as ((_ & _ & Hm) & (_ & _ & Ht) & (Hp & _) & _).
  cbv zeta. split; [exact Hm|]. split; [exact Ht|exact Hp].
Defined.

(** When the request for the configuration fails, or its body is not JSON,
    [loadConfig] shows its notice, logs the error and leaves the drop-downs
    as they are.  When the body is JSON without an array [models] (the body
    of an error response, say: the status is not looked at), the model
    drop-down has been emptied by then and stays empty, the two others are
    as they were. *)
Theorem loadConfig_fails (s : Backend.state) (status : Z) (data : JS.value) :
  let notice := showToast "❌ 无法连接后端服务" in
  loadConfig_resume Rejected s = (console_error JS.NetworkError (notice s), inr tt)
  /\ loadConfig_resume (Response status None) s
     = (console_error JS.SyntaxError (notice s), inr tt)
  /\ ((forall l, JS.get data "models" <> inr (JS.Arr l)) ->
      loadConfig_resume (Response status (Some data)) s
      = (console_error JS.TypeError (notice (set_modelSelect [] s)), inr tt)).
Proof.
  cbv zeta. split; [reflexivity|]. split; [reflexivity|]. intros Hno.
  unfold loadConfig_resume, Eff.try_catch, await_json, each_of,
    Eff.bind, Eff.of_sum, Eff.exec, Eff.ret.
  cbn [snd].
  destruct (JS.get data "models") as [e|v] eqn:E.
  { assert (e = JS.TypeError) as -> by (destruct data; simpl in E; congruence).
    reflexivity. }
  destruct v as [| | | | |l|]; try reflexivity. by destruct (Hno l).
Qed.

Lemma loadConfig_fails_witness :
  let data := JS.Obj [("detail", JS.Str "Internal Server Error")] in
  let s := fst (loadConfig_resume (Response 200 (Some example_config))
                  (loaded "http:" "localhost:8000")) in
  let s' := fst (loadConfig_resume (Response 500 (Some data)) s) in
  (forall l, JS.get data "models" <> inr (JS.Arr l))
  /\ select_value (modelSelect s) = "m2"
  /\ select_value (modelSelect s') = EmptyString
  /\ templateSelect s' = templateSelect s.
Proof.
  cbv zeta.
  assert (Hno : forall l, JS.get (JS.Obj [("detail", JS.Str "Internal Server Error")])
                            "models" <> inr (JS.Arr l)) by (intros l; discriminate).
  split; [exact Hno|]. split; [vm_compute; reflexivity|].
  generalize (fst (loadConfig_resume (Response 200 (Some example_config))
                     (loaded "http:" "localhost:8000"))).
  intros s.
  rewrite (proj2 (proj2 (loadConfig_fails s 500
    (JS.Obj [("detail", JS.Str "Internal Server Error")]))) Hno).
  split; reflexivity.
Defined.
End Configuration.

(** ** Invariants carried through effectful code *)

Section Preservation.
Context {St : Type} (P : St -> Prop).

Lemma preserves_ret {A} (a : A) : preserves P (Eff.ret a).
Proof. by intros s. Qed.

Lemma preserves_throw {A} e : preserves P (Eff.throw (A := A) e).
Proof. by intros s. Qed.

Lemma preserves_of_sum {A} (r : JS.exn + A) : preserves P (Eff.of_sum r).
Proof. by intros s. Qed.

Lemma preserves_exec (g : St -> St) :
  (forall s, P s -> P (g s)) -> preserves P (Eff.exec g).
Proof. intros H s. apply H. Qed.

Lemma preserves_bind {A C} (m : Eff.M St A) (k : A -> Eff.M St C) :
  preserves P m -> (forall a, preserves P (k a)) -> preserves P (Eff.bind m k).
Proof.
  intros Hm Hk s Hs. unfold Eff.bind. specialize (Hm s Hs).
  destruct (m s) as [s' [e|a]]; simpl in *; [exact Hm|]. by apply Hk.
Qed.

Lemma preserves_try_catch {A} (m : Eff.M St A) h :
  preserves P m -> (forall e, preserves P (h e)) -> preserves P (Eff.try_catch m h).
Proof.
  intros Hm Hh s Hs. unfold Eff.try_catch. specialize (Hm s Hs).
  destruct (m s) as [s' [e|a]]; simpl in *; [|exact Hm]. by apply Hh.
Qed.

Lemma preserves_finally {A} (m : Eff.M St A) fin :
  preserves P m -> preserves P fin -> preserves P (Eff.finally m fin).
Proof.
  intros Hm Hf s Hs. unfold Eff.finally. specialize (Hm s Hs).
  destruct (m s) as [s' r]; simpl in *. specialize (Hf s' Hm).
  by destruct (fin s') as [s'' [e|u]].
Qed.

Lemma preserves_forEach {A} (g : nat -> A -> Eff.M St unit) i l :
  (forall k x, preserves P (g k x)) -> preserves P (Eff.forEach g i l).
Proof.
  intros Hg. revert i; induction l as [|x l IH]; intros i; simpl.
  - apply preserves_ret.
  - apply preserves_bind; [apply Hg|]. intros _. apply IH.
Qed.

(** Code that leaves alone what [P] reads preserves [P]. *)
Lemma keeps_preserves {A B} (f : St -> B) (m : Eff.M St A) :
  (forall s s', f s' = f s -> P s -> P s') -> Eff.keeps f m -> preserves P m.
Proof. intros HP Hm s Hs. apply (HP s); [apply Hm|exact Hs]. Qed.
End Preservation.

Ltac preserve_step :=
  lazymatch goal with
  | |- preserves _ (Eff.ret _) => apply preserves_ret
  | |- preserves _ (Eff.throw _) => apply preserves_throw
  | |- preserves _ (Eff.of_sum _) => apply preserves_of_sum
  | |- preserves _ (Eff.bind _ _) => apply preserves_bind; [|intros ?]
  | |- preserves _ (Eff.try_catch _ _) => apply preserves_try_catch; [|intros ?]
  | |- preserves _ (Eff.finally _ _) => apply preserves_finally
  | |- preserves _ (Eff.forEach _ _ _) => apply preserves_forEach; intros ? ?
  | |- preserves _ (Eff.exec _) => apply preserves_exec; intros ? ?
  | |- preserves _ (match ?x with _ => _ end) => destruct x
  | |- preserves _ (let _ := _ in _) => cbv zeta
  | |- preserves _ _ => progress autounfold with frames
  end.

Ltac preserve := repeat preserve_step.

(** ** Toasts *)

Section Toasts.
Import Backend Panel.
#[local] Open Scope list_scope.

#[local] Hint Unfold showPreview add_image toast_error appendLog updateProgress
  await_json ok_and_success default_of each_of add_model add_template add_prompt
  loadConfig_resume handleManual_resume handleAuto_resume handlePublish_resume
  resume onmessage : frames.

Lemma toast_inv_view s s' : toast_view s' = toast_view s -> toast_inv s -> toast_inv s'.
Proof.
  unfold toast_view, toast_inv, pending_hides. intros H.
  inversion H as [[H1 H2]]. by rewrite H1, H2.
Qed.

Lemma toast_inv_showToast msg s : toast_inv s -> toast_inv (showToast msg s).
Proof.
  intros [_ Hall]. unfold toast_inv, pending_hides; simpl.
  rewrite List.filter_app, length_app; simpl. split; [lia|].
  apply Forall_app. split; [exact Hall|by repeat constructor].
Qed.

Lemma toast_inv_hidden s' :
  toast_show s' = false ->
  Forall (fun t => t = (3000%Z, HideToast)) (List.filter is_hide (timeouts s')) ->
  toast_inv s'.
Proof. intros H1 H2. split; [by rewrite H1|exact H2]. Qed.

Lemma Forall_filter_delete {A} (Q : A -> Prop) (f : A -> bool) (l : list A) i :
  Forall Q (List.filter f l) -> Forall Q (List.filter f (delete i l)).
Proof.
  revert i; induction l as [|a l IH]; intros [|i]; simpl; try done.
  - destruct (f a); [by inversion 1|done].
  - destruct (f a); [|apply IH]. inversion 1; subst. constructor; [done|by apply IH].
Qed.

Lemma resume_toast j r : preserves toast_inv (resume j r).
Proof.
  preserve;
    first [ by apply toast_inv_showToast
          | (eapply toast_inv_view; [|eassumption]); reflexivity ].
Qed.

Lemma onmessage_toast frame : Eff.keeps toast_view (onmessage frame).
Proof. frame; reflexivity. Qed.

Lemma toast_view_other ts (t : Z * task) :
  is_hide t = false -> List.filter is_hide (ts ++ [t]) = List.filter is_hide ts.
Proof. intros H. rewrite List.filter_app; simpl. rewrite H. apply app_nil_r. Qed.

Lemma toast_inv_step s e s' : toast_inv s -> step s e = Some s' -> toast_inv s'.
Proof.
  intros Hinv Hstep. destruct e; simpl in Hstep.
  - destruct (disabled (btnManual s)); inversion Hstep; subst.
    unfold handleManual. destruct (negb _); simpl; [by apply toast_inv_showToast|].
    by apply (toast_inv_view s).
  - destruct (disabled (btnAuto s)); inversion Hstep; subst.
    unfold handleAuto. destruct (negb _); simpl; [by apply toast_inv_showToast|].
    destruct answer; by apply (toast_inv_view s).
  - destruct (disabled (btnPublish s)); inversion Hstep; subst.
    unfold handlePublish. destruct answer; by apply (toast_inv_view s).
  - inversion Hstep; subst. destruct clipboard; simpl; apply toast_inv_showToast;
      [by apply (toast_inv_view s)|done].
  - destruct (jobs s !! i) as [j|]; inversion Hstep; subst.
    apply resume_toast. by apply (toast_inv_view s).
  - destruct (socket_state id s) as [[]|]; inversion Hstep; subst.
    by apply (toast_inv_view s).
  - destruct (socket_state id s) as [[]|]; inversion Hstep; subst.
    apply (toast_inv_view s); [|done]. apply onmessage_toast.
  - destruct (socket_state id s) as [[]|]; inversion Hstep; subst;
      by apply (toast_inv_view s).
  - destruct (socket_state id s) as [[]|]; inversion Hstep; subst;
      by apply (toast_inv_view s).
  - destruct (socket_state id s) as [[]|]; inversion Hstep; subst;
      (apply (toast_inv_view s); [|done]); unfold toast_view, onclose; simpl;
      by rewrite toast_view_other.
  - destruct (timeouts s !! i) as [[d t]|] eqn:E; inversion Hstep; subst.
    destruct Hinv as [Hshow Hall]. destruct t; simpl.
    + apply toast_inv_hidden; [reflexivity|]. simpl. by apply Forall_filter_delete.
    + apply (toast_inv_view s); [|by split]. unfold toast_view, connectWebSocket; simpl.
      by rewrite (filter_delete_false is_hide _ _ _ E).
    + apply (toast_inv_view s); [|by split].
      assert (Hv : toast_view (set_timeouts (delete i (timeouts s)) s) = toast_view s).
      { unfold toast_view; simpl. by rewrite (filter_delete_false is_hide _ _ _ E). }
      rewrite <- Hv. unfold heartbeat.
      destruct (ws _); [|reflexivity]. by destruct (is_open _).
  - destruct (intervals s !! i) as [[d t]|] eqn:E; inversion Hstep; subst.
    destruct t; simpl.
    + apply toast_inv_hidden; [reflexivity|]. apply Hinv.
    + by apply (toast_inv_view s).
    + apply (toast_inv_view s); [|done]. unfold heartbeat.
      destruct (ws _); [|reflexivity]. by destruct (is_open _).
  - destruct (imageCarousel s !! i); inversion Hstep; subst.
    by apply (toast_inv_view s).
  - inversion Hstep; subst. by apply (toast_inv_view s).
  - inversion Hstep; subst. by apply (toast_inv_view s).
  - inversion Hstep; subst. destruct w; by apply (toast_inv_view s).
Qed.

Lemma toast_inv_reachable s : reachable s -> toast_inv s.
Proof.
  induction 1 as [protocol host|s e s' _ IH Hstep].
  - split; [discriminate|constructor].
  - by apply (toast_inv_step s e).
Qed.

(** In every state the page reaches, a toast on display has a timer that
    will hide it, and every hide timer waits 3000 ms.  A hide timer hides
    whatever toast is on display when it fires, not the one it was started
    for: the text stays and one timer less is pending. *)
Theorem toast_hidden_by_any_timer (s : Backend.state) :
  reachable s ->
  (toast_show s = true -> (1 <= pending_hides s)%nat)
  /\ (forall i d t, timeouts s !! i = Some (d, t) -> is_hide (d, t) = true ->
        d = 3000%Z
        /\ exists s', step s (FireTimeout i) = Some s'
             /\ toast_show s' = false /\ toast s' = toast s
             /\ S (pending_hides s') = pending_hides s)
  /\ (forall msg, toast_show (showToast msg s) = true
        /\ pending_hides (showToast msg s) = S (pending_hides s)).
Proof.
  intros Hreach. destruct (toast_inv_reachable s Hreach) as [Hshow Hall].
  split; [exact Hshow|]. split.
  - intros i d t Hi Hh. destruct t; try discriminate.
    assert (Hd : (d, HideToast) = (3000%Z, HideToast)).
    { rewrite Forall_forall in Hall. apply Hall, list_elem_of_In, List.filter_In.
      split; [|reflexivity]. by apply list_elem_of_In, (list_elem_of_lookup_2 _ i). }
    split; [by inversion Hd|].
    eexists. split; [simpl; by rewrite Hi|]. simpl.
    split; [reflexivity|]. split; [reflexivity|].
    unfold pending_hides; simpl. symmetry.
    by apply (filter_delete_true is_hide _ _ _ Hi).
  - intros msg. split; [reflexivity|]. unfold pending_hides; simpl.
    rewrite List.filter_app, length_app; simpl. lia.
Qed.

Lemma toast_hidden_by_any_timer_witness :
  match run (loaded "http:" "localhost:8000")
          [ClickManual; ClickPaste (Some "https://example.com/a")] with
  | Some s =>
      reachable s
      /\ toast s = JS.lit "📋 已粘贴" /\ pending_hides s = 2%nat
      /\ match step s (FireTimeout 0) with
         | Some s' => toast_show s' = false /\ toast s' = JS.lit "📋 已粘贴"
         | None => False
         end
  | None => False
  end.
Proof.
  set (s0 := loaded "http:" "localhost:8000").
  set (s1 := fst (handleManual s0)).
  set (s2 := pasteClick (Some "https://example.com/a") s1).
  assert (E : run s0 [ClickManual; ClickPaste (Some "https://example.com/a")] = Some s2)
    by (vm_compute; reflexivity).
  rewrite E.
  assert (Hreach : reachable s2).
  { apply (reach_step s1 (ClickPaste (Some "https://example.com/a"))); [|reflexivity].
    apply (reach_step s0 ClickManual); [apply reach_loaded|reflexivity]. }
  split; [exact Hreach|]. split; [reflexivity|]. split; [reflexivity|].
  destruct (toast_hidden_by_any_timer s2 Hreach) as (_ & Hfire & _).
  destruct (Hfire 0%nat 3000%Z HideToast eq_refl eq_refl) as (_ & s' & Hs' & Hshow & Htext & _).
  rewrite Hs'. split; [exact Hshow|]. rewrite Htext. reflexivity.
Defined.
End Toasts.

(** ** The log, the preview and the viewer *)

Section Display.
Import Backend Panel.
#[local] Open Scope list_scope.

Lemma set_logContainer_twice a b s :
  set_logContainer a (set_logContainer b s) = set_logContainer a s.
Proof. reflexivity. Qed.

Lemma set_logContainer_id s : set_logContainer (logContainer s) s = s.
Proof. by destruct s. Qed.

(** Log frames that arrive on the open socket are appended to the log in
    their order, each message as it is, and nothing else on the page
    changes. *)
Theorem log_frames_in_order (s : Backend.state) (id : nat)
    (frames : list (list (string * JS.value))) :
  socket_state id s = Some OPEN ->
  forallb is_log frames = true ->
  run s (map (fun f => SockMessage id (Some (JS.Obj f))) frames)
  = Some (set_logContainer
            (logContainer s ++ map (fun f => JS.Raw (JS.lookup_field "message" f)) frames)
            s).
Proof.
  revert s; induction frames as [|f frames IH]; intros s Hopen Hlog; simpl.
  - by rewrite app_nil_r, set_logContainer_id.
  - simpl in Hlog. apply andb_true_iff in Hlog as [Hf Hlog].
    unfold is_log in Hf. apply andb_true_iff in Hf as [Htype Hmsg].
    rewrite Hopen, onmessage_object, Htype.
    destruct (JS.lookup_field "message" f) as [| | | |m| |] eqn:Em; try discriminate.
    unfold appendLog, Eff.bind, Eff.of_sum, Eff.exec; simpl.
    rewrite IH by done. simpl.
    by rewrite set_logContainer_twice, <- app_assoc.
Qed.

Lemma log_frames_in_order_witness :
  match step (loaded "http:" "localhost:8000") (SockOpen 0) with
  | Some s =>
      socket_state 0 s = Some OPEN
      /\ match run s [SockMessage 0 (Some (JS.Obj [("type", JS.Str "log");
                                                   ("message", JS.Str "one")]));
                      SockMessage 0 (Some (JS.Obj [("message", JS.Str "two");
                                                   ("type", JS.Str "log")]))] with
         | Some s' => logContainer s' = [JS.Raw (JS.Str "one"); JS.Raw (JS.Str "two")]
         | None => False
         end
  | None => False
  end.
Proof.
  set (s := onopen (set_readyState 0 OPEN (loaded "http:" "localhost:8000"))).
  assert (E : step (loaded "http:" "localhost:8000") (SockOpen 0) = Some s)
    by (vm_compute; reflexivity).
  rewrite E.
  assert (Hopen : socket_state 0 s = Some OPEN) by (vm_compute; reflexivity).
  split; [exact Hopen|].
  pose proof (log_frames_in_order s 0
    [[("type", JS.Str "log"); ("message", JS.Str "one")];
     [("message", JS.Str "two"); ("type", JS.Str "log")]] Hopen eq_refl) as H.
  cbn [map] in H. rewrite H. vm_compute; reflexivity.
Defined.

(** *** What a preview shows *)

(** On a previewable value [showPreview] writes five elements, the same way
    on every page. *)
Lemma showPreview_writes data :
  previewable data = true ->
  exists title subtitle urls,
    (forall l, JS.get data "images" = inr (JS.Arr l) -> urls = l)
    /\ forall s, showPreview data s =
         (set_previewPanel true
            (set_btnPublish {| disabled := false; innerHTML := publish_label |}
               (set_imageCarousel (imap make_img urls)
                  (set_previewSubtitle subtitle (set_previewTitle title s)))),
          inr tt).
Proof.
  intros Hdata. unfold previewable in Hdata.
  destruct (JS.get data "caption_title") as [e|caption] eqn:Ecap; [discriminate|].
  destruct (JS.get data "cover_title") as [e|cover] eqn:Ecov; [discriminate|].
  destruct (JS.get data "images") as [e|images] eqn:Eimg; [discriminate|].
  apply andb_true_iff in Hdata as [[Hcap Hcov]%andb_true_iff Himg].
  apply negb_true_iff in Hcap.
  destruct (JS.or cover (JS.Str EmptyString)) as [| | | |c| |] eqn:Eor;
    try discriminate.
  destruct (JS.or images (JS.Arr [])) as [| | | | |urls|] eqn:Eimgs;
    try discriminate.
  exists (JS.Raw (JS.or caption (JS.Str EmptyString))),
         (JS.Tpl [JS.Lit "封面标题: "; JS.Sub (JS.Str (replace_newlines c))]), urls.
  split.
  - intros l [= ->]. simpl in Eimgs. by inversion Eimgs.
  - intros s.
    apply (showPreview_spec data s caption cover images (replace_newlines c) urls);
      try done; [by rewrite Eor|by rewrite Eimgs].
Qed.

Lemma showPreview_outside data : Eff.keeps outside_preview (showPreview data).
Proof.
  unfold showPreview, add_image.
  frame; reflexivity.
Qed.

(** A preview replaces the one before it entirely: whatever was previewed
    before, also a value on which [showPreview] stopped half way, the page
    after [showPreview] is the page a first preview would have given. *)
Theorem showPreview_replaces (s : Backend.state) (data data' : JS.value) :
  previewable data = true ->
  fst (showPreview data (fst (showPreview data' s))) = fst (showPreview data s).
Proof.
  intros Hdata. destruct (showPreview_writes data Hdata) as (title & subtitle & urls & _ & Hw).
  rewrite !Hw. cbn [fst].
  pose proof (showPreview_outside data' s) as Hout.
  set (s1 := fst (showPreview data' s)) in *.
  change (set_previewPanel true
            (set_btnPublish {| disabled := false; innerHTML := publish_label |}
               (set_imageCarousel (imap make_img urls)
                  (set_previewSubtitle subtitle
                     (set_previewTitle title (outside_preview s1)))))
          = set_previewPanel true
              (set_btnPublish {| disabled := false; innerHTML := publish_label |}
                 (set_imageCarousel (imap make_img urls)
                    (set_previewSubtitle subtitle
                       (set_previewTitle title (outside_preview s)))))).
  by rewrite Hout.
Qed.

Lemma showPreview_replaces_witness :
  let old := JS.Obj [("caption_title", JS.Str "old");
                     ("images", JS.Arr [JS.Str "a.png"; JS.Str "b.png"; JS.Num 5;
                                        JS.Obj [("toString", JS.Null)]])] in
  previewable example_artifact = true
  /\ previewable old = false
  /\ fst (showPreview example_artifact (fst (showPreview old published_state)))
     = fst (showPreview example_artifact published_state).
Proof.
  cbv zeta. split; [reflexivity|]. split; [reflexivity|].
  exact (showPreview_replaces published_state example_artifact _ eq_refl).
Defined.

Lemma append_empty (a : string) : (a ++ EmptyString)%string = a.
Proof.
  induction a as [|c a IH]; [reflexivity|].
  change (String c (a ++ EmptyString)%string = String c a). by rewrite IH.
Qed.

(** Every image of a preview opens itself: after [showPreview] the carousel
    holds one image for each URL of [images], in order, numbered from 1; a
    click on image [i] shows URL [i] in the viewer, closing the viewer hides
    it and keeps the URL; there is nothing to click past the last image. *)
Theorem thumbnails_open_their_image (s : Backend.state) (data : JS.value)
    (urls : list JS.value) (i : nat) :
  previewable data = true ->
  JS.get data "images" = inr (JS.Arr urls) ->
  let s1 := fst (showPreview data s) in
  length (imageCarousel s1) = length urls
  /\ (forall u, urls !! i = Some u ->
        imageCarousel s1 !! i = Some (make_img i u)
        /\ JS.render (alt (make_img i u)) = Some ("页面 " ++ pretty (Z.of_nat i + 1))%string
        /\ step s1 (ClickImage i) = Some (openViewer u s1)
        /\ viewerImage (openViewer u s1) = u
        /\ imageViewer (openViewer u s1) = true
        /\ step (openViewer u s1) CloseViewer = Some (closeViewer (openViewer u s1))
        /\ imageViewer (closeViewer (openViewer u s1)) = false
        /\ viewerImage (closeViewer (openViewer u s1)) = u)
  /\ (urls !! i = None -> step s1 (ClickImage i) = None).
Proof.
  intros Hdata Himg s1.
  destruct (showPreview_writes data Hdata) as (title & subtitle & urls' & Hu & Hw).
  rewrite (Hu _ Himg) in Hw. clear Hu urls'.
  assert (Hc : imageCarousel s1 = imap make_img urls) by (subst s1; by rewrite Hw).
  split; [by rewrite Hc, length_imap|]. split.
  - intros u Hi.
    assert (Him : imageCarousel s1 !! i = Some (make_img i u))
      by (by rewrite Hc, list_lookup_imap, Hi).
    split; [exact Him|]. split; [simpl; by rewrite append_empty|].
    split; [simpl; by rewrite Him|]. by repeat split.
  - intros Hi. simpl. by rewrite Hc, list_lookup_imap, Hi.
Qed.

Lemma thumbnails_open_their_image_witness :
  let data := JS.Obj [("images", JS.Arr [JS.Str "a.png"; JS.Str "b.png"])] in
  let s1 := fst (showPreview data run_state) in
  previewable data = true
  /\ JS.get data "images" = inr (JS.Arr [JS.Str "a.png"; JS.Str "b.png"])
  /\ step s1 (ClickImage 1) = Some (openViewer (JS.Str "b.png") s1)
  /\ JS.render (alt (make_img 1 (JS.Str "b.png"))) = Some "页面 2"
  /\ step s1 (ClickImage 2) = None.
Proof.
  cbv zeta. split; [reflexivity|]. split; [reflexivity|].
  pose proof (thumbnails_open_their_image run_state
    (JS.Obj [("images", JS.Arr [JS.Str "a.png"; JS.Str "b.png"])])
    [JS.Str "a.png"; JS.Str "b.png"]) as H.
  destruct (H 1%nat eq_refl eq_refl) as (_ & H1 & _).
  destruct (H 2%nat eq_refl eq_refl) as (_ & _ & H2).
  destruct (H1 _ eq_refl) as (_ & Halt & Hclick & _).
  split; [exact Hclick|]. split; [exact Halt|]. exact (H2 eq_refl).
Defined.
End Display.

(** ** Generation and publishing, from click to notice *)

Section Flows.
Import Backend Panel.
#[local] Open Scope list_scope.

Lemma ok_and_success_spec status data v s :
  JS.get data "success" = inr v ->
  ok_and_success status data s = (s, inr (resp_ok status && JS.truthy v)).
Proof.
  intros Hv. unfold ok_and_success, Eff.bind, Eff.of_sum, Eff.ret.
  destruct (resp_ok status); [by rewrite Hv|reflexivity].
Qed.

Lemma get_total data k v k' : JS.get data k = inr v -> exists v', JS.get data k' = inr v'.
Proof. destruct data; simpl; try discriminate; by eexists. Qed.

Lemma succeeded_spec status data :
  succeeded (Response status (Some data)) = true ->
  exists v, JS.get data "success" = inr v /\ resp_ok status && JS.truthy v = true.
Proof.
  simpl. destruct (JS.get data "success") as [e|v].
  - by rewrite andb_false_r.
  - intros H. by exists v.
Qed.

Lemma not_succeeded_spec status data k v :
  JS.get data k = inr v ->
  succeeded (Response status (Some data)) = false ->
  exists v', JS.get data "success" = inr v' /\ resp_ok status && JS.truthy v' = false.
Proof.
  intros Hk. destruct (get_total _ _ _ "success" Hk) as [v' Hv']. simpl. rewrite Hv'.
  intros H. by exists v'.
Qed.

Lemma toast_error_spec data err fb s :
  JS.get data "error" = inr err -> JS.unprintable err = false ->
  toast_error data fb s =
    (showToast (JS.Tpl [JS.Lit "❌ "; JS.Sub (JS.or err (JS.Str fb))]) s, inr tt).
Proof.
  intros He Hp. unfold toast_error, Eff.bind, Eff.of_sum, Eff.exec, JS.template.
  rewrite He; simpl.
  assert (Hu : JS.unprintable (JS.or err (JS.Str fb)) = false)
    by (unfold JS.or; by destruct (JS.truthy err)).
  by rewrite Hu.
Qed.

Lemma handleManual_resume_rejected status data err v s :
  JS.get data "error" = inr err -> JS.unprintable err = false ->
  JS.get data "success" = inr v -> resp_ok status && JS.truthy v = false ->
  handleManual_resume (Response status (Some data)) s =
    (setProcessing false
       (showToast (JS.Tpl [JS.Lit "❌ "; JS.Sub (JS.or err (JS.Str "生成失败"))]) s),
     inr tt).
Proof.
  intros He Hp Hv Hbad. unfold handleManual_resume, Eff.finally.
  unfold Eff.try_catch, await_json, Eff.bind at 1. unfold Eff.ret at 1. cbn [fst snd].
  unfold Eff.bind at 1. rewrite (ok_and_success_spec _ _ _ _ Hv), Hbad.
  by rewrite (toast_error_spec _ _ _ _ He Hp).
Qed.

Lemma handleAuto_resume_rejected status data err v s :
  JS.get data "error" = inr err -> JS.unprintable err = false ->
  JS.get data "success" = inr v -> resp_ok status && JS.truthy v = false ->
  handleAuto_resume (Response status (Some data)) s =
    (setProcessing false
       (showToast (JS.Tpl [JS.Lit "❌ "; JS.Sub (JS.or err (JS.Str "发布失败"))]) s),
     inr tt).
Proof.
  intros He Hp Hv Hbad. unfold handleAuto_resume, Eff.finally.
  unfold Eff.try_catch, await_json, Eff.bind at 1. unfold Eff.ret at 1. cbn [fst snd].
  unfold Eff.bind at 1. rewrite (ok_and_success_spec _ _ _ _ Hv), Hbad.
  by rewrite (toast_error_spec _ _ _ _ He Hp).
Qed.

Lemma handlePublish_resume_rejected status data err v s :
  JS.get data "error" = inr err -> JS.unprintable err = false ->
  JS.get data "success" = inr v -> resp_ok status && JS.truthy v = false ->
  handlePublish_resume (Response status (Some data)) s =
    (set_btnPublish {| disabled := false; innerHTML := publish_label |}
       (showToast (JS.Tpl [JS.Lit "❌ "; JS.Sub (JS.or err (JS.Str "发布失败"))]) s),
     inr tt).
Proof.
  intros He Hp Hv Hbad. unfold handlePublish_resume.
  unfold Eff.try_catch, await_json, Eff.bind at 1. unfold Eff.ret at 1. cbn [fst snd].
  unfold Eff.bind at 1. rewrite (ok_and_success_spec _ _ _ _ Hv), Hbad.
  unfold Eff.bind at 1. by rewrite (toast_error_spec _ _ _ _ He Hp).
Qed.

(** When the backend turns a request down (a status outside 200-299, or a
    body whose [success] is falsy), the three handlers show the text of
    [error] behind a cross, or their own words when [error] is missing or
    empty; nothing is logged to the console and the preview is left as it
    was. *)
Theorem rejection_notice (j : job) (status : Z) (data err : JS.value)
    (s : Backend.state) :
  j <> ConfigJob ->
  JS.get data "error" = inr err ->
  JS.unprintable err = false ->
  succeeded (Response status (Some data)) = false ->
  let s' := fst (resume j (Response status (Some data)) s) in
  toast s' = JS.Tpl [JS.Lit "❌ "; JS.Sub (JS.or err (JS.Str (fallback j)))]
  /\ JS.render (toast s')
     = Some ("❌ " ++ (if JS.truthy err then JS.to_string err else fallback j))%string
  /\ toast_show s' = true
  /\ console s' = console s
  /\ previewPanel s' = previewPanel s
  /\ imageCarousel s' = imageCarousel s.
Proof.
  intros Hj He Hp Hno s'.
  destruct (not_succeeded_spec _ _ _ _ He Hno) as (v & Hv & Hbad).
  assert (Hrender : JS.render (JS.Tpl [JS.Lit "❌ "; JS.Sub (JS.or err (JS.Str (fallback j)))])
            = Some ("❌ " ++ (if JS.truthy err then JS.to_string err else fallback j))%string).
  { unfold JS.or. destruct (JS.truthy err); simpl; by rewrite append_empty. }
  subst s'. destruct j; [done| | |]; simpl resume.
  - rewrite (handleManual_resume_rejected _ _ _ _ _ He Hp Hv Hbad). cbn [fst].
    split; [reflexivity|]. split; [exact Hrender|]. by repeat split.
  - rewrite (handleAuto_resume_rejected _ _ _ _ _ He Hp Hv Hbad). cbn [fst].
    split; [reflexivity|]. split; [exact Hrender|]. by repeat split.
  - rewrite (handlePublish_resume_rejected _ _ _ _ _ He Hp Hv Hbad). cbn [fst].
    split; [reflexivity|]. split; [exact Hrender|]. by repeat split.
Qed.

Lemma rejection_notice_witness :
  let quota := JS.Obj [("success", JS.Bool false); ("error", JS.Str "quota exceeded")] in
  let bare := JS.Obj [("detail", JS.Str "Not Found")] in
  ManualJob <> ConfigJob
  /\ JS.render (toast (fst (resume ManualJob (Response 200 (Some quota)) run_state)))
     = Some "❌ quota exceeded"
  /\ JS.render (toast (fst (resume PublishJob (Response 404 (Some bare)) run_state)))
     = Some "❌ 发布失败".
Proof.
  cbv zeta. split; [discriminate|]. split.
  - exact (proj1 (proj2 (rejection_notice ManualJob 200
      (JS.Obj [("success", JS.Bool false); ("error", JS.Str "quota exceeded")])
      (JS.Str "quota exceeded") run_state ltac:(discriminate) eq_refl eq_refl eq_refl))).
  - exact (proj1 (proj2 (rejection_notice PublishJob 404
      (JS.Obj [("detail", JS.Str "Not Found")])
      JS.Undefined run_state ltac:(discriminate) eq_refl eq_refl eq_refl))).
Defined.

(** *** A generation that succeeds *)

Lemma handleManual_resume_success status data :
  succeeded (Response status (Some data)) = true ->
  previewable data = true ->
  exists title subtitle urls,
    forall s,
      handleManual_resume (Response status (Some data)) s =
        (setProcessing false
           (showToast "✅ 生成完成，请预览确认"
              (set_previewPanel true
                 (set_btnPublish {| disabled := false; innerHTML := publish_label |}
                    (set_imageCarousel (imap make_img urls)
                       (set_previewSubtitle subtitle (set_previewTitle title s)))))),
         inr tt).
Proof.
  intros Hok Hdata.
  destruct (succeeded_spec _ _ Hok) as (v & Hv & Hgood).
  destruct (showPreview_writes data Hdata) as (title & subtitle & urls & _ & Hw).
  exists title, subtitle, urls. intros s.
  unfold handleManual_resume, Eff.finally.
  unfold Eff.try_catch, await_json, Eff.bind at 1. unfold Eff.ret at 1. cbn [fst snd].
  unfold Eff.bind at 1. rewrite (ok_and_success_spec _ _ _ _ Hv), Hgood.
  unfold Eff.bind at 1. rewrite Hw. reflexivity.
Qed.

Lemma lookup_snoc {A} (l : list A) (a : A) : (l ++ [a]) !! length l = Some a.
Proof. by rewrite list_lookup_middle. Qed.

Lemma delete_snoc {A} (l : list A) (a : A) : delete (length l) (l ++ [a]) = l.
Proof.
  induction l as [|b l IH]; simpl; [reflexivity|]. f_equal. exact IH.
Qed.

(** A manual generation from the click to the preview: the request carries
    the configuration read at the click; when the backend answers with
    success and a previewable artifact, the log panel is open and holds the
    start line alone (what the socket appended in between apart), the
    preview is shown, the notice asks for a review, and the flag and the
    progress wrapper are off again. *)
Theorem manual_generation (s : Backend.state) (status : Z) (data : JS.value) :
  disabled (btnManual s) = false ->
  JS.nonempty (config_url s) = true ->
  succeeded (Response status (Some data)) = true ->
  previewable data = true ->
  exists s1 s2,
    step s ClickManual = Some s1
    /\ step s1 (Settle (length (jobs s)) (Response status (Some data))) = Some s2
    /\ requests s2 = requests s ++ [post "/api/generate" (getConfig s)]
    /\ jobs s2 = jobs s
    /\ (logPanel s1 = true /\ logContainer s1 = [JS.lit "📱 手动模式启动..."]
        /\ previewPanel s1 = false /\ isProcessing s1 = true)
    /\ (logPanel s2 = true /\ logContainer s2 = logContainer s1
        /\ previewPanel s2 = true
        /\ toast s2 = JS.lit "✅ 生成完成，请预览确认" /\ toast_show s2 = true
        /\ isProcessing s2 = false /\ progressWrapper s2 = false).
Proof.
  intros Hbtn Hurl Hok Hdata.
  destruct (handleManual_resume_success status data Hok Hdata)
    as (title & subtitle & urls & Hres).
  set (s1 := fst (handleManual s)).
  assert (E1 : s1 = fetch (post "/api/generate" (getConfig s)) ManualJob
             (appendLog_lit "📱 手动模式启动..."
                (clearLogs (hidePreview (showLogPanel (setProcessing true s))))))
    by (subst s1; unfold handleManual; by rewrite Hurl).
  assert (Hj1 : jobs s1 = jobs s ++ [ManualJob]) by (by rewrite E1).
  assert (Hstep1 : step s ClickManual = Some s1) by (simpl; by rewrite Hbtn).
  clearbody s1.
  set (s0 := set_jobs (jobs s) s1).
  set (s2 := fst (handleManual_resume (Response status (Some data)) s0)).
  assert (E2 : s2 = setProcessing false
             (showToast "✅ 生成完成，请预览确认"
                (set_previewPanel true
                   (set_btnPublish {| disabled := false; innerHTML := publish_label |}
                      (set_imageCarousel (imap make_img urls)
                         (set_previewSubtitle subtitle (set_previewTitle title s0)))))))
    by (subst s2; by rewrite Hres).
  exists s1, s2.
  split; [exact Hstep1|].
  split; [simpl; by rewrite Hj1, lookup_snoc, delete_snoc|].
  split; [rewrite E2; subst s0; cbn; by rewrite E1|].
  split; [by rewrite E2|].
  split; [by rewrite E1|].
  rewrite E2. subst s0. rewrite E1. simpl.
  split; [reflexivity|]. split; [reflexivity|]. split; [reflexivity|].
  split; [reflexivity|]. split; [reflexivity|]. split; reflexivity.
Qed.

Lemma manual_generation_witness :
  disabled (btnManual run_state) = false
  /\ JS.nonempty (config_url run_state) = true
  /\ succeeded (Response 200 (Some example_artifact)) = true
  /\ previewable example_artifact = true
  /\ exists s1 s2,
       step run_state ClickManual = Some s1
       /\ step s1 (Settle 1 (Response 200 (Some example_artifact))) = Some s2
       /\ previewPanel s2 = true.
Proof.
  split; [reflexivity|]. split; [reflexivity|]. split; [reflexivity|].
  split; [reflexivity|].
  destruct (manual_generation run_state 200 example_artifact eq_refl eq_refl eq_refl eq_refl)
    as (s1 & s2 & H1 & H2 & _ & _ & _ & (_ & _ & H3 & _)).
  exists s1, s2. split; [exact H1|]. split; [exact H2|exact H3].
Defined.

(** A generation that succeeds while a publish request is in flight arms
    the publish button again, and a click on it then sends a second publish
    request: neither handler looks at what the other has in flight. *)
Theorem publish_rearmed_in_flight (s : Backend.state) (i : nat) (status : Z)
    (data : JS.value) :
  jobs s !! i = Some ManualJob ->
  succeeded (Response status (Some data)) = true ->
  previewable data = true ->
  exists s1 s2,
    step s (Settle i (Response status (Some data))) = Some s1
    /\ btnPublish s1 = {| disabled := false; innerHTML := publish_label |}
    /\ List.filter is_publish (jobs s1) = List.filter is_publish (jobs s)
    /\ step s1 (ClickPublish true) = Some s2
    /\ List.filter is_publish (jobs s2) = List.filter is_publish (jobs s) ++ [PublishJob]
    /\ requests s2
       = requests s ++ [post "/api/publish" (JS.Obj [("auto_publish", JS.Bool true)])].
Proof.
  intros Hi Hok Hdata.
  destruct (handleManual_resume_success status data Hok Hdata)
    as (title & subtitle & urls & Hres).
  set (s0 := set_jobs (delete i (jobs s)) s).
  set (s1 := fst (handleManual_resume (Response status (Some data)) s0)).
  assert (E1 : s1 = setProcessing false
             (showToast "✅ 生成完成，请预览确认"
                (set_previewPanel true
                   (set_btnPublish {| disabled := false; innerHTML := publish_label |}
                      (set_imageCarousel (imap make_img urls)
                         (set_previewSubtitle subtitle (set_previewTitle title s0)))))))
    by (subst s1; by rewrite Hres).
  assert (Hbtn : btnPublish s1 = {| disabled := false; innerHTML := publish_label |})
    by (by rewrite E1).
  assert (Hjobs : jobs s1 = delete i (jobs s)) by (by rewrite E1).
  assert (Hreq : requests s1 = requests s) by (by rewrite E1).
  exists s1, (fst (handlePublish true s1)).
  split; [simpl; by rewrite Hi|].
  split; [exact Hbtn|].
  split; [rewrite Hjobs; by apply (filter_delete_false is_publish _ _ _ Hi)|].
  split; [simpl; by rewrite Hbtn|].
  unfold handlePublish, fetch; cbn [negb fst jobs requests set_jobs set_requests
    set_btnPublish confirm set_dialogs].
  rewrite Hjobs, Hreq. split; [|reflexivity].
  rewrite filter_app_one; simpl.
  by rewrite (filter_delete_false is_publish _ _ _ Hi).
Qed.

Lemma publish_rearmed_in_flight_witness :
  match run run_state [ClickPublish true; ClickManual] with
  | Some s =>
      jobs s = [ConfigJob; PublishJob; ManualJob]
      /\ disabled (btnPublish s) = true
      /\ exists s1 s2,
           step s (Settle 2 (Response 200 (Some example_artifact))) = Some s1
           /\ step s1 (ClickPublish true) = Some s2
           /\ List.filter is_publish (jobs s2) = [PublishJob; PublishJob]
  | None => False
  end.
Proof.
  set (s := fst (handleManual (fst (handlePublish true run_state)))).
  assert (E : run run_state [ClickPublish true; ClickManual] = Some s)
    by (vm_compute; reflexivity).
  rewrite E.
  assert (Hjobs : jobs s = [ConfigJob; PublishJob; ManualJob]) by (vm_compute; reflexivity).
  split; [exact Hjobs|]. split; [vm_compute; reflexivity|].
  assert (Hi : jobs s !! 2%nat = Some ManualJob) by (by rewrite Hjobs).
  destruct (publish_rearmed_in_flight s 2 200 example_artifact Hi eq_refl eq_refl)
    as (s1 & s2 & H1 & _ & _ & H2 & H3 & _).
  exists s1, s2. split; [exact H1|]. split; [exact H2|].
  rewrite H3, Hjobs. reflexivity.
Defined.

(** *** An automatic publication *)

Lemma launch_settles_with_toast j r s :
  is_launch j = true -> toast_show (fst (resume j r s)) = true.
Proof.
  intros Hj. destruct j; try discriminate; simpl resume.
  - unfold handleManual_resume. rewrite finally_exec.
    unfold Eff.try_catch. cbn [fst].
    destruct (Eff.bind _ _ s) as [s' [e|[]]] eqn:E; [reflexivity|].
    cbn [fst]. revert E. unfold await_json.
    destruct r as [|status [data|]]; try discriminate.
    unfold Eff.bind at 1. unfold Eff.ret at 1. cbn [fst snd].
    unfold Eff.bind at 1.
    destruct (ok_and_success status data s) as [s0 [e|[]]] eqn:Eok; [discriminate| |].
    + unfold Eff.bind. destruct (showPreview data s0) as [s1 [e|[]]]; [discriminate|].
      by intros [= <-].
    + unfold toast_error, Eff.bind, Eff.of_sum.
      destruct (JS.get data "error") as [e|err]; [discriminate|].
      destruct (JS.template _); [discriminate|]. by intros [= <-].
  - unfold handleAuto_resume. rewrite finally_exec.
    unfold Eff.try_catch. cbn [fst].
    destruct (Eff.bind _ _ s) as [s' [e|[]]] eqn:E; [reflexivity|].
    cbn [fst]. revert E. unfold await_json.
    destruct r as [|status [data|]]; try discriminate.
    unfold Eff.bind at 1. unfold Eff.ret at 1. cbn [fst snd].
    unfold Eff.bind at 1.
    destruct (ok_and_success status data s) as [s0 [e|[]]] eqn:Eok; [discriminate| |].
    + by intros [= <-].
    + unfold toast_error, Eff.bind, Eff.of_sum.
      destruct (JS.get data "error") as [e|err]; [discriminate|].
      destruct (JS.template _); [discriminate|]. by intros [= <-].
Qed.

Lemma handleAuto_resume_preview r :
  Eff.keeps (fun s => (previewPanel s, imageCarousel s, previewTitle s, btnPublish s))
    (handleAuto_resume r).
Proof.
  unfold handleAuto_resume, toast_error, await_json, ok_and_success.
  frame; try reflexivity; by destruct b.
Qed.

(** An automatic publication never shows a preview: from the confirmed
    click to the settled request the preview panel is hidden and the
    carousel, the title and the publish button are as they were, whatever
    the backend answers; the handler ends with a notice on display and the
    flag off. *)
Theorem auto_publish_without_preview (s : Backend.state) (r : fetch_result) :
  disabled (btnAuto s) = false ->
  JS.nonempty (config_url s) = true ->
  exists s1 s2,
    step s (ClickAuto true) = Some s1
    /\ step s1 (Settle (length (jobs s)) r) = Some s2
    /\ requests s2 = requests s ++ [post "/api/auto-publish" (getConfig s)]
    /\ (previewPanel s1 = false /\ previewPanel s2 = false)
    /\ (imageCarousel s2 = imageCarousel s /\ previewTitle s2 = previewTitle s
        /\ btnPublish s2 = btnPublish s)
    /\ toast_show s2 = true
    /\ isProcessing s2 = false
    /\ (succeeded r = true -> toast s2 = JS.lit "✅ 自动发布成功！").
Proof.
  intros Hbtn Hurl.
  set (s1 := fst (handleAuto true s)).
  assert (E1 : s1 = fetch (post "/api/auto-publish" (getConfig s)) AutoJob
             (appendLog_lit "🤖 自动发布模式启动..."
                (clearLogs (hidePreview (showLogPanel
                   (setProcessing true (confirm auto_prompt true s)))))))
    by (subst s1; unfold handleAuto; by rewrite Hurl).
  assert (Hj1 : jobs s1 = jobs s ++ [AutoJob]) by (by rewrite E1).
  assert (Hstep1 : step s (ClickAuto true) = Some s1) by (simpl; by rewrite Hbtn).
  clearbody s1.
  set (s0 := set_jobs (jobs s) s1).
  assert (Hview : (previewPanel s0, imageCarousel s0, previewTitle s0, btnPublish s0)
                  = (false, imageCarousel s, previewTitle s, btnPublish s))
    by (subst s0; by rewrite E1).
  assert (Hreq0 : requests s0 = requests s ++ [post "/api/auto-publish" (getConfig s)])
    by (subst s0; by rewrite E1).
  set (s2 := fst (handleAuto_resume r s0)).
  exists s1, s2.
  split; [exact Hstep1|].
  split; [simpl; by rewrite Hj1, lookup_snoc, delete_snoc|].
  pose proof (handleAuto_resume_preview r s0) as Hkeep. cbv beta in Hkeep.
  fold s2 in Hkeep. rewrite Hview in Hkeep. injection Hkeep as H1 H2 H3 H4.
  assert (Hreq : Eff.keeps requests (handleAuto_resume r)).
  { unfold handleAuto_resume, toast_error, await_json, ok_and_success.
    frame; try reflexivity; by destruct b. }
  split; [subst s2; rewrite Hreq; exact Hreq0|].
  split; [split; [by rewrite E1|exact H1]|].
  split; [by repeat split|].
  split; [exact (launch_settles_with_toast AutoJob r s0 eq_refl)|].
  split; [exact (proj1 (launch_resume_resets AutoJob r s0 eq_refl))|].
  intros Hok. destruct r as [|status [data|]]; try discriminate.
  destruct (succeeded_spec _ _ Hok) as (v & Hv & Hgood).
  subst s2. unfold handleAuto_resume, Eff.finally.
  unfold Eff.try_catch, await_json, Eff.bind at 1. unfold Eff.ret at 1. cbn [fst snd].
  unfold Eff.bind at 1. rewrite (ok_and_success_spec _ _ _ _ Hv), Hgood.
  reflexivity.
Qed.

Lemma auto_publish_without_preview_witness :
  disabled (btnAuto run_state) = false
  /\ JS.nonempty (config_url run_state) = true
  /\ exists s1 s2,
       step run_state (ClickAuto true) = Some s1
       /\ step s1 (Settle 1 (Response 200 (Some example_artifact))) = Some s2
       /\ previewPanel s2 = false
       /\ toast s2 = JS.lit "✅ 自动发布成功！".
Proof.
  split; [reflexivity|]. split; [reflexivity|].
  destruct (auto_publish_without_preview run_state
              (Response 200 (Some example_artifact)) eq_refl eq_refl)
    as (s1 & s2 & H1 & H2 & _ & (_ & H3) & _ & _ & _ & H4).
  exists s1, s2. split; [exact H1|]. split; [exact H2|].
  split; [exact H3|]. exact (H4 eq_refl).
Defined.
End Flows.

(** ** What the panel sends *)

Section Network.
Import Backend Panel.
#[local] Open Scope list_scope.

#[local] Hint Unfold showPreview add_image toast_error appendLog updateProgress
  await_json ok_and_success default_of each_of add_model add_template add_prompt
  loadConfig_resume handleManual_resume handleAuto_resume handlePublish_resume
  resume onmessage : frames.

(** *** Requests *)

Lemma resume_requests j r : Eff.keeps requests (resume j r).
Proof. frame; try reflexivity; by destruct b. Qed.

Lemma onmessage_requests frame : Eff.keeps requests (onmessage frame).
Proof. frame; reflexivity. Qed.

Lemma endpoints_step s e s' :
  Forall (fun rq => to_endpoint rq = true) (requests s) ->
  step s e = Some s' ->
  Forall (fun rq => to_endpoint rq = true) (requests s').
Proof.
  intros Hinv Hstep. destruct e; simpl in Hstep.
  - destruct (disabled (btnManual s)); inversion Hstep; subst.
    unfold handleManual. destruct (negb _); simpl; [done|].
    apply Forall_app. split; [done|by repeat constructor].
  - destruct (disabled (btnAuto s)); inversion Hstep; subst.
    unfold handleAuto. destruct (negb _); simpl; [done|].
    destruct answer; simpl; [|done].
    apply Forall_app. split; [done|by repeat constructor].
  - destruct (disabled (btnPublish s)); inversion Hstep; subst.
    unfold handlePublish. destruct answer; simpl; [|done].
    apply Forall_app. split; [done|by repeat constructor].
  - inversion Hstep; subst. by destruct clipboard.
  - destruct (jobs s !! i) as [j|]; inversion Hstep; subst.
    by rewrite resume_requests.
  - destruct (socket_state id s) as [[]|]; inversion Hstep; by subst.
  - destruct (socket_state id s) as [[]|]; inversion Hstep; subst.
    by rewrite onmessage_requests.
  - destruct (socket_state id s) as [[]|]; inversion Hstep; by subst.
  - destruct (socket_state id s) as [[]|]; inversion Hstep; by subst.
  - destruct (socket_state id s) as [[]|]; inversion Hstep; by subst.
  - destruct (timeouts s !! i) as [[d t]|]; inversion Hstep; subst.
    destruct t; simpl; try done. unfold heartbeat; simpl.
    destruct (ws s); [|done]. by destruct (is_open _).
  - destruct (intervals s !! i) as [[d t]|]; inversion Hstep; subst.
    destruct t; simpl; try done. unfold heartbeat.
    destruct (ws s); [|done]. by destruct (is_open _).
  - destruct (imageCarousel s !! i); inversion Hstep; by subst.
  - inversion Hstep; by subst.
  - inversion Hstep; by subst.
  - inversion Hstep; subst. by destruct w.
Qed.

Lemma endpoints_reachable s :
  reachable s -> Forall (fun rq => to_endpoint rq = true) (requests s).
Proof.
  induction 1 as [protocol host|s e s' _ IH Hstep].
  - by repeat constructor.
  - by apply (endpoints_step s e).
Qed.

Lemma includes_behind needle a b :
  SW.includes needle b = true -> SW.includes needle (a ++ b)%string = true.
Proof.
  intros Hb. induction a as [|c a IH]; [exact Hb|].
  change (SW.includes needle (String c (a ++ b)%string) = true).
  cbn [SW.includes]. destruct (JS.strip_prefix needle (String c (a ++ b)%string));
    [reflexivity|exact IH].
Qed.

Lemma endpoint_bypassed origin rq :
  to_endpoint rq = true ->
  SW.bypass (SW.api_worker origin) (SW.resolve origin (req_url rq)) = true.
Proof.
  unfold to_endpoint, endpoints; simpl.
  rewrite orb_false_r, !orb_true_iff, !andb_true_iff, !String.eqb_eq.
  intros [[_ ->]|[[_ ->]|[[_ ->]|[_ ->]]]];
    lazy beta iota delta [SW.bypass SW.api_worker SW.resolve].
  all: left; by apply includes_behind.
Qed.

(** Every request the panel ever makes goes to one of its four endpoints
    under /api/, so the service worker of the panel lets each of them pass
    untouched, whatever its cache holds: no answer of the backend comes from
    the cache. *)
Theorem requests_pass_the_worker (s : Backend.state) (origin : string)
    (rq : request) (net : option SW.response) (cs : SW.storage) :
  reachable s ->
  In rq (requests s) ->
  In (req_method rq, req_url rq) endpoints
  /\ SW.fetch_listener (SW.api_worker origin) (SW.resolve origin (req_url rq)) net cs
     = (SW.NotIntercepted, cs).
Proof.
  intros Hreach Hin.
  pose proof (endpoints_reachable s Hreach) as Hall.
  rewrite Forall_forall in Hall. specialize (Hall rq (proj2 (list_elem_of_In _ _) Hin)).
  split.
  - revert Hall. unfold to_endpoint. rewrite existsb_exists.
    intros ([m u] & He & [Hm Hu]%andb_true_iff). simpl in *.
    apply String.eqb_eq in Hm, Hu. by rewrite Hm, Hu.
  - unfold SW.fetch_listener. by rewrite (endpoint_bypassed origin rq Hall).
Qed.

Lemma requests_pass_the_worker_witness :
  let s := fst (handleManual run_state) in
  let rq := post "/api/generate" (getConfig run_state) in
  reachable s
  /\ In rq (requests s)
  /\ SW.fetch_listener (SW.api_worker "https://panel.example")
       "https://panel.example/api/generate" None
       [("xhs-publisher-v1", [("https://panel.example/api/generate", "stale")])]
     = (SW.NotIntercepted,
        [("xhs-publisher-v1", [("https://panel.example/api/generate", "stale")])]).
Proof.
  cbv zeta.
  assert (Hreach : reachable (fst (handleManual run_state))).
  { apply (reach_step run_state ClickManual); [|reflexivity].
    apply (reach_step (loaded "http:" "localhost:8000") (TypeUrl "https://example.com/a"));
      [apply reach_loaded|reflexivity]. }
  assert (Hin : In (post "/api/generate" (getConfig run_state))
                  (requests (fst (handleManual run_state))))
    by (vm_compute; right; left; reflexivity).
  split; [exact Hreach|]. split; [exact Hin|].
  exact (proj2 (requests_pass_the_worker (fst (handleManual run_state))
    "https://panel.example" (post "/api/generate" (getConfig run_state)) None
    [("xhs-publisher-v1", [("https://panel.example/api/generate", "stale")])]
    Hreach Hin)).
Defined.

(** *** Sockets and heartbeat timers *)

Lemma newest_only_view s s' : net_view s' = net_view s -> newest_only s -> newest_only s'.
Proof.
  unfold net_view, newest_only, ws_url. intros H.
  injection H as H1 H2 H3 H4 H5. by rewrite H1, H2, H3, H4, H5.
Qed.

Lemma resume_net j r : Eff.keeps net_view (resume j r).
Proof. frame; try reflexivity; by destruct b. Qed.

Lemma onmessage_net frame : Eff.keeps net_view (onmessage frame).
Proof. frame; reflexivity. Qed.

Lemma heartbeat_net s : net_view (heartbeat s) = net_view s.
Proof. unfold heartbeat. destruct (ws s); [|reflexivity]. by destruct (is_open _). Qed.

Lemma newest_only_alter s id r :
  newest_only s ->
  (r = CLOSED \/ exists k, sockets s !! id = Some k /\ sock_state k <> CLOSED) ->
  newest_only (set_readyState id r s).
Proof.
  intros (Hws & Hlen & Hint & Hold & Hurl) Hr.
  unfold newest_only, set_readyState; simpl.
  rewrite length_alter. repeat split; try done.
  - intros id' k Hk Hid'. destruct (decide (id' = id)) as [->|Hne].
    + rewrite list_lookup_alter, decide_True in Hk by done.
      destruct (sockets s !! id) as [k0|] eqn:E; [|done].
      simpl in Hk. inversion Hk; subst; simpl.
      destruct Hr as [->|(k1 & Hk1 & Hstate)]; [reflexivity|].
      inversion Hk1; subst. by destruct (Hstate (Hold _ _ E Hid')).
    + rewrite list_lookup_alter_ne in Hk by done. by apply (Hold id').
  - unfold ws_url in *; simpl. apply Forall_forall. intros k Hk.
    apply list_elem_of_lookup in Hk as [i Hi].
    destruct (decide (i = id)) as [->|Hne].
    + rewrite list_lookup_alter, decide_True in Hi by done.
      destruct (sockets s !! id) as [k0|] eqn:E; [|done].
      simpl in Hi. inversion Hi; subst; simpl.
      rewrite Forall_forall in Hurl. by apply Hurl, (list_elem_of_lookup_2 _ id).
    + rewrite list_lookup_alter_ne in Hi by done.
      rewrite Forall_forall in Hurl. by apply Hurl, (list_elem_of_lookup_2 _ i).
Qed.

Lemma newest_only_connect s :
  newest_only s -> live_sockets s = 0%nat -> newest_only (connectWebSocket s).
Proof.
  intros (Hws & Hlen & Hint & Hold & Hurl) Hlive.
  unfold newest_only, connectWebSocket; simpl.
  rewrite !length_app; simpl. repeat split.
  - f_equal. lia.
  - lia.
  - lia.
  - intros id k Hk Hid. rewrite lookup_app_l in Hk by lia.
    pose proof (none_live _ _ _ Hlive Hk) as Hdead.
    unfold is_live in Hdead. by destruct (sock_state k).
  - apply Forall_app. split; [exact Hurl|by repeat constructor].
Qed.

Lemma socket_open_is_live id s r :
  socket_state id s = Some r -> r <> CLOSED ->
  exists k, sockets s !! id = Some k /\ sock_state k <> CLOSED.
Proof.
  unfold socket_state. destruct (sockets s !! id) as [k|]; [|discriminate].
  intros [= <-] Hr. by exists k.
Qed.

Lemma newest_only_step s e s' :
  session_inv s -> newest_only s -> step s e = Some s' -> newest_only s'.
Proof.
  intros Hsess Hinv Hstep. destruct e; simpl in Hstep.
  - destruct (disabled (btnManual s)); inversion Hstep; subst.
    apply (newest_only_view s); [|done]. unfold handleManual. by destruct (negb _).
  - destruct (disabled (btnAuto s)); inversion Hstep; subst.
    apply (newest_only_view s); [|done]. unfold handleAuto.
    destruct (negb _); [reflexivity|]. by destruct answer.
  - destruct (disabled (btnPublish s)); inversion Hstep; subst.
    apply (newest_only_view s); [|done]. by destruct answer.
  - inversion Hstep; subst. apply (newest_only_view s); [|done]. by destruct clipboard.
  - destruct (jobs s !! i) as [j|]; inversion Hstep; subst.
    apply (newest_only_view s); [|done]. by rewrite resume_net.
  - destruct (socket_state id s) as [[]|] eqn:E; inversion Hstep; subst.
    apply (newest_only_view (set_readyState id OPEN s)); [reflexivity|].
    apply newest_only_alter; [done|]. right.
    by apply (socket_open_is_live _ _ _ E).
  - destruct (socket_state id s) as [[]|]; inversion Hstep; subst.
    apply (newest_only_view s); [|done]. by rewrite onmessage_net.
  - destruct (socket_state id s) as [[]|]; inversion Hstep; subst;
      by apply (newest_only_view s).
  - destruct (socket_state id s) as [[]|] eqn:E; inversion Hstep; subst;
      (apply newest_only_alter; [done|]); right;
      by apply (socket_open_is_live _ _ _ E).
  - destruct (socket_state id s) as [[]|]; inversion Hstep; subst;
      (apply (newest_only_view (set_readyState id CLOSED s)); [reflexivity|]);
      apply newest_only_alter; auto.
  - destruct (timeouts s !! i) as [[d t]|] eqn:E; inversion Hstep; subst.
    destruct t; simpl.
    + by apply (newest_only_view s).
    + apply newest_only_connect; [by apply (newest_only_view s)|].
      destruct Hsess as (Hn & _ & _).
      pose proof (filter_delete_true is_reconnect _ _ _ E eq_refl) as Hlen.
      unfold pending_reconnects, live_sockets in *. simpl. lia.
    + apply (newest_only_view s); [|done].
      by rewrite heartbeat_net.
  - destruct (intervals s !! i) as [[d t]|] eqn:E; inversion Hstep; subst.
    destruct Hsess as (_ & _ & Hiv). rewrite Forall_forall in Hiv.
    assert (Hdt : (d, t) = (30000%Z, Heartbeat))
      by (apply Hiv; by apply (list_elem_of_lookup_2 _ i)).
    inversion Hdt; subst. simpl. apply (newest_only_view s); [|done].
    apply heartbeat_net.
  - destruct (imageCarousel s !! i); inversion Hstep; subst.
    by apply (newest_only_view s).
  - inversion Hstep; subst. by apply (newest_only_view s).
  - inversion Hstep; subst. by apply (newest_only_view s).
  - inversion Hstep; subst. apply (newest_only_view s); [|done]. by destruct w.
Qed.

Lemma newest_only_reachable s : reachable s -> newest_only s.
Proof.
  induction 1 as [protocol host|s e s' Hreach IH Hstep].
  - unfold newest_only; simpl.
    split; [reflexivity|]. split; [lia|]. split; [reflexivity|]. split.
    + intros [|id] k Hk Hid; simpl in *; [lia|discriminate].
    + by repeat constructor.
  - apply (newest_only_step s e); [by apply session_inv_reachable|done|done].
Qed.

Lemma run_heartbeats n : forall s w a,
  ws s = Some w -> is_open (ws_readyState s) = true ->
  Forall (fun t => t = (30000%Z, Heartbeat)) (intervals s) ->
  (a + n <= length (intervals s))%nat ->
  run s (map FireInterval (seq a n))
  = Some (set_sent (sent s ++ repeat (w, "ping") n) s).
Proof.
  induction n as [|n IH]; intros s w a Hws Hopen Hiv Hlen; simpl.
  - rewrite app_nil_r. by destruct s.
  - destruct (intervals s !! a) as [[d t]|] eqn:E.
    2:{ apply lookup_ge_None in E. lia. }
    rewrite Forall_forall in Hiv.
    assert (Hdt : (d, t) = (30000%Z, Heartbeat))
      by (apply Hiv; by apply (list_elem_of_lookup_2 _ a)).
    inversion Hdt; subst. simpl. unfold heartbeat. rewrite Hws, Hopen.
    rewrite (IH _ w (S a)); simpl; try done.
    + by rewrite <- app_assoc.
    + by apply Forall_forall.
    + lia.
Qed.

(** The page holds one socket at a time, the newest, and every older one is
    closed; all go to the same URL.  Each connection started one more
    heartbeat timer and none was ever stopped: while the socket is open, one
    round of the timers sends as many pings over it as connections were made
    since the page was loaded. *)
Theorem heartbeats_multiply (s : Backend.state) :
  reachable s ->
  newest_only s
  /\ (forall w, ws s = Some w -> is_open (ws_readyState s) = true ->
        run s (map FireInterval (seq 0 (length (sockets s))))
        = Some (set_sent (sent s ++ repeat (w, "ping") (length (sockets s))) s)).
Proof.
  intros Hreach. pose proof (newest_only_reachable s Hreach) as Hnew.
  split; [exact Hnew|]. intros w Hws Hopen.
  destruct Hnew as (_ & _ & Hlen & _).
  apply run_heartbeats; try done.
  - by destruct (session_inv_reachable s Hreach) as (_ & _ & Hiv).
  - lia.
Qed.

Lemma heartbeats_multiply_witness :
  match run (loaded "https:" "panel.example") [SockClose 0; FireTimeout 0; SockOpen 1] with
  | Some s =>
      reachable s
      /\ map sock_url (sockets s)
         = ["wss://panel.example/ws/logs"; "wss://panel.example/ws/logs"]
      /\ match run s [FireInterval 0; FireInterval 1] with
         | Some s' => sent s' = [(1%nat, "ping"); (1%nat, "ping")]
         | None => False
         end
  | None => False
  end.
Proof.
  set (s0 := loaded "https:" "panel.example").
  set (s1 := onclose (set_readyState 0 CLOSED s0)).
  set (s2 := connectWebSocket (set_timeouts (delete 0%nat (timeouts s1)) s1)).
  set (s3 := onopen (set_readyState 1 OPEN s2)).
  assert (E1 : step s0 (SockClose 0) = Some s1) by (vm_compute; reflexivity).
  assert (E2 : step s1 (FireTimeout 0) = Some s2) by (vm_compute; reflexivity).
  assert (E3 : step s2 (SockOpen 1) = Some s3) by (vm_compute; reflexivity).
  assert (E : run s0 [SockClose 0; FireTimeout 0; SockOpen 1] = Some s3)
    by (vm_compute; reflexivity).
  rewrite E.
  assert (Hreach : reachable s3).
  { apply (reach_step s2 (SockOpen 1) _); [|exact E3].
    apply (reach_step s1 (FireTimeout 0) _); [|exact E2].
    apply (reach_step s0 (SockClose 0) _); [apply reach_loaded|exact E1]. }
  split; [exact Hreach|]. split; [vm_compute; reflexivity|].
  assert (Hws : ws s3 = Some 1%nat) by (vm_compute; reflexivity).
  assert (Hopen : is_open (ws_readyState s3) = true) by (vm_compute; reflexivity).
  assert (Hlen : length (sockets s3) = 2%nat) by (vm_compute; reflexivity).
  pose proof (proj2 (heartbeats_multiply s3 Hreach) 1%nat Hws Hopen) as H.
  rewrite Hlen in H. cbn [seq map] in H. rewrite H.
  vm_compute; reflexivity.
Defined.
End Network.

(** ** The cloud panel *)

Section CloudPanel.
Import CloudPage.
#[local] Open Scope list_scope.

(** *** The two embeddings of [saveSettings] and [loadRuns] agree *)

Lemma core_loadRuns p : core (loadRuns p) = Cloud.loadRuns (core p).
Proof.
  unfold loadRuns, lift, Cloud.loadRuns; cbv zeta.
  destruct (JS.nonempty (Cloud.repo (Cloud.getSettings (core p))));
    destruct (JS.nonempty (Cloud.pat (Cloud.getSettings (core p)))); reflexivity.
Qed.

Lemma core_saveSettings p : core (saveSettings p) = Cloud.saveSettings (core p).
Proof.
  unfold saveSettings, Cloud.saveSettings; cbv zeta.
  destruct (JS.nonempty (JS.trim (Cloud.repoInput (core p))));
    destruct (JS.nonempty (JS.trim (Cloud.patInput (core p)))); simpl;
    rewrite ?core_loadRuns; reflexivity.
Qed.

(** *** Page load *)

Lemma loadRuns_spec p :
  loadRuns p =
    let st := Cloud.getSettings (core p) in
    if JS.nonempty (Cloud.repo st) && JS.nonempty (Cloud.pat st)
    then set_jobs (jobs p ++ [RunsJob])
           (lift (Cloud.fetch (runs_request (Cloud.repo st) (Cloud.pat st))) p)
    else p.
Proof.
  unfold loadRuns, lift, Cloud.loadRuns; cbv zeta.
  destruct (JS.nonempty (Cloud.repo _)); destruct (JS.nonempty (Cloud.pat _)); reflexivity.
Qed.

(** When the page is loaded, the two settings inputs show what is stored
    and the refresh timer is started.  With a token and a repository stored,
    the run list is requested.  With a token but no repository, nothing
    else happens: no request, no hint, the settings stay closed.  Without a
    token, the placeholder of the run list asks for one and the settings are
    opened; on a page without a placeholder the listener throws before it
    opens them. *)
Theorem page_load (p0 : CloudPage.state) :
  let st := Cloud.getSettings (core p0) in
  let r := DOMContentLoaded p0 in
  let p := fst r in
  (Cloud.repoInput (core p) = Cloud.repo st
   /\ Cloud.patInput (core p) = Cloud.pat st
   /\ Cloud.localStorage (core p) = Cloud.localStorage (core p0)
   /\ intervals p = intervals p0 ++ [(30000%Z, Refresh)])
  /\ (JS.nonempty (Cloud.pat st) = true -> JS.nonempty (Cloud.repo st) = true ->
        snd r = inr tt
        /\ Cloud.requests (core p)
           = Cloud.requests (core p0) ++ [runs_request (Cloud.repo st) (Cloud.pat st)]
        /\ jobs p = jobs p0 ++ [RunsJob]
        /\ runsList p = runsList p0
        /\ Cloud.settingsContent_open (core p) = Cloud.settingsContent_open (core p0))
  /\ (JS.nonempty (Cloud.pat st) = true -> JS.nonempty (Cloud.repo st) = false ->
        snd r = inr tt
        /\ Cloud.requests (core p) = Cloud.requests (core p0)
        /\ jobs p = jobs p0
        /\ runsList p = runsList p0
        /\ Cloud.settingsContent_open (core p) = Cloud.settingsContent_open (core p0))
  /\ (JS.nonempty (Cloud.pat st) = false ->
        Cloud.requests (core p) = Cloud.requests (core p0)
        /\ jobs p = jobs p0
        /\ match set_empty_runs "请先配置 GitHub PAT" (runsList p0) with
           | Some l =>
               snd r = inr tt /\ runsList p = l
               /\ Cloud.settingsContent_open (core p) = true
               /\ Cloud.arrow (core p) = "▲"
           | None =>
               snd r = inl JS.TypeError /\ runsList p = runsList p0
               /\ Cloud.settingsContent_open (core p)
                  = Cloud.settingsContent_open (core p0)
           end).
Proof.
  cbv zeta. unfold DOMContentLoaded, Eff.bind, Eff.exec, Eff.of_sum.
  set (p1 := setupEventListeners (lift Cloud.loadSettings p0)).
  assert (Hst : Cloud.getSettings (core p1) = Cloud.getSettings (core p0)) by reflexivity.
  rewrite Hst.
  destruct (JS.nonempty (Cloud.pat (Cloud.getSettings (core p0)))) eqn:Hpat.
  - cbn [fst snd]. rewrite loadRuns_spec; cbv zeta. rewrite Hst, Hpat, andb_true_r.
    destruct (JS.nonempty (Cloud.repo (Cloud.getSettings (core p0)))) eqn:Hrepo.
    + split; [by repeat split|]. split; [by intros _ _; repeat split|].
      split; [discriminate|discriminate].
    + split; [by repeat split|]. split; [discriminate|].
      split; [by intros _ _; repeat split|discriminate].
  - destruct (set_empty_runs "请先配置 GitHub PAT" (runsList p1)) as [l|] eqn:Hl;
      change (runsList p1) with (runsList p0) in Hl; rewrite Hl; cbn [fst snd from_option].
    + split; [by repeat split|]. split; [discriminate|]. split; [discriminate|].
      intros _. by repeat split.
    + split; [by repeat split|]. split; [discriminate|]. split; [discriminate|].
      intros _. by repeat split.
Qed.

Lemma page_load_witness :
  JS.nonempty (Cloud.pat (Cloud.getSettings (core blank_page))) = false
  /\ runsList (fst (DOMContentLoaded blank_page)) = [EmptyRuns "请先配置 GitHub PAT"]
  /\ Cloud.settingsContent_open (core (fst (DOMContentLoaded blank_page))) = true
  /\ JS.nonempty (Cloud.pat (Cloud.getSettings (core example_page))) = true
  /\ jobs (fst (DOMContentLoaded example_page)) = [RunsJob].
Proof.
  destruct (page_load blank_page) as (_ & _ & _ & Hb).
  destruct (page_load example_page) as (_ & He & _).
  specialize (Hb eq_refl). specialize (He eq_refl eq_refl).
  destruct Hb as (_ & _ & Hb). cbn in Hb. destruct Hb as (_ & Hl & Ho & _).
  destruct He as (_ & _ & Hj & _).
  split; [reflexivity|]. split; [exact Hl|]. split; [exact Ho|].
  split; [reflexivity|exact Hj].
Defined.

(** *** The settings header *)

Lemma toggle_twice c : arrow_ok c -> toggleSettings (toggleSettings c) = c.
Proof.
  unfold arrow_ok, toggleSettings. destruct c as [? ? ? ? ? ? ? o a ? ? ? ? ? ? ?]; simpl.
  intros ->. by destruct o.
Qed.

Lemma arrow_ok_frame c c' :
  Cloud.settingsContent_open c' = Cloud.settingsContent_open c ->
  Cloud.arrow c' = Cloud.arrow c -> arrow_ok c -> arrow_ok c'.
Proof. unfold arrow_ok. by intros -> ->. Qed.

Lemma arrow_frame_loadRuns p :
  Cloud.settingsContent_open (core (loadRuns p)) = Cloud.settingsContent_open (core p)
  /\ Cloud.arrow (core (loadRuns p)) = Cloud.arrow (core p).
Proof. rewrite loadRuns_spec; cbv zeta. by destruct (_ && _). Qed.

Lemma arrow_ok_loadRuns p : arrow_ok (core p) -> arrow_ok (core (loadRuns p)).
Proof. destruct (arrow_frame_loadRuns p) as [H1 H2]. by apply arrow_ok_frame. Qed.

Lemma arrow_ok_saveSettings p : arrow_ok (core p) -> arrow_ok (core (saveSettings p)).
Proof.
  intros H. rewrite core_saveSettings. unfold Cloud.saveSettings; cbv zeta.
  destruct (JS.nonempty (JS.trim (Cloud.repoInput (core p))));
    destruct (JS.nonempty (JS.trim (Cloud.patInput (core p)))); simpl;
    unfold Cloud.loadRuns; cbv zeta; try destruct (negb _ || negb _); exact H.
Qed.

Lemma triggerAction_resume_arrow r :
  Eff.keeps (fun c => (Cloud.settingsContent_open c, Cloud.arrow c))
    (Cloud.triggerAction_resume r).
Proof. unfold Cloud.triggerAction_resume. frame; reflexivity. Qed.

Lemma loadRuns_resume_core r :
  Eff.keeps (fun p => (Cloud.settingsContent_open (core p), Cloud.arrow (core p),
                       Cloud.requests (core p), jobs p, intervals p))
    (loadRuns_resume r).
Proof.
  unfold loadRuns_resume, add_run, status_class. frame; try reflexivity.
Qed.

Lemma arrow_ok_step p e p' :
  arrow_ok (core p) -> step p e = Some p' -> arrow_ok (core p').
Proof.
  intros Hok Hstep. destruct e; simpl in Hstep.
  - inversion Hstep; subst. unfold arrow_ok; simpl.
    by destruct (Cloud.settingsContent_open (core p)).
  - inversion Hstep; subst. by apply arrow_ok_saveSettings.
  - inversion Hstep; subst. by apply arrow_ok_saveSettings.
  - inversion Hstep; by subst.
  - inversion Hstep; by subst.
  - inversion Hstep; subst. by destruct clipboard.
  - destruct (disabled _); inversion Hstep; subst.
    unfold triggerAction, Cloud.triggerAction; cbv zeta.
    destruct (negb _ || negb _); simpl; [reflexivity|].
    by destruct (negb _).
  - destruct (jobs p !! i) as [[]|]; inversion Hstep; subst; simpl.
    + pose proof (triggerAction_resume_arrow r (core p)) as H.
      injection H as H1 H2. by apply (arrow_ok_frame (core p)).
    + pose proof (loadRuns_resume_core r (set_jobs (delete i (jobs p)) p)) as H.
      injection H as H1 H2 _ _ _. by apply (arrow_ok_frame (core p)).
  - destruct (Cloud.timeouts (core p) !! i) as [[d []]|]; inversion Hstep; subst.
    + exact Hok.
    + by apply arrow_ok_loadRuns.
  - destruct (intervals p !! i) as [[d []]|]; inversion Hstep; subst.
    unfold run_ticker, refresh. destruct (JS.nonempty _); [|exact Hok].
    by apply arrow_ok_loadRuns.
Qed.

(** The arrow of the settings header always tells whether the settings are
    open, provided it did on the page as it was served: whoever opens or
    closes them sets it.  A click on the header flips both, and two clicks
    leave the page as it was. *)
Theorem settings_arrow (p0 p : CloudPage.state) :
  arrow_ok (core p0) ->
  reachable p0 p ->
  arrow_ok (core p)
  /\ (exists p', step p ToggleSettings = Some p'
        /\ Cloud.settingsContent_open (core p')
           = negb (Cloud.settingsContent_open (core p))
        /\ step p' ToggleSettings = Some p).
Proof.
  intros H0 Hreach.
  assert (Hok : arrow_ok (core p)).
  { induction Hreach as [|p e p' _ IH Hstep].
    - unfold DOMContentLoaded, Eff.bind, Eff.exec, Eff.of_sum.
      set (p1 := setupEventListeners (lift Cloud.loadSettings p0)).
      assert (H1 : arrow_ok (core p1)) by exact H0.
      destruct (JS.nonempty _); cbn [fst]; [by apply arrow_ok_loadRuns|].
      by destruct (set_empty_runs _ _).
    - by apply (arrow_ok_step p e). }
  split; [exact Hok|].
  eexists. split; [reflexivity|]. split; [reflexivity|].
  simpl. unfold lift; simpl. rewrite (toggle_twice _ Hok). by destruct p.
Qed.

Lemma settings_arrow_witness :
  arrow_ok (core blank_page)
  /\ reachable blank_page (fst (DOMContentLoaded blank_page))
  /\ Cloud.settingsContent_open (core blank_page) = false
  /\ Cloud.settingsContent_open (core (fst (DOMContentLoaded blank_page))) = true
  /\ arrow_ok (core (fst (DOMContentLoaded blank_page))).
Proof.
  assert (H0 : arrow_ok (core blank_page)) by reflexivity.
  split; [exact H0|]. split; [apply reach_loaded|].
  split; [reflexivity|]. split; [vm_compute; reflexivity|].
  exact (proj1 (settings_arrow blank_page _ H0 (reach_loaded blank_page))).
Defined.
End CloudPanel.

(** ** Installing and activating a worker *)

Section WorkerLife.
Import SW.
#[local] Open Scope list_scope.

Lemma activate_filter w cs : activate w cs = List.filter (own w) cs.
Proof.
  unfold activate. rewrite delete_all. apply List.filter_ext_in.
  intros e He. unfold own. destruct (String.eqb (fst e) (CACHE_NAME w)) eqn:E.
  - apply String.eqb_eq in E. apply forallb_forall. intros k Hk.
    apply List.filter_In in Hk as [_ Hk].
    apply negb_true_iff, String.eqb_neq in Hk.
    apply negb_true_iff, String.eqb_neq. congruence.
  - destruct (forallb _ _) eqn:F; [|reflexivity]. exfalso.
    assert (Hin : In (fst e) (List.filter
      (fun k => negb (String.eqb k (CACHE_NAME w))) (keys cs))).
    { apply List.filter_In. split; [by apply List.in_map|by rewrite E]. }
    pose proof (proj1 (forallb_forall _ _) F _ Hin) as Hne.
    simpl in Hne. by rewrite String.eqb_refl in Hne.
Qed.

Lemma assoc_filter_own w (cs : storage) :
  assoc (CACHE_NAME w) (List.filter (own w) cs) = assoc (CACHE_NAME w) cs.
Proof.
  induction cs as [|[k c] cs IH]; [reflexivity|]. unfold own in *; simpl.
  destruct (String.eqb k (CACHE_NAME w)) eqn:E; simpl.
  - apply String.eqb_eq in E. subst k. by rewrite String.eqb_refl.
  - by rewrite (eqb_sym_false _ _ E).
Qed.

Lemma assoc_not_key {A} k (l : list (string * A)) :
  ~ In k (map fst l) -> assoc k l = None.
Proof.
  induction l as [|[k' a] l IH]; simpl; [done|]. intros H.
  destruct (String.eqb k k') eqn:E.
  - apply String.eqb_eq in E. subst k'. destruct H. by left.
  - apply IH. tauto.
Qed.

Lemma filter_own_NoDup w (cs : storage) :
  List.NoDup (keys cs) ->
  List.filter (own w) cs =
    match assoc (CACHE_NAME w) cs with Some c => [(CACHE_NAME w, c)] | None => [] end.
Proof.
  induction cs as [|[k c] cs IH]; [reflexivity|]. unfold own in *; simpl.
  intros Hnd. inversion Hnd as [|? ? Hk Hnd']; subst.
  destruct (String.eqb k (CACHE_NAME w)) eqn:E; simpl.
  - apply String.eqb_eq in E. subst k. rewrite String.eqb_refl. f_equal.
    apply filter_none. intros e He.
    destruct (String.eqb (fst e) (CACHE_NAME w)) eqn:E'; [|reflexivity].
    apply String.eqb_eq in E'. destruct Hk. rewrite <- E'. by apply List.in_map.
  - rewrite (eqb_sym_false _ _ E). by apply IH.
Qed.

Lemma caches_match_activate w cs url :
  List.NoDup (keys cs) ->
  caches_match url (activate w cs) =
    match assoc (CACHE_NAME w) cs with
    | Some c => cache_match url c
    | None => None
    end.
Proof.
  intros Hnd. rewrite activate_filter, (filter_own_NoDup w cs Hnd).
  destruct (assoc (CACHE_NAME w) cs) as [c|]; simpl; [|reflexivity].
  by destruct (cache_match url c).
Qed.

(** 'activate' leaves the worker's own cache, as it is, and nothing else:
    what another version stored under another name is gone, and a request
    can only be matched by the own cache from then on. *)
Theorem activate_keeps_own_cache_only (w : worker) (cs : storage) :
  Forall (fun k => k = CACHE_NAME w) (keys (activate w cs))
  /\ assoc (CACHE_NAME w) (activate w cs) = assoc (CACHE_NAME w) cs
  /\ (forall name, name <> CACHE_NAME w -> assoc name (activate w cs) = None)
  /\ (List.NoDup (keys cs) -> forall url,
        caches_match url (activate w cs) =
          match assoc (CACHE_NAME w) cs with
          | Some c => cache_match url c
          | None => None
          end).
Proof.
  split; [|split; [|split]]; [rewrite activate_filter ..|].
  - apply Forall_forall. intros k Hk. apply list_elem_of_In in Hk.
    unfold keys in Hk. apply List.in_map_iff in Hk as (e & <- & He).
    apply List.filter_In in He as [_ He]. by apply String.eqb_eq in He.
  - apply assoc_filter_own.
  - intros name Hne. apply assoc_not_key. intros Hin.
    apply List.in_map_iff in Hin as (e & <- & He).
    apply List.filter_In in He as [_ He]. by apply String.eqb_eq in He.
  - intros Hnd url. by apply caches_match_activate.
Qed.

Lemma activate_keeps_own_cache_only_witness :
  let w := docs_worker "https://user.github.io/xhs-publisher/" in
  let cs := [("xhs-publisher-v0", [("https://user.github.io/xhs-publisher/app.js", "old")]);
             (CACHE_NAME w, [("https://user.github.io/xhs-publisher/app.js", "new")])] in
  List.NoDup (keys cs)
  /\ caches_match "https://user.github.io/xhs-publisher/app.js" cs = Some "old"
  /\ caches_match "https://user.github.io/xhs-publisher/app.js" (activate w cs) = Some "new".
Proof.
  cbv zeta.
  assert (Hnd : List.NoDup (keys
            [("xhs-publisher-v0", [("https://user.github.io/xhs-publisher/app.js", "old")]);
             ("xhs-publisher-v1", [("https://user.github.io/xhs-publisher/app.js", "new")])])).
  { repeat constructor; simpl; [|tauto]. intros [H|[]]. discriminate. }
  split; [exact Hnd|]. split; [reflexivity|].
  exact (proj2 (proj2 (proj2 (activate_keeps_own_cache_only
    (docs_worker "https://user.github.io/xhs-publisher/") _))) Hnd
    "https://user.github.io/xhs-publisher/app.js").
Defined.

(** *** Install *)

Lemma fetch_all_total net urls :
  (forall u, In u urls -> is_Some (net u)) -> is_Some (fetch_all net urls).
Proof.
  induction urls as [|u urls IH]; simpl; intros H; [by eexists|].
  destruct (H u) as [r ->]; [by left|].
  destruct IH as [rs ->]; [intros; apply H; by right|]. by eexists.
Qed.

Lemma caches_match_app url cs1 cs2 :
  caches_match url (cs1 ++ cs2) =
    match caches_match url cs1 with Some r => Some r | None => caches_match url cs2 end.
Proof.
  induction cs1 as [|[n c] cs1 IH]; simpl; [reflexivity|].
  by destruct (cache_match url c).
Qed.

Lemma assoc_replace name c (cs : storage) k :
  assoc k (replace name c cs) =
    if String.eqb k name then (match assoc name cs with Some _ => Some c | None => None end)
    else assoc k cs.
Proof.
  induction cs as [|[n c'] cs IH]; simpl.
  - by destruct (String.eqb k name).
  - destruct (String.eqb n name) eqn:En; simpl.
    + apply String.eqb_eq in En. subst n.
      destruct (String.eqb k name) eqn:Ek.
      * apply String.eqb_eq in Ek. subst k. by rewrite String.eqb_refl.
      * reflexivity.
    + destruct (String.eqb k n) eqn:Ekn.
      * apply String.eqb_eq in Ekn. subst k. by rewrite En.
      * rewrite IH. destruct (String.eqb k name) eqn:Ek; [|reflexivity].
        apply String.eqb_eq in Ek. subst k. by rewrite (eqb_sym_false _ _ En).
Qed.

Lemma assoc_open name (cs : storage) k :
  assoc k (open name cs) =
    match assoc k cs with
    | Some c => Some c
    | None => if String.eqb k name then Some [] else None
    end.
Proof.
  unfold open. destruct (assoc name cs) as [c|] eqn:E.
  - destruct (assoc k cs) eqn:Ek; [reflexivity|].
    destruct (String.eqb k name) eqn:Ekn; [|reflexivity].
    apply String.eqb_eq in Ekn. subst k. congruence.
  - rewrite assoc_app; simpl. by destruct (assoc k cs).
Qed.

Lemma install_ok_covers w net cs u :
  snd (install w net cs) = true -> In u (URLS_TO_CACHE w) -> is_Some (net u).
Proof.
  unfold install, addAll.
  destruct (fetch_all net (URLS_TO_CACHE w)) as [rs|] eqn:Hrs; [|discriminate].
  intros _ Hu. apply (fetch_all_covers net (URLS_TO_CACHE w)); [by rewrite Hrs|done].
Qed.

Lemma install_ok_lookup w net cs u :
  snd (install w net cs) = true ->
  assoc u (default [] (assoc (CACHE_NAME w) (fst (install w net cs)))) =
    if bool_decide (u ∈ URLS_TO_CACHE w) then net u
    else assoc u (default [] (assoc (CACHE_NAME w) cs)).
Proof.
  unfold install, addAll.
  destruct (fetch_all net (URLS_TO_CACHE w)) as [rs|] eqn:Hrs; [|discriminate].
  destruct (fetch_all_sound _ _ _ Hrs) as [Hk Hall]. intros _. cbn [fst].
  rewrite assoc_replace, String.eqb_refl, !assoc_open, String.eqb_refl.
  destruct (assoc (CACHE_NAME w) cs) as [c|]; simpl;
    by rewrite (assoc_put_all net rs _ u Hall), Hk.
Qed.

(** 'install' stores all of the manifest or nothing.  It succeeds exactly
    when every manifest URL could be fetched; the own cache then answers
    each manifest URL with what the network gave now, also where an earlier
    version had stored something else under the same cache name, and keeps
    its other entries.  When one URL fails, no cache answers differently
    from before.  Caches of other names are not touched either way. *)
Theorem install_all_or_nothing (w : worker) (net : network) (cs : storage) :
  let r := install w net cs in
  let before := default [] (assoc (CACHE_NAME w) cs) in
  let after := default [] (assoc (CACHE_NAME w) (fst r)) in
  (snd r = true <-> forall u, In u (URLS_TO_CACHE w) -> is_Some (net u))
  /\ (snd r = true -> forall u,
        assoc u after = if bool_decide (u ∈ URLS_TO_CACHE w) then net u
                        else assoc u before)
  /\ (snd r = false -> after = before
        /\ forall url, caches_match url (fst r) = caches_match url cs)
  /\ (forall name, name <> CACHE_NAME w -> assoc name (fst r) = assoc name cs).
Proof.
  cbv zeta.
  split; [|split; [intros Hok u; by apply install_ok_lookup|]].
  { split; [intros Hok u Hu; by apply (install_ok_covers w net cs)|].
    intros Hall. unfold install, addAll.
    by destruct (fetch_all_total net _ Hall) as [rs ->]. }
  unfold install, addAll.
  set (name := CACHE_NAME w).
  destruct (fetch_all net (URLS_TO_CACHE w)) as [rs|] eqn:Hrs; cbn [fst snd].
  - split.
    + discriminate.
    + intros k Hk'. apply String.eqb_neq in Hk'.
      rewrite assoc_replace, Hk', assoc_open, Hk'. by destruct (assoc k cs).
  - split.
    + intros _. split.
      * rewrite assoc_open, String.eqb_refl. by destruct (assoc name cs).
      * intros url. unfold open. destruct (assoc name cs); [reflexivity|].
        rewrite caches_match_app; simpl. by destruct (caches_match url cs).
    + intros k Hk'. rewrite assoc_open.
      apply String.eqb_neq in Hk'. rewrite Hk'. by destruct (assoc k cs).
Qed.

Lemma install_all_or_nothing_witness :
  let w := api_worker "https://panel.example" in
  let stale := [(CACHE_NAME w, [("https://panel.example/static/app.js", "old")])] in
  let down : network :=
    fun u => if String.eqb u "https://panel.example/static/style.css" then None
             else example_net u in
  snd (install w example_net stale) = true
  /\ assoc "https://panel.example/static/app.js"
       (default [] (assoc (CACHE_NAME w) (fst (install w example_net stale))))
     = Some "copy of https://panel.example/static/app.js"
  /\ snd (install w down stale) = false
  /\ default [] (assoc (CACHE_NAME w) (fst (install w down stale)))
     = [("https://panel.example/static/app.js", "old")].
Proof.
  cbv zeta.
  set (w := api_worker "https://panel.example").
  set (stale := [(CACHE_NAME w, [("https://panel.example/static/app.js", "old")])]).
  set (down := fun u => if String.eqb u "https://panel.example/static/style.css"
                        then None else example_net u).
  assert (Hup : snd (install w example_net stale) = true) by reflexivity.
  assert (Hdown : snd (install w down stale) = false) by reflexivity.
  destruct (install_all_or_nothing w example_net stale) as (_ & Hyes & _).
  destruct (install_all_or_nothing w down stale) as (_ & _ & Hno & _).
  split; [exact Hup|]. split; [exact (Hyes Hup "https://panel.example/static/app.js")|].
  split; [exact Hdown|]. exact (proj1 (Hno Hdown)).
Defined.

Lemma keys_replace name c (cs : storage) : keys (replace name c cs) = keys cs.
Proof.
  induction cs as [|[n c'] cs IH]; [reflexivity|]. simpl.
  destruct (String.eqb n name); simpl; [reflexivity|]. by rewrite IH.
Qed.

Lemma assoc_None_not_key {A} k (l : list (string * A)) :
  assoc k l = None -> ~ In k (map fst l).
Proof.
  induction l as [|[k' a] l IH]; simpl; [tauto|].
  destruct (String.eqb k k') eqn:E; [discriminate|].
  apply String.eqb_neq in E. intros H [Hk|Hin]; [congruence|by apply IH].
Qed.

Lemma NoDup_install w net cs :
  List.NoDup (keys cs) -> List.NoDup (keys (fst (install w net cs))).
Proof.
  intros Hnd. unfold install.
  assert (Hopen : List.NoDup (keys (open (CACHE_NAME w) cs))).
  { unfold open. destruct (assoc (CACHE_NAME w) cs) eqn:E; [exact Hnd|].
    unfold keys. rewrite map_app. simpl.
    apply List.NoDup_app; [exact Hnd|repeat constructor; tauto|].
    intros k Hk [<-|[]]. by apply (assoc_None_not_key _ _ E). }
  destruct (addAll _ _ _); simpl; [by rewrite keys_replace|exact Hopen].
Qed.

(** A new version of a worker that is installed and activated over the
    storage an older version left, whatever that holds, serves every
    manifest URL from its cache with the response fetched at this install. *)
Theorem update_serves_fresh_copies (base : string) (w : worker) (old : storage)
    (net : network) (st : sw) (u : string) (down : option response) :
  w = api_worker base \/ w = docs_worker base ->
  static_manifest w = true ->
  List.NoDup (keys old) ->
  run w {| status := Parsed; caches := old |} [Install net; Activate] = Some st ->
  In u (URLS_TO_CACHE w) ->
  exists r, net u = Some r
    /\ fetch_listener w u down (caches st) = (RespondWith (FromCache r), caches st).
Proof.
  intros _ Hstatic Hnd Hrun Hu. simpl in Hrun.
  pose proof (install_ok_covers w net old u) as Hcov.
  pose proof (install_ok_lookup w net old u) as Hlook.
  pose proof (NoDup_install w net old Hnd) as Hnd'.
  destruct (install w net old) as [cs ok].
  destruct ok; simpl in Hrun; [|discriminate]. inversion Hrun; subst st.
  cbn [fst snd caches] in *.
  destruct (Hcov eq_refl Hu) as [r Hr]. exists r. split; [exact Hr|].
  pose proof (proj1 (forallb_forall _ _) Hstatic u Hu) as Hman.
  apply andb_true_iff in Hman as [[Hby _]%andb_true_iff Hfrag].
  apply negb_true_iff in Hby. apply String.eqb_eq in Hfrag.
  unfold fetch_listener. rewrite Hby.
  rewrite (caches_match_activate w cs u Hnd').
  specialize (Hlook eq_refl).
  rewrite bool_decide_eq_true_2 in Hlook by (by apply list_elem_of_In).
  destruct (assoc (CACHE_NAME w) cs) as [c|] eqn:Hc; simpl in Hlook.
  - unfold cache_match. by rewrite Hfrag, Hlook, Hr.
  - rewrite Hr in Hlook. discriminate.
Qed.

Lemma update_serves_fresh_copies_witness :
  let w := docs_worker "https://user.github.io/xhs-publisher/" in
  let old := [("other", []);
              (CACHE_NAME w, [("https://user.github.io/xhs-publisher/app.js", "old")])] in
  let st := {| status := Activated;
               caches := activate w (fst (install w example_net old)) |} in
  static_manifest w = true
  /\ List.NoDup (keys old)
  /\ run w {| status := Parsed; caches := old |} [Install example_net; Activate] = Some st
  /\ exists r, example_net "https://user.github.io/xhs-publisher/app.js" = Some r
       /\ fetch_listener w "https://user.github.io/xhs-publisher/app.js" None (caches st)
          = (RespondWith (FromCache r), caches st).
Proof.
  cbv zeta.
  assert (Hnd : List.NoDup (keys
            [("other", []);
             ("xhs-publisher-v1", [("https://user.github.io/xhs-publisher/app.js", "old")])])).
  { repeat constructor; simpl; [|tauto]. intros [H|[]]. discriminate. }
  split; [reflexivity|]. split; [exact Hnd|].
  assert (Hrun : run (docs_worker "https://user.github.io/xhs-publisher/")
            {| status := Parsed;
               caches := [("other", []);
                          ("xhs-publisher-v1",
                           [("https://user.github.io/xhs-publisher/app.js", "old")])] |}
            [Install example_net; Activate]
          = Some {| status := Activated;
                    caches := activate (docs_worker "https://user.github.io/xhs-publisher/")
                      (fst (install (docs_worker "https://user.github.io/xhs-publisher/")
                              example_net
                              [("other", []);
                               ("xhs-publisher-v1",
                                [("https://user.github.io/xhs-publisher/app.js", "old")])])) |})
    by (vm_compute; reflexivity).
  split; [exact Hrun|].
  exact (update_serves_fresh_copies "https://user.github.io/xhs-publisher/"
    (docs_worker "https://user.github.io/xhs-publisher/") _ example_net _
    "https://user.github.io/xhs-publisher/app.js" None
    (or_intror eq_refl) eq_refl Hnd Hrun ltac:(vm_compute; tauto)).
Defined.
End WorkerLife.

(** ** The cloud panel: requests and the run list *)

Section CloudRuns.
Import CloudPage.
#[local] Open Scope list_scope.

(** *** Requests *)

Lemma all_github_frame p p' :
  Cloud.requests (core p') = Cloud.requests (core p) -> all_github p -> all_github p'.
Proof. unfold all_github. by intros ->. Qed.

Lemma all_github_loadRuns p : all_github p -> all_github (loadRuns p).
Proof.
  intros H. rewrite loadRuns_spec; cbv zeta.
  destruct (JS.nonempty (Cloud.repo (Cloud.getSettings (core p)))) eqn:Hr; [|exact H].
  destruct (JS.nonempty (Cloud.pat (Cloud.getSettings (core p)))) eqn:Hp; [|exact H].
  unfold all_github; simpl. apply Forall_app. split; [exact H|].
  repeat constructor. eexists _, _. split; [exact Hr|]. split; [exact Hp|].
  split; [reflexivity|]. left. by repeat split.
Qed.

Lemma all_github_saveSettings p : all_github p -> all_github (saveSettings p).
Proof.
  intros H. unfold saveSettings; cbv zeta.
  destruct (JS.nonempty (JS.trim (Cloud.repoInput (core p))));
    destruct (JS.nonempty (JS.trim (Cloud.patInput (core p)))); simpl;
    try apply all_github_loadRuns; exact H.
Qed.

Lemma triggerAction_spec p :
  triggerAction p =
    let st := Cloud.getSettings (core p) in
    let url := JS.trim (Cloud.urlInput (core p)) in
    let busy := Cloud.set_btnTrigger {| disabled := true; innerHTML := "🚀 发送指令..." |} in
    if JS.nonempty (Cloud.repo st) && JS.nonempty (Cloud.pat st) then
      if JS.nonempty url then
        set_jobs (jobs p ++ [TriggerJob])
          (lift (fun c => Cloud.fetch
                   (Cloud.dispatch_request (Cloud.repo st) (Cloud.pat st) url (busy c))
                   (busy c)) p)
      else lift (Cloud.showToast Cloud.url_notice) p
    else lift (fun c => Cloud.showSettings (Cloud.showToast Cloud.settings_notice c)) p.
Proof.
  unfold triggerAction, Cloud.triggerAction, lift; cbv zeta.
  destruct (JS.nonempty (Cloud.repo (Cloud.getSettings (core p))));
    destruct (JS.nonempty (Cloud.pat (Cloud.getSettings (core p))));
    try reflexivity.
  destruct (JS.nonempty (JS.trim (Cloud.urlInput (core p)))); reflexivity.
Qed.

Lemma all_github_triggerAction p : all_github p -> all_github (triggerAction p).
Proof.
  intros H. rewrite triggerAction_spec; cbv zeta.
  destruct (JS.nonempty (Cloud.repo (Cloud.getSettings (core p)))) eqn:Hr; [|exact H].
  destruct (JS.nonempty (Cloud.pat (Cloud.getSettings (core p)))) eqn:Hp; [|exact H].
  destruct (JS.nonempty (JS.trim (Cloud.urlInput (core p)))) eqn:Hu; [|exact H].
  unfold all_github; simpl. apply Forall_app. split; [exact H|].
  repeat constructor. eexists _, _. split; [exact Hr|]. split; [exact Hp|].
  split; [reflexivity|]. right. split; [reflexivity|]. split; [reflexivity|].
  by eexists.
Qed.

Lemma triggerAction_resume_requests r :
  Eff.keeps Cloud.requests (Cloud.triggerAction_resume r).
Proof. unfold Cloud.triggerAction_resume. frame; reflexivity. Qed.

Lemma all_github_step p e p' : all_github p -> step p e = Some p' -> all_github p'.
Proof.
  intros Hok Hstep. destruct e; simpl in Hstep.
  - inversion Hstep; by subst.
  - inversion Hstep; subst. by apply all_github_saveSettings.
  - inversion Hstep; subst. by apply all_github_saveSettings.
  - inversion Hstep; by subst.
  - inversion Hstep; by subst.
  - inversion Hstep; subst. by destruct clipboard.
  - destruct (disabled _); inversion Hstep; subst. by apply all_github_triggerAction.
  - destruct (jobs p !! i) as [[]|]; inversion Hstep; subst; simpl.
    + apply (all_github_frame p); [|done]. simpl.
      apply triggerAction_resume_requests.
    + apply (all_github_frame p); [|done].
      pose proof (loadRuns_resume_core r (set_jobs (delete i (jobs p)) p)) as H.
      by injection H as _ _ H _ _.
  - destruct (Cloud.timeouts (core p) !! i) as [[d []]|]; inversion Hstep; subst.
    + exact Hok.
    + by apply all_github_loadRuns.
  - destruct (intervals p !! i) as [[d []]|]; inversion Hstep; subst.
    unfold run_ticker, refresh. destruct (JS.nonempty _); [|exact Hok].
    by apply all_github_loadRuns.
Qed.

Lemma all_github_reachable p0 p : pristine p0 -> reachable p0 p -> all_github p.
Proof.
  intros (Hreq & _) Hreach. induction Hreach as [|p e p' _ IH Hstep].
  - unfold DOMContentLoaded, Eff.bind, Eff.exec, Eff.of_sum.
    set (p1 := setupEventListeners (lift Cloud.loadSettings p0)).
    assert (H1 : all_github p1) by (unfold all_github; simpl; rewrite Hreq; constructor).
    destruct (JS.nonempty _); cbn [fst]; [by apply all_github_loadRuns|].
    by destruct (set_empty_runs _ _).
  - by apply (all_github_step p e).
Qed.

(** Whatever the user does on a page that was served with nothing pending,
    the page only ever asks api.github.com for the run list of a repository
    or for a dispatch to it, the name of the repository and the token both
    non-empty and the token in the Authorization header; the service worker
    of the page lets every such request pass untouched. *)
Theorem github_requests_only (p0 p : CloudPage.state) (dir : string) (rq : request)
    (net : option SW.response) (cs : SW.storage) :
  pristine p0 ->
  reachable p0 p ->
  In rq (Cloud.requests (core p)) ->
  github_request rq
  /\ SW.fetch_listener (SW.docs_worker dir) (req_url rq) net cs = (SW.NotIntercepted, cs).
Proof.
  intros Hp0 Hreach Hin.
  pose proof (all_github_reachable p0 p Hp0 Hreach) as Hall.
  unfold all_github in Hall. rewrite Forall_forall in Hall.
  specialize (Hall rq (proj2 (list_elem_of_In _ _) Hin)).
  split; [exact Hall|].
  assert (Hby : forall repo rest,
            SW.bypass (SW.docs_worker dir)
              ("https://api.github.com/repos/" ++ repo ++ rest)%string = true).
  { intros repo rest.
    change (SW.includes "api.github.com"
              ("https://" ++ ("api.github.com/repos/" ++ repo ++ rest))%string = true).
    by apply includes_behind. }
  destruct Hall as (repo & pat & _ & _ & _ & [(_ & Hurl & _)|(_ & Hurl & _)]);
    unfold SW.fetch_listener; by rewrite Hurl, Hby.
Qed.

Lemma github_requests_only_witness :
  let p := fst (DOMContentLoaded example_page) in
  pristine example_page
  /\ reachable example_page p
  /\ Cloud.requests (core p) = [runs_request "owner/repo" "ghp_token"]
  /\ SW.fetch_listener (SW.docs_worker "https://user.github.io/xhs-publisher/")
       "https://api.github.com/repos/owner/repo/actions/runs?per_page=5" None []
     = (SW.NotIntercepted, []).
Proof.
  cbv zeta.
  assert (Hp : pristine example_page) by (by repeat split).
  assert (Hreq : Cloud.requests (core (fst (DOMContentLoaded example_page)))
                 = [runs_request "owner/repo" "ghp_token"]) by (vm_compute; reflexivity).
  split; [exact Hp|]. split; [apply reach_loaded|]. split; [exact Hreq|].
  exact (proj2 (github_requests_only example_page _
    "https://user.github.io/xhs-publisher/" (runs_request "owner/repo" "ghp_token")
    None [] Hp (reach_loaded example_page) ltac:(rewrite Hreq; by left))).
Defined.

(** *** The run list *)

Lemma get_field run k :
  match run with JS.Undefined | JS.Null => False | _ => True end ->
  JS.get run k = inr (field run k).
Proof. unfold field. by destruct run. Qed.

Lemma status_class_spec run p :
  match run with JS.Undefined | JS.Null => False | _ => True end ->
  status_class run p = (p, inr (class_of run)).
Proof.
  intros Hrun. unfold status_class, class_of, Eff.bind, Eff.of_sum, Eff.ret.
  rewrite !(get_field _ _ Hrun).
  destruct (JS.is_str (field run "status") "completed").
  - by destruct (JS.is_str (field run "conclusion") "success").
  - by destruct (JS.is_str (field run "status") "in_progress").
Qed.

Lemma add_run_spec run p :
  add_run run p =
    if renders run
    then (set_runsList (runsList p ++ [RunItem (item_of run)]) p, inr tt)
    else (p, inl JS.TypeError).
Proof.
  assert (Hnull : (match run with JS.Undefined | JS.Null => False | _ => True end)
                  \/ (JS.get run "status" = inl JS.TypeError /\ renders run = false))
    by (destruct run; simpl; tauto).
  destruct Hnull as [Hrun|[Hget Hno]].
  2:{ rewrite Hno. unfold add_run, status_class, Eff.bind, Eff.of_sum. by rewrite Hget. }
  unfold add_run. unfold Eff.bind at 1. rewrite (status_class_spec _ _ Hrun).
  unfold Eff.bind, Eff.of_sum, Eff.exec, JS.printable.
  rewrite !(get_field _ _ Hrun).
  assert (Hr : renders run =
    negb (JS.unprintable (field run "created_at"))
    && (negb (JS.unprintable (field run "name"))
    && (negb (JS.unprintable (field run "run_number"))
    && (negb (JS.unprintable (field run "status"))
    && (negb (JS.unprintable (field run "html_url")) && true)))))
    by (by destruct run).
  rewrite Hr.
  destruct (JS.unprintable (field run "created_at")); [reflexivity|].
  destruct (JS.unprintable (field run "name")); [reflexivity|].
  destruct (JS.unprintable (field run "run_number")); [reflexivity|].
  destruct (JS.unprintable (field run "status")); [reflexivity|].
  destruct (JS.unprintable (field run "html_url")); reflexivity.
Qed.

Lemma set_runsList_id p : set_runsList (runsList p) p = p.
Proof. by destruct p. Qed.

Lemma forEach_add_run runs : forall i p,
  Eff.forEach (fun _ run => add_run run) i runs p =
    (set_runsList (runsList p ++ map (fun run => RunItem (item_of run)) (while_renders runs)) p,
     if forallb renders runs then inr tt else inl JS.TypeError).
Proof.
  induction runs as [|run runs IH]; intros i p; simpl.
  - unfold Eff.ret. by rewrite app_nil_r, set_runsList_id.
  - unfold Eff.bind. rewrite add_run_spec. destruct (renders run); simpl.
    + rewrite IH. simpl. by rewrite <- app_assoc.
    + by rewrite app_nil_r, set_runsList_id.
Qed.

Lemma is_str_eq v lit : JS.is_str v lit = true <-> v = JS.Str lit.
Proof.
  destruct v; simpl; try (split; [discriminate|congruence]).
  rewrite String.eqb_eq. split; [by intros ->|congruence].
Qed.

(** What a response with status 200-299 and the array [workflow_runs] puts
    into the run list.  Without runs: the placeholder.  With runs: one item
    for each run, in order, in place of what the list held; at the first run
    that is null or holds a value that cannot be shown, rendering stops, the
    items before it stay and the error goes to the console.  The dot of an
    item is green only for a completed run that concluded with success, red
    for every other completed run, "in progress" for a run in progress and
    "queued" for any other status. *)
Theorem run_list_rendering (p : CloudPage.state) (status : Z) (data : JS.value)
    (runs : list JS.value) :
  resp_ok status = true ->
  JS.get data "workflow_runs" = inr (JS.Arr runs) ->
  let p' := fst (loadRuns_resume (Response status (Some data)) p) in
  (runs = [] -> p' = set_runsList [EmptyRuns "暂无运行记录"] p)
  /\ (runs <> [] ->
        runsList p' = map (fun run => RunItem (item_of run)) (while_renders runs)
        /\ set_runsList (runsList p) p'
           = (if forallb renders runs then p
              else lift (console_error JS.TypeError) p))
  /\ (forall run,
        let status := field run "status" in
        let conclusion := field run "conclusion" in
        (status = JS.Str "completed" -> conclusion = JS.Str "success" ->
           statusClass (item_of run) = "status-success")
        /\ (status = JS.Str "completed" -> conclusion <> JS.Str "success" ->
              statusClass (item_of run) = "status-failure")
        /\ (status = JS.Str "in_progress" ->
              statusClass (item_of run) = "status-in_progress")
        /\ (status <> JS.Str "completed" -> status <> JS.Str "in_progress" ->
              statusClass (item_of run) = "status-queued")).
Proof.
  intros Hok Hruns p'.
  assert (E : loadRuns_resume (Response status (Some data)) p =
    match runs with
    | [] => (set_runsList [EmptyRuns "暂无运行记录"] p, inr tt)
    | _ :: _ =>
        if forallb renders runs
        then (set_runsList (map (fun run => RunItem (item_of run)) (while_renders runs)) p,
              inr tt)
        else (lift (console_error JS.TypeError)
                (set_runsList (map (fun run => RunItem (item_of run)) (while_renders runs)) p),
              inr tt)
    end).
  { unfold loadRuns_resume, Eff.try_catch. rewrite Hok. cbn [negb].
    unfold Eff.bind at 1. unfold Eff.of_sum at 1. cbn [from_option].
    unfold Eff.bind at 1. unfold Eff.exec at 1.
    unfold Eff.bind at 1. unfold Eff.of_sum at 1. rewrite Hruns.
    unfold Eff.bind at 1. unfold Eff.of_sum at 1. cbn [length_is_zero].
    destruct runs as [|run runs]; [reflexivity|].
    unfold Eff.bind at 1. unfold Eff.of_sum at 1. cbn [Backend.as_array].
    rewrite forEach_add_run. cbn [runsList set_runsList app].
    by destruct (forallb renders (run :: runs)). }
  subst p'. rewrite E. split; [by intros ->|]. split.
  - intros Hne. destruct runs as [|run runs]; [done|].
    destruct (forallb renders (run :: runs)); cbn [fst]; split; try reflexivity;
      by destruct p.
  - intros run. cbv zeta. unfold item_of, class_of; cbn [statusClass].
    split; [|split; [|split]].
    + by intros -> ->.
    + intros -> Hc. cbn. destruct (JS.is_str (field run "conclusion") "success") eqn:E';
        [|reflexivity]. by apply is_str_eq in E'.
    + by intros ->.
    + intros H1 H2.
      destruct (JS.is_str (field run "status") "completed") eqn:E1;
        [by apply is_str_eq in E1|].
      destruct (JS.is_str (field run "status") "in_progress") eqn:E2;
        [by apply is_str_eq in E2|reflexivity].
Qed.

Lemma run_list_rendering_witness :
  let p' := fst (loadRuns_resume (Response 200 (Some example_runs)) example_page) in
  resp_ok 200 = true
  /\ map (fun n => match n with RunItem i => statusClass i | EmptyRuns _ => EmptyString end)
       (runsList p')
     = ["status-in_progress"; "status-success"].
Proof.
  cbv zeta. split; [reflexivity|].
  destruct (run_list_rendering example_page 200 example_runs _ eq_refl eq_refl)
    as (_ & H & _).
  rewrite (proj1 (H ltac:(discriminate))). reflexivity.
Defined.

(** When the request for the run list fails, is answered with a status
    outside 200-299 or with a body that is not JSON, the list stays as it
    is; only a failed request or a bad body is logged.  A JSON body without
    [workflow_runs] leaves the list empty. *)
Theorem run_list_kept_on_failure (p : CloudPage.state) (status : Z)
    (body : option JS.value) (data : JS.value) :
  loadRuns_resume Rejected p = (lift (console_error JS.NetworkError) p, inr tt)
  /\ (resp_ok status = false -> loadRuns_resume (Response status body) p = (p, inr tt))
  /\ (resp_ok status = true ->
        loadRuns_resume (Response status None) p
        = (lift (console_error JS.SyntaxError) p, inr tt)
        /\ (JS.get data "workflow_runs" = inr JS.Undefined ->
              loadRuns_resume (Response status (Some data)) p
              = (lift (console_error JS.TypeError) (set_runsList [] p), inr tt))).
Proof.
  split; [reflexivity|]. split.
  - intros Hno. unfold loadRuns_resume, Eff.try_catch. by rewrite Hno.
  - intros Hok. split.
    + unfold loadRuns_resume, Eff.try_catch. by rewrite Hok.
    + intros Hruns. unfold loadRuns_resume, Eff.try_catch. rewrite Hok. cbn [negb].
      unfold Eff.bind at 1. unfold Eff.of_sum at 1. cbn [from_option].
      unfold Eff.bind at 1. unfold Eff.exec at 1.
      unfold Eff.bind at 1. unfold Eff.of_sum at 1. rewrite Hruns.
      reflexivity.
Qed.

Lemma run_list_kept_on_failure_witness :
  let shown := fst (loadRuns_resume (Response 200 (Some example_runs)) example_page) in
  resp_ok 401 = false
  /\ length (runsList shown) = 2%nat
  /\ loadRuns_resume (Response 401 (Some (JS.Obj [("message", JS.Str "Bad credentials")])))
       shown = (shown, inr tt).
Proof.
  cbv zeta. split; [reflexivity|]. split; [vm_compute; reflexivity|].
  exact (proj1 (proj2 (run_list_kept_on_failure _ 401
    (Some (JS.Obj [("message", JS.Str "Bad credentials")])) JS.Null)) eq_refl).
Defined.
End CloudRuns.

(** ** The cloud panel: a dispatch and what follows *)

Section Dispatch.
Import CloudPage.
#[local] Open Scope list_scope.

Lemma triggerAction_resume_ok status body c :
  resp_ok status = true ->
  Cloud.triggerAction_resume (Response status body) c =
    (Cloud.set_btnTrigger {| disabled := false; innerHTML := Cloud.trigger_label |}
       (Cloud.set_timeouts
          (Cloud.timeouts c ++ [(3000%Z, Cloud.HideToast); (3000%Z, Cloud.LoadRuns)])
          (Cloud.set_statusMsg "✅ 指令已发送，请等待下方列表刷新..."
             (Cloud.showToast "✅ 指令已发送！Actions 即将开始" c))), inr tt).
Proof.
  intros Hok. unfold Cloud.triggerAction_resume, Eff.finally, Eff.try_catch.
  rewrite Hok. unfold Eff.bind, Eff.exec; simpl. by rewrite <- app_assoc.
Qed.

Lemma triggerAction_resume_refused status err m c :
  resp_ok status = false ->
  JS.get err "message" = inr m -> JS.unprintable m = false ->
  Cloud.triggerAction_resume (Response status (Some err)) c =
    (Cloud.set_btnTrigger {| disabled := false; innerHTML := Cloud.trigger_label |}
       (Cloud.set_statusMsg (JS.Tpl [JS.Lit "❌ 错误: "; JS.Sub m])
          (Cloud.showToast
             (JS.Tpl [JS.Lit "❌ 发送失败: "; JS.Sub (JS.or m (JS.Num status))]) c)),
     inr tt).
Proof.
  intros Hno Hm Hp. unfold Cloud.triggerAction_resume, Eff.finally, Eff.try_catch.
  rewrite Hno. unfold Eff.bind, Eff.of_sum, Eff.exec, JS.template; simpl.
  rewrite Hm; simpl.
  assert (Hu : JS.unprintable (JS.or m (JS.Num status)) = false)
    by (unfold JS.or; by destruct (JS.truthy m)).
  by rewrite Hu, Hp.
Qed.

(** How a dispatch ends.  On a status 200-299 the body is not read: the
    notice and the status line say the order was sent, and a refresh of the
    run list is scheduled 3000 ms later.  On any other status with a JSON
    body, the notice shows the [message] of the body, or the status when
    there is none, and the status line shows [message] as it converts to a
    string, "undefined" when there is none; no refresh is scheduled.  When
    the request fails or the body of an error is not JSON, the notice speaks
    of a network error, the status line stays and the error is logged. *)
Theorem dispatch_outcome (c : Cloud.state) (status : Z) (body : option JS.value)
    (err m : JS.value) :
  let after r := fst (Cloud.triggerAction_resume r c) in
  (resp_ok status = true ->
     Cloud.toast (after (Response status body)) = JS.lit "✅ 指令已发送！Actions 即将开始"
     /\ Cloud.statusMsg (after (Response status body))
        = JS.lit "✅ 指令已发送，请等待下方列表刷新..."
     /\ Cloud.timeouts (after (Response status body))
        = Cloud.timeouts c ++ [(3000%Z, Cloud.HideToast); (3000%Z, Cloud.LoadRuns)]
     /\ Cloud.console (after (Response status body)) = Cloud.console c)
  /\ (resp_ok status = false ->
      JS.get err "message" = inr m -> JS.unprintable m = false ->
        JS.render (Cloud.toast (after (Response status (Some err))))
        = Some ("❌ 发送失败: " ++ (if JS.truthy m then JS.to_string m else pretty status))%string
        /\ JS.render (Cloud.statusMsg (after (Response status (Some err))))
           = Some ("❌ 错误: " ++ JS.to_string m)%string
        /\ Cloud.timeouts (after (Response status (Some err)))
           = Cloud.timeouts c ++ [(3000%Z, Cloud.HideToast)]
        /\ Cloud.console (after (Response status (Some err))) = Cloud.console c)
  /\ (resp_ok status = false ->
        Cloud.toast (after (Response status None)) = JS.lit "❌ 网络错误"
        /\ Cloud.statusMsg (after (Response status None)) = Cloud.statusMsg c
        /\ Cloud.console (after (Response status None))
           = Cloud.console c ++ [JS.SyntaxError])
  /\ (Cloud.toast (after Rejected) = JS.lit "❌ 网络错误"
      /\ Cloud.statusMsg (after Rejected) = Cloud.statusMsg c
      /\ Cloud.console (after Rejected) = Cloud.console c ++ [JS.NetworkError]).
Proof.
  cbv zeta. split; [|split; [|split]].
  - intros Hok. rewrite (triggerAction_resume_ok _ _ _ Hok). by repeat split.
  - intros Hno Hm Hp. rewrite (triggerAction_resume_refused _ _ _ _ Hno Hm Hp).
    cbn [fst]. split; [|split; [|by split]].
    + unfold JS.or. destruct (JS.truthy m); simpl; by rewrite append_empty.
    + simpl. by rewrite append_empty.
  - intros Hno. unfold Cloud.triggerAction_resume, Eff.finally, Eff.try_catch.
    rewrite Hno. by repeat split.
  - by repeat split.
Qed.

Lemma dispatch_outcome_witness :
  let c := Cloud.example_state in
  let missing := JS.Obj [("documentation_url", JS.Str "https://docs.github.com")] in
  resp_ok 404 = false
  /\ JS.get missing "message" = inr JS.Undefined
  /\ JS.render (Cloud.toast (fst (Cloud.triggerAction_resume (Response 404 (Some missing)) c)))
     = Some "❌ 发送失败: 404"
  /\ JS.render (Cloud.statusMsg
       (fst (Cloud.triggerAction_resume (Response 404 (Some missing)) c)))
     = Some "❌ 错误: undefined".
Proof.
  cbv zeta. split; [reflexivity|]. split; [reflexivity|].
  destruct (dispatch_outcome Cloud.example_state 404 None
    (JS.Obj [("documentation_url", JS.Str "https://docs.github.com")]) JS.Undefined)
    as (_ & H & _).
  destruct (H eq_refl eq_refl eq_refl) as (H1 & H2 & _).
  split; [exact H1|exact H2].
Defined.

(** A dispatch that is accepted brings the run list up to date by itself:
    from the click on the trigger button, through the accepted request, to
    the timer the handler started, the page ends up having asked for the
    runs of the repository, with the button ready again. *)
Theorem dispatch_then_refresh (p : CloudPage.state) (status : Z)
    (body : option JS.value) :
  let st := Cloud.getSettings (core p) in
  let url := JS.trim (Cloud.urlInput (core p)) in
  disabled (Cloud.btnTrigger (core p)) = false ->
  JS.nonempty (Cloud.repo st) && JS.nonempty (Cloud.pat st) = true ->
  JS.nonempty url = true ->
  resp_ok status = true ->
  exists p1 p2 p3 rq,
    step p ClickTrigger = Some p1
    /\ step p1 (Settle (length (jobs p)) (Response status body)) = Some p2
    /\ step p2 (FireTimeout (S (length (Cloud.timeouts (core p))))) = Some p3
    /\ req_url rq = ("https://api.github.com/repos/" ++ Cloud.repo st ++ "/dispatches")%string
    /\ Cloud.requests (core p3)
       = Cloud.requests (core p) ++ [rq; runs_request (Cloud.repo st) (Cloud.pat st)]
    /\ jobs p3 = jobs p ++ [RunsJob]
    /\ Cloud.btnTrigger (core p3)
       = {| disabled := false; innerHTML := Cloud.trigger_label |}.
Proof.
  cbv zeta. intros Hbtn Hset Hurl Hok.
  set (st := Cloud.getSettings (core p)) in *.
  set (busy := Cloud.set_btnTrigger {| disabled := true; innerHTML := "🚀 发送指令..." |}).
  set (rq := Cloud.dispatch_request (Cloud.repo st) (Cloud.pat st)
               (JS.trim (Cloud.urlInput (core p))) (busy (core p))).
  set (p1 := triggerAction p).
  assert (E1 : p1 = set_jobs (jobs p ++ [TriggerJob])
                      (lift (fun c => Cloud.fetch rq (busy c)) p)).
  { subst p1. rewrite triggerAction_spec; cbv zeta. fold st. by rewrite Hset, Hurl. }
  assert (Hstep1 : step p ClickTrigger = Some p1) by (simpl; by rewrite Hbtn).
  clearbody p1.
  set (c1 := Cloud.fetch rq (busy (core p))).
  set (c2 := fst (Cloud.triggerAction_resume (Response status body) c1)).
  assert (E2 : c2 = Cloud.set_btnTrigger
                      {| disabled := false; innerHTML := Cloud.trigger_label |}
                      (Cloud.set_timeouts
                         (Cloud.timeouts c1 ++ [(3000%Z, Cloud.HideToast); (3000%Z, Cloud.LoadRuns)])
                         (Cloud.set_statusMsg "✅ 指令已发送，请等待下方列表刷新..."
                            (Cloud.showToast "✅ 指令已发送！Actions 即将开始" c1))))
    by (subst c2; by rewrite (triggerAction_resume_ok _ _ _ Hok)).
  set (p2 := set_core c2 (set_jobs (jobs p) p)).
  assert (Hstep2 : step p1 (Settle (length (jobs p)) (Response status body)) = Some p2).
  { rewrite E1. simpl. rewrite lookup_snoc, delete_snoc. reflexivity. }
  assert (Ht2 : Cloud.timeouts c2
                = Cloud.timeouts (core p) ++ [(3000%Z, Cloud.HideToast); (3000%Z, Cloud.LoadRuns)])
    by (by rewrite E2).
  assert (Hst2 : Cloud.getSettings c2 = st) by (by rewrite E2).
  assert (Hreq2 : Cloud.requests c2 = Cloud.requests (core p) ++ [rq]) by (by rewrite E2).
  assert (Hbtn2 : Cloud.btnTrigger c2
                  = {| disabled := false; innerHTML := Cloud.trigger_label |})
    by (by rewrite E2).
  clearbody c2.
  set (p2' := lift (fun c => Cloud.set_timeouts
                     (delete (S (length (Cloud.timeouts (core p)))) (Cloud.timeouts c)) c) p2).
  exists p1, p2, (loadRuns p2'), rq.
  split; [exact Hstep1|]. split; [exact Hstep2|].
  split.
  { simpl. rewrite Ht2.
    replace ((Cloud.timeouts (core p) ++ [(3000%Z, Cloud.HideToast); (3000%Z, Cloud.LoadRuns)])
             !! S (length (Cloud.timeouts (core p))))
      with (Some (3000%Z, Cloud.LoadRuns)); [reflexivity|].
    symmetry. rewrite lookup_app_r by lia.
    by replace (S (length (Cloud.timeouts (core p))) - length (Cloud.timeouts (core p)))%nat
      with 1%nat by lia. }
  split; [reflexivity|].
  rewrite loadRuns_spec; cbv zeta.
  assert (Hst' : Cloud.getSettings (core p2') = st) by exact Hst2.
  rewrite Hst', Hset. simpl. rewrite Hreq2, <- app_assoc. by repeat split.
Qed.

Lemma dispatch_then_refresh_witness :
  disabled (Cloud.btnTrigger (core example_page)) = false
  /\ JS.nonempty (JS.trim (Cloud.urlInput (core example_page))) = true
  /\ resp_ok 204 = true
  /\ exists p1 p2 p3 rq,
       step example_page ClickTrigger = Some p1
       /\ step p1 (Settle 0 (Response 204 None)) = Some p2
       /\ step p2 (FireTimeout 1) = Some p3
       /\ req_url rq = "https://api.github.com/repos/owner/repo/dispatches"
       /\ map req_url (Cloud.requests (core p3))
          = ["https://api.github.com/repos/owner/repo/dispatches";
             "https://api.github.com/repos/owner/repo/actions/runs?per_page=5"].
Proof.
  split; [reflexivity|]. split; [reflexivity|]. split; [reflexivity|].
  destruct (dispatch_then_refresh example_page 204 None eq_refl eq_refl eq_refl eq_refl)
    as (p1 & p2 & p3 & rq & H1 & H2 & H3 & Hurl & Hreq & _).
  exists p1, p2, p3, rq.
  split; [exact H1|]. split; [exact H2|]. split; [exact H3|].
  split; [exact Hurl|].
  rewrite Hreq. simpl. by rewrite Hurl.
Defined.
End Dispatch.
